(** * Synthetic CNC data generator: [ML Models/data_generation.py]

    A shallow embedding of the batch generator and the properties of its
    output table.

    Numbers.  Python floats are IEEE 754 binary64 values: they are Rocq's
    primitive [float]s, with the same rounding.  Python integers are [Z].
    The cells of the columns [total_machine_hours], [days_to_maintenance]
    and [is_anomaly] are float64 in pandas but only ever hold the small
    integers the program stores there (exactly representable); they are kept
    as [Z] and converted with [float_of_Z] where the program computes with
    them in floating point.

    Randomness.  The program draws from two generators: numpy's global
    generator, seeded by [np.random.seed(42)], and the global generator of
    Python's [random] module, which the program never seeds.  Each is a
    stream of raw draws with a cursor.  A library call takes the next raw
    draw and maps it into the requested range, so that every value the call
    can return comes from some raw draw (CPython spends one or more words of
    its generator per call; how many does not matter to what follows).

    Exceptions.  An expression that can raise ([int] of a float, the list
    of timestamps) comes to an [attempt]: a value or the exception.  A call
    is a run, which ends with [Ok], with [Raise] and the exception, or with
    [Hang].

    Loops.  The two [for] loops over rows and the [while] loop over the
    remaining hours are structural recursions.  The rejection loop of the
    anomaly placement has no bound in the program: it takes a number of
    redraws [fuel], and [Hang] is the outcome when they are used up. *)

From Stdlib Require Import ZArith Lia Bool Floats Uint63.
From stdpp Require Import list strings gmap.

Set Warnings "-inexact-float".

Local Open Scope Z_scope.

(** ** Python numbers *)

(** [float(z)] for a Python integer that fits 63 bits. *)
Definition float_of_Z (z : Z) : float :=
  if z <? 0 then PrimFloat.opp (PrimFloat.of_uint63 (Uint63.of_Z (- z)))
  else PrimFloat.of_uint63 (Uint63.of_Z z).

(** The exceptions of the script. *)
Inductive exn := ValueError | KeyError | IndexError | OverflowError.

(** What an expression without effects comes to: a value, or an exception. *)
Inductive attempt (A : Type) :=
| Value (a : A)
| Throws (e : exn).
Arguments Value {A} a.
Arguments Throws {A} e.

#[global] Instance exn_eq_dec : EqDecision exn.
Proof. solve_decision. Defined.

#[global] Instance attempt_eq_dec {A} `{EqDecision A} : EqDecision (attempt A).
Proof. solve_decision. Defined.

Definition attempt_map {A B} (f : A -> B) (x : attempt A) : attempt B :=
  match x with
  | Value a => Value (f a)
  | Throws e => Throws e
  end.

(** [int(x)]: truncation toward zero; [ValueError] on a NaN,
    [OverflowError] on an infinity. *)
Definition int (x : float) : attempt Z :=
  match Prim2SF x with
  | S754_zero _ => Value 0
  | S754_finite s m e =>
      let a := if 0 <=? e then Z.pos m * 2 ^ e else Z.pos m / 2 ^ (- e) in
      Value (if s then - a else a)
  | S754_infinity _ => Throws OverflowError
  | S754_nan => Throws ValueError
  end.

(** [max(a, b)] and [min(a, b)] of Python: the first argument is returned
    unless the second one is strictly greater (resp. smaller). *)
Definition py_max (a b : float) : float := if PrimFloat.ltb a b then b else a.
Definition py_min (a b : float) : float := if PrimFloat.ltb b a then b else a.

(** [Series.clip(lower, upper)] on one cell: a NaN stays, anything else is
    moved to the nearer bound when outside. *)
Definition clip (lower upper x : float) : float :=
  if PrimFloat.is_nan x then x
  else
    let y := if PrimFloat.leb lower x then x else lower in
    if PrimFloat.leb y upper then y else upper.

(** ** Outcomes of a run *)

(** [Ok a w]: the call returned [a] and left the generators in state [w];
    [Raise e]: it aborted with exception [e]; [Hang]: it was still looping
    when the step budget of the model ran out. *)
Inductive result (W A : Type) :=
| Ok (a : A) (w : W)
| Raise (e : exn)
| Hang.
Arguments Ok {W A} a w.
Arguments Raise {W A} e.
Arguments Hang {W A}.

(** ** The two random generators *)

(** Python's [random] module: [py_bits] is the stream of raw outputs of the
    underlying generator, [py_pos] the number of outputs consumed so far. *)
Record py_random := { py_bits : nat -> Z; py_pos : nat }.

(** numpy's global generator: the stream of standard normal variates it will
    hand out, fixed by the seed, and the number consumed so far. *)
Record np_random := { np_gauss : nat -> float; np_pos : nat }.

Record world := { py : py_random; np : np_random }.

Definition M (A : Type) : Type := world -> result world A.

Definition ret {A} (a : A) : M A := fun w => Ok a w.

Definition bind {A B} (m : M A) (f : A -> M B) : M B :=
  fun w => match m w with
           | Ok a w' => f a w'
           | Raise e => Raise e
           | Hang => Hang
           end.

Definition raise {A} (e : exn) : M A := fun _ => Raise e.

Notation "'let*' x ':=' m 'in' k" := (bind m (fun x => k))
  (at level 10, x name, m at level 100, k at level 200).

(** One raw output of Python's generator. *)
Definition getrand : M Z :=
  fun w =>
    let g := py w in
    Ok (py_bits g (py_pos g))
       {| py := {| py_bits := py_bits g; py_pos := S (py_pos g) |}; np := np w |}.

(** [random.random()]: 53 random bits [k] scaled into [0, 1). *)
Definition random_of_bits (k : Z) : float :=
  (float_of_Z (k mod 2 ^ 53) / 9007199254740992)%float.

Definition random : M float :=
  let* k := getrand in
  ret (random_of_bits k).

(** [random.uniform(a, b)] is [a + (b - a) * random()]. *)
Definition uniform (a b : float) : M float :=
  let* r := random in
  ret (a + (b - a) * r)%float.

(** [random._randbelow(n)] for [n > 0]: an integer of [0 .. n-1]. *)
Definition randbelow (n : Z) : M Z :=
  let* k := getrand in
  ret (k mod n).

(** [random.randint(a, b)]: an integer of [a .. b]; [ValueError] on an empty
    range. *)
Definition randint (a b : Z) : M Z :=
  if b <? a then raise ValueError
  else let* k := randbelow (b - a + 1) in ret (a + k).

(** [random.choice(seq)]: [seq[_randbelow(len(seq))]]; [IndexError] on an
    empty sequence is not needed here, the catalog is not empty. *)
Definition choice {A} (d : A) (l : list A) : M A :=
  let* k := randbelow (Z.of_nat (length l)) in
  ret (nth (Z.to_nat k) l d).

(** [x[i], x[j] = x[j], x[i]]. *)
Definition swap {A} (x : list A) (i j : nat) : list A :=
  match x !! i, x !! j with
  | Some a, Some b => <[i := b]> (<[j := a]> x)
  | _, _ => x
  end.

(** [random.shuffle(x)]:
    [for i in reversed(range(1, len(x))): j = randbelow(i + 1); swap],
    from index [i] down. *)
Fixpoint shuffle_from {A} (i : nat) (x : list A) : M (list A) :=
  match i with
  | O => ret x
  | S i' =>
      let* j := randbelow (Z.of_nat (S i') + 1) in
      shuffle_from i' (swap x (S i') (Z.to_nat j))
  end.

Definition shuffle {A} (x : list A) : M (list A) :=
  shuffle_from (length x - 1)%nat x.

(** One standard normal variate of numpy's generator. *)
Definition gauss : M float :=
  fun w =>
    let g := np w in
    Ok (np_gauss g (np_pos g))
       {| py := py w; np := {| np_gauss := np_gauss g; np_pos := S (np_pos g) |} |}.

(** [np.random.normal(loc, scale)]: [loc + scale * gauss()]. *)
Definition normal (loc scale : float) : M float :=
  let* z := gauss in
  ret (loc + scale * z)%float.

(** [np.random.normal(loc, scale, size)]: [size] successive draws. *)
Fixpoint normal_vec (loc scale : float) (size : nat) : M (list float) :=
  match size with
  | O => ret []
  | S k =>
      let* x := normal loc scale in
      let* xs := normal_vec loc scale k in
      ret (x :: xs)
  end.

(** ** The table *)

(** A pandas DataFrame, by column.  [measurements] holds the float64 columns
    that [generate_normal_data] creates and that the anomaly catalog addresses
    by name; the columns added by [generate_health_and_maintenance] are empty
    before that stage has run.  A timestamp is the number of hours since
    2025-01-01 00:00. *)
Record DataFrame := {
  timestamp : list Z;
  measurements : gmap string (list float);
  total_machine_hours : list Z;
  machine_health_score : list float;
  days_to_maintenance : list Z;
  is_anomaly : list Z;
  anomaly_type : list string;
  anomaly_severity : list float
}.

(** [len(df)] *)
Definition len (df : DataFrame) : nat := length (timestamp df).

(** ** The constants of the script *)

(** [n_samples = 24 * 90]: hourly readings for 90 days.  The functions below
    take the number of rows as a parameter of the same name. *)
Definition n_samples : nat := 24 * 90.

(** ** Calendar *)

(** Days from 1970-01-01 to [start_date = datetime(2025, 1, 1, 0, 0, 0)]. *)
Definition start_date : Z := 20089.

(** [(start_date + timedelta(hours=h)).day]: the day of the month, by the
    usual civil-from-days computation on the proleptic Gregorian calendar. *)
Definition day (h : Z) : Z :=
  let z := start_date + h / 24 + 719468 in
  let era := z / 146097 in
  let doe := z - era * 146097 in
  let yoe := (doe - doe / 1460 + doe / 36524 - doe / 146096) / 365 in
  let doy := doe - (365 * yoe + yoe / 4 - yoe / 100) in
  let mp := (5 * doy + 2) / 153 in
  doy - (153 * mp + 2) / 5 + 1.

(** ** Stage 1: [generate_normal_data] *)

(** The loop over [machine_hours_today] and [total_machine_hours]; [ts] is
    what is left of the timestamp column. *)
Fixpoint usage_loop (ts : list Z) (current_day : Z) (daily_hours : float)
    (cumulative_hours : Z) : M (list float * list Z) :=
  match ts with
  | [] => ret ([], [])
  | t :: ts' =>
      let d := day t in
      let* daily_hours :=
        (if negb (d =? current_day) then uniform 6 15 else ret daily_hours) in
      let cumulative_hours := cumulative_hours + 1 in
      let* rest := usage_loop ts' d daily_hours cumulative_hours in
      ret (daily_hours :: fst rest, cumulative_hours :: snd rest)
  end.

(** The tool usage loop, from tick [i] on, [k] ticks to go; [col] is
    [data["tool_usage_min"]]. *)
Fixpoint tool_usage_loop (k i : nat) (tool_usage : float) (col : list float)
    : M (list float) :=
  match k with
  | O => ret col
  | S k' =>
      let* tool_usage :=
        (if (0 <? i)%nat then
           if PrimFloat.ltb 4000 tool_usage then ret 0%float
           else let* u := uniform 10 20 in ret (tool_usage + u)%float
         else ret tool_usage) in
      tool_usage_loop k' (S i) tool_usage (<[i := tool_usage]> col)
  end.

(** The last hour that [start_date + timedelta(hours=i)] can be: hour 23 of
    9999-12-31, the last day of [datetime]. *)
Definition last_hour : Z := 69907391.

(** [[start_date + timedelta(hours=i) for i in range(n_samples)]]: the
    addition raises [OverflowError] past [last_hour]. *)
Definition timestamps (n_samples : nat) : attempt (list Z) :=
  if last_hour <? Z.of_nat n_samples - 1 then Throws OverflowError
  else Value (map Z.of_nat (seq 0 n_samples)).

(** The dict is built entry by entry: the timestamps first, then the
    columns of normal draws.  [data["timestamp"][0]] raises [IndexError]
    when [n_samples] is 0, after the dict has been built. *)
Definition generate_normal_data (n_samples : nat) : M DataFrame :=
  match timestamps n_samples with
  | Throws e => raise e
  | Value ts =>
  let* vibration_rms := normal_vec 0.8 0.15 n_samples in
  let* motor_temp_C := normal_vec 65 4 n_samples in
  let* spindle_current_A := normal_vec 15 1.5 n_samples in
  let* rpm := normal_vec 3000 200 n_samples in
  let* coolant_temp_C := normal_vec 30 2 n_samples in
  let* cutting_force_N := normal_vec 200 15 n_samples in
  let* power_consumption_W := normal_vec 5000 400 n_samples in
  let* acoustic_level_dB := normal_vec 75 3 n_samples in
  match ts !! 0%nat with
  | None => raise IndexError
  | Some t0 =>
  let current_day := day t0 in
  let* daily_hours := uniform 6 15 in
  let* usage := usage_loop ts current_day daily_hours 5000 in
  let machine_hours_today := fst usage in
  let total := snd usage in
  let* tool_usage_min :=
    tool_usage_loop n_samples 0 0%float (replicate n_samples 0%float) in
  ret {| timestamp := ts;
         measurements :=
           <["vibration_rms" := vibration_rms]>
           (<["motor_temp_C" := motor_temp_C]>
           (<["spindle_current_A" := spindle_current_A]>
           (<["rpm" := rpm]>
           (<["tool_usage_min" := tool_usage_min]>
           (<["coolant_temp_C" := coolant_temp_C]>
           (<["cutting_force_N" := cutting_force_N]>
           (<["power_consumption_W" := power_consumption_W]>
           (<["acoustic_level_dB" := acoustic_level_dB]>
           (<["machine_hours_today" := machine_hours_today]> ∅)))))))));
         total_machine_hours := total;
         machine_health_score := [];
         days_to_maintenance := [];
         is_anomaly := [];
         anomaly_type := [];
         anomaly_severity := [] |}
  end
  end.

(** ** Stage 2: [generate_health_and_maintenance] *)

Definition health_decay_per_hour : float := 0.02.

(** The step function of the loop body. *)
Definition days_to_maint (current_health : float) : attempt Z :=
  if PrimFloat.ltb 80 current_health then Value 30
  else if PrimFloat.ltb 60 current_health then Value 20
  else if PrimFloat.ltb 40 current_health then Value 10
  else attempt_map (Z.max 0) (int (current_health / 10)).

(** [day * 24 + hour] for [day = i * 30 + randint(-5, 5)] and
    [hour = randint(0, 23)]. *)
Definition maintenance_point (i : Z) : M Z :=
  let* d := randint (-5) 5 in
  let day := i * 30 + d in
  let* hour := randint 0 23 in
  ret (day * 24 + hour).

(** [for i in range(1, 4): maintenance_points.append(...)] *)
Definition draw_maintenance_points : M (list Z) :=
  let* p1 := maintenance_point 1 in
  let* p2 := maintenance_point 2 in
  let* p3 := maintenance_point 3 in
  ret [p1; p2; p3].

(** [current_health] at the top of the body of tick [i], after the decay. *)
Definition decayed (total : list Z) (i : nat) (current_health : float) : float :=
  if (0 <? i)%nat then
    let usage_factor :=
      (1.0 + (float_of_Z (nth i total 0%Z) - float_of_Z (nth (i - 1) total 0%Z)) / 1000)%float in
    py_max 20 (current_health - health_decay_per_hour * usage_factor)%float
  else current_health.

(** The loop [for i in range(len(df))], from tick [i] on with [k] ticks to
    go.  [hs] and [ds] are the columns [machine_health_score] and
    [days_to_maintenance]. *)
Fixpoint health_loop (maintenance_points total : list Z) (k i : nat)
    (current_health : float) (hs : list float) (ds : list Z)
    : attempt (list float * list Z) :=
  match k with
  | O => Value (hs, ds)
  | S k' =>
      let current_health := decayed total i current_health in
      let hs := <[i := current_health]> hs in
      match days_to_maint current_health with
      | Throws e => Throws e
      | Value d =>
          let ds := <[i := d]> ds in
          if bool_decide (Z.of_nat i ∈ maintenance_points) then
            health_loop maintenance_points total k' (S i) 100 hs (<[i := 30]> ds)
          else
            health_loop maintenance_points total k' (S i) current_health hs ds
      end
  end.

(** [df['machine_health_score'] += noise] followed by [.clip(0, 100)]. *)
Definition add_noise_and_clip (hs noise : list float) : list float :=
  map (clip 0 100) (zip_with PrimFloat.add hs noise).

Definition generate_health_and_maintenance (df : DataFrame) : M DataFrame :=
  let n := len df in
  let* maintenance_points := draw_maintenance_points in
  match health_loop maintenance_points (total_machine_hours df) n 0 100
          (replicate n 0%float) (replicate n 0) with
  | Throws e => raise e
  | Value (hs, ds) =>
      let* noise := normal_vec 0 1 n in
      ret {| timestamp := timestamp df;
             measurements := measurements df;
             total_machine_hours := total_machine_hours df;
             machine_health_score := add_noise_and_clip hs noise;
             days_to_maintenance := ds;
             is_anomaly := replicate n 0;
             anomaly_type := replicate n "normal"%string;
             anomaly_severity := replicate n 0%float |}
  end.

(** ** Stage 3: [introduce_anomalies] *)

(** A Python dict with string keys, in insertion order. *)
Fixpoint dict_get {A} (d : list (string * A)) (k : string) : option A :=
  match d with
  | [] => None
  | (k', v) :: d' => if String.eqb k' k then Some v else dict_get d' k
  end.

Definition anomaly_types : list (string * list (string * float)) :=
  [ ("tool_wear",
     [ ("vibration_rms", 1.5); ("cutting_force_N", 1.3); ("acoustic_level_dB", 1.2);
       ("tool_usage_min", 1.0); ("severity_impact", 0.7); ("progression_rate", 1.2) ]);
    ("tool_break",
     [ ("vibration_rms", 2.5); ("cutting_force_N", 0.7); ("acoustic_level_dB", 1.5);
       ("spindle_current_A", 1.3); ("severity_impact", 0.9); ("progression_rate", 1.8) ]);
    ("motor_overheating",
     [ ("motor_temp_C", 1.4); ("power_consumption_W", 1.2); ("spindle_current_A", 1.15);
       ("severity_impact", 0.8); ("progression_rate", 1.0) ]);
    ("coolant_failure",
     [ ("coolant_temp_C", 1.5); ("motor_temp_C", 1.2);
       ("severity_impact", 0.85); ("progression_rate", 1.5) ]);
    ("power_supply_issue",
     [ ("power_consumption_W", 1.3); ("spindle_current_A", 0.85); ("rpm", 0.9);
       ("severity_impact", 0.75); ("progression_rate", 0.8) ]) ]%string%float.

(** [total_anomaly_hours]: [int(total_hours * anomaly_percentage)], replaced
    by 12 when it is 0. *)
Definition total_anomaly_hours (total_hours : nat) (anomaly_percentage : float)
    : attempt Z :=
  match int (float_of_Z (Z.of_nat total_hours) * anomaly_percentage)%float with
  | Throws e => Throws e
  | Value t => Value (if t =? 0 then 12 else t)
  end.

(** [while remaining_hours > 0: ...], at most [fuel] passes. *)
Fixpoint sequences_loop (fuel : nat) (remaining_hours : Z) (sequences : list Z)
    : M (list Z) :=
  if 0 <? remaining_hours then
    match fuel with
    | O => fun _ => Hang
    | S fuel' =>
        let* r := randint 6 48 in
        let seq_length := Z.min r remaining_hours in
        sequences_loop fuel' (remaining_hours - seq_length) (sequences ++ [seq_length])
    end
  else ret sequences.

(** [df.iloc[lo:hi]] on one column, for [0 <= lo] and [0 <= hi]. *)
Definition iloc {A} (lo hi : Z) (col : list A) : list A :=
  take (Z.to_nat (hi - lo)) (drop (Z.to_nat lo) col).

(** The condition of the rejection loop:
    [any(df.iloc[max(0, start_pos-48):min(len(df), start_pos+seq_length+48)]['is_anomaly'] > 0)] *)
Definition overlaps (df : DataFrame) (start_pos seq_length : Z) : bool :=
  existsb (fun x => 0 <? x)
    (iloc (Z.max 0 (start_pos - 48))
          (Z.min (Z.of_nat (len df)) (start_pos + seq_length + 48))
          (is_anomaly df)).

(** [while overlaps: start_pos = random.randint(48, len(df) - seq_length - 48)],
    at most [fuel] redraws. *)
Fixpoint redraw_start (fuel : nat) (df : DataFrame) (seq_length start_pos : Z) : M Z :=
  if overlaps df start_pos seq_length then
    match fuel with
    | O => fun _ => Hang
    | S fuel' =>
        let* start_pos := randint 48 (Z.of_nat (len df) - seq_length - 48) in
        redraw_start fuel' df seq_length start_pos
    end
  else ret start_pos.

(** In-place writes [df.loc[pos, column] = v].  Every write of the program
    is at a row [pos < len(df)] (pandas would append a row otherwise). *)
Definition set_is_anomaly (pos : nat) (v : Z) (df : DataFrame) : DataFrame :=
  {| timestamp := timestamp df; measurements := measurements df;
     total_machine_hours := total_machine_hours df;
     machine_health_score := machine_health_score df;
     days_to_maintenance := days_to_maintenance df;
     is_anomaly := <[pos := v]> (is_anomaly df);
     anomaly_type := anomaly_type df;
     anomaly_severity := anomaly_severity df |}.

Definition set_anomaly_type (pos : nat) (v : string) (df : DataFrame) : DataFrame :=
  {| timestamp := timestamp df; measurements := measurements df;
     total_machine_hours := total_machine_hours df;
     machine_health_score := machine_health_score df;
     days_to_maintenance := days_to_maintenance df;
     is_anomaly := is_anomaly df;
     anomaly_type := <[pos := v]> (anomaly_type df);
     anomaly_severity := anomaly_severity df |}.

Definition set_anomaly_severity (pos : nat) (v : float) (df : DataFrame) : DataFrame :=
  {| timestamp := timestamp df; measurements := measurements df;
     total_machine_hours := total_machine_hours df;
     machine_health_score := machine_health_score df;
     days_to_maintenance := days_to_maintenance df;
     is_anomaly := is_anomaly df;
     anomaly_type := anomaly_type df;
     anomaly_severity := <[pos := v]> (anomaly_severity df) |}.

Definition set_machine_health_score (pos : nat) (v : float) (df : DataFrame) : DataFrame :=
  {| timestamp := timestamp df; measurements := measurements df;
     total_machine_hours := total_machine_hours df;
     machine_health_score := <[pos := v]> (machine_health_score df);
     days_to_maintenance := days_to_maintenance df;
     is_anomaly := is_anomaly df;
     anomaly_type := anomaly_type df;
     anomaly_severity := anomaly_severity df |}.

Definition set_measurements (m : gmap string (list float)) (df : DataFrame) : DataFrame :=
  {| timestamp := timestamp df; measurements := m;
     total_machine_hours := total_machine_hours df;
     machine_health_score := machine_health_score df;
     days_to_maintenance := days_to_maintenance df;
     is_anomaly := is_anomaly df;
     anomaly_type := anomaly_type df;
     anomaly_severity := anomaly_severity df |}.

(** The body of [for metric, multiplier in anomaly_config.items()].  The keys
    of the catalog entries are the two meta-keys and measurement columns:
    [metric in df.columns] is a lookup among the latter. *)
Definition perturb (pos : nat) (severity : float) (df : DataFrame)
    (item : string * float) : DataFrame :=
  let '(metric, multiplier) := item in
  match measurements df !! metric with
  | Some col =>
      if bool_decide (metric ∈ ["severity_impact"; "progression_rate"]%string) then df
      else
        let effect := (1.0 + (multiplier - 1.0) * severity)%float in
        match col !! pos with
        | Some x => set_measurements (<[metric := <[pos := (x * effect)%float]> col]> (measurements df)) df
        | None => df
        end
  | None => df
  end.

(** The body of [for i in range(seq_length)]. *)
Definition anomaly_tick (anomaly_type : string) (anomaly_config : list (string * float))
    (progression_rate severity_impact : float) (start_pos seq_length : Z)
    (df : DataFrame) (i : Z) : M DataFrame :=
  let pos := Z.to_nat (start_pos + i) in
  let* noise := normal 0 0.05 in
  let severity :=
    py_max 0.1 (py_min 1.0 (float_of_Z i / float_of_Z seq_length * progression_rate + noise))%float in
  let df := set_is_anomaly pos 1 df in
  let df := set_anomaly_type pos anomaly_type df in
  let df := set_anomaly_severity pos severity df in
  let df := fold_left (perturb pos severity) anomaly_config df in
  let health_impact := (-50 * severity * severity_impact)%float in
  match machine_health_score df !! pos with
  | None => raise KeyError
  | Some h => ret (set_machine_health_score pos (py_max 0 (py_min 100 (h + health_impact)%float)) df)
  end.

Fixpoint for_each {A B} (f : B -> A -> M B) (l : list A) (b : B) : M B :=
  match l with
  | [] => ret b
  | a :: l' => let* b' := f b a in for_each f l' b'
  end.

(** [range(n)] *)
Definition range (n : Z) : list Z := map Z.of_nat (seq 0 (Z.to_nat n)).

(** The body of [for seq_length in sequences].  Besides the table it returns
    the pair [(start_pos, seq_length)] that the pass settled on. *)
Definition place_episode (fuel : nat) (df : DataFrame) (seq_length : Z)
    : M (DataFrame * (Z * Z)) :=
  let* anomaly_type := choice ""%string (map fst anomaly_types) in
  match dict_get anomaly_types anomaly_type with
  | None => raise KeyError
  | Some anomaly_config =>
      let* start_pos := randint 48 (Z.of_nat (len df) - seq_length - 48) in
      let* start_pos := redraw_start fuel df seq_length start_pos in
      match dict_get anomaly_config "progression_rate", dict_get anomaly_config "severity_impact" with
      | Some progression_rate, Some severity_impact =>
          let* df := for_each (anomaly_tick anomaly_type anomaly_config progression_rate
                                 severity_impact start_pos seq_length)
                       (range seq_length) df in
          ret (df, (start_pos, seq_length))
      | _, _ => raise KeyError
      end
  end.

(** [for seq_length in sequences], with the list of the episodes placed so
    far (in placement order). *)
Fixpoint place_episodes (fuel : nat) (sequences : list Z) (df : DataFrame)
    (placed : list (Z * Z)) : M (DataFrame * list (Z * Z)) :=
  match sequences with
  | [] => ret (df, placed)
  | seq_length :: rest =>
      let* r := place_episode fuel df seq_length in
      place_episodes fuel rest (fst r) (placed ++ [snd r])
  end.

(** The first part of the body of [introduce_anomalies], up to
    [random.shuffle(sequences)].  The [while] loop takes at least one hour
    off [remaining_hours] per pass, so [total_anomaly_hours] passes are
    enough for it. *)
Definition draw_sequences (total_hours : nat) (anomaly_percentage : float)
    : M (list Z) :=
  match total_anomaly_hours total_hours anomaly_percentage with
  | Throws e => raise e
  | Value total =>
      let* sequences := sequences_loop (Z.to_nat total) total [] in
      let sequences := if bool_decide (length sequences = 0%nat) then [12] else sequences in
      shuffle sequences
  end.

(** [introduce_anomalies(df, anomaly_percentage)], returning the table and the
    episodes [(start_pos, seq_length)] it placed.  [fuel] bounds the number of
    redraws of each rejection loop. *)
Definition introduce_anomalies_trace (fuel : nat) (df : DataFrame)
    (anomaly_percentage : float) : M (DataFrame * list (Z * Z)) :=
  let* sequences := draw_sequences (len df) anomaly_percentage in
  place_episodes fuel sequences df [].

Definition introduce_anomalies (fuel : nat) (df : DataFrame) (anomaly_percentage : float)
    : M DataFrame :=
  let* r := introduce_anomalies_trace fuel df anomaly_percentage in
  ret (fst r).

(** ** The script

    [df = generate_normal_data(n_samples)],
    [df = generate_health_and_maintenance(df)], [df = introduce_anomalies(df)],
    for any number of rows and any percentage; the script itself runs them
    on [n_samples] rows with the default percentage 0.15.  The derived
    feature columns computed afterwards are new columns; they change none of
    the columns above. *)
Definition pipeline_trace (fuel : nat) (n_samples : nat) (anomaly_percentage : float)
    : M (DataFrame * list (Z * Z)) :=
  let* df := generate_normal_data n_samples in
  let* df := generate_health_and_maintenance df in
  introduce_anomalies_trace fuel df anomaly_percentage.

Definition pipeline (fuel : nat) (n_samples : nat) (anomaly_percentage : float)
    : M DataFrame :=
  let* r := pipeline_trace fuel n_samples anomaly_percentage in
  ret (fst r).

(** A run of the script: numpy's stream is the one its seed fixes, Python's
    stream [entropy] comes from the operating system. *)
Definition boot (seeded : nat -> float) (entropy : nat -> Z) : world :=
  {| py := {| py_bits := entropy; py_pos := 0 |};
     np := {| np_gauss := seeded; np_pos := 0 |} |}.

Definition sum_Z (l : list Z) : Z := foldr Z.add 0 l.

(** [df['is_anomaly'].sum()] *)
Definition anomaly_count (df : DataFrame) : Z := sum_Z (is_anomaly df).

(** * Vocabulary of the statements

    Predicates on tables and runs, and the inputs of the example runs. *)

(** Calls that always return. *)
Definition returns {A} (m : M A) : Prop := forall w, exists a w', m w = Ok a w'.

(** One pass of the tool usage loop, read off the column. *)
Definition tool_usage_step (prev cur : float) : Prop :=
  if PrimFloat.ltb 4000 prev then cur = 0%float
  else exists k, cur = (prev + (10 + (20 - 10) * random_of_bits k))%float.

(** The columns that [perturb] leaves alone. *)
Definition same_frame (df df' : DataFrame) : Prop :=
  timestamp df' = timestamp df /\
  total_machine_hours df' = total_machine_hours df /\
  machine_health_score df' = machine_health_score df /\
  days_to_maintenance df' = days_to_maintenance df /\
  is_anomaly df' = is_anomaly df /\
  anomaly_type df' = anomaly_type df /\
  anomaly_severity df' = anomaly_severity df.

(** A value as the clamp [max(0, min(100, x))] leaves it. *)
Definition clamped (h : float) : Prop := exists x, h = py_max 0 (py_min 100 x).

(** The cells an episode flags: [pos = start_pos + i] for [i] in
    [range(seq_length)]. *)
Definition episode_ticks (start_pos seq_length : Z) : list nat :=
  map (fun i => Z.to_nat (start_pos + i)) (range seq_length).

Definition mark (col : list Z) (ps : list nat) : list Z :=
  fold_left (fun c p => <[p := 1]> c) ps col.

(** Tick [t] lies in one of the episodes placed so far. *)
Definition covered (placed : list (Z * Z)) (t : Z) : Prop :=
  exists s l, (s, l) ∈ placed /\ s <= t < s + l.

(** Two episodes [(start_pos, seq_length)] with at least 48 ticks between
    the last tick of one and the first tick of the other. *)
Definition apart (a b : Z * Z) : Prop :=
  fst a + snd a + 48 <= fst b \/ fst b + snd b + 48 <= fst a.

Record placement_inv (df : DataFrame) (placed : list (Z * Z)) : Prop := {
  inv_flags_len : length (is_anomaly df) = len df;
  inv_health_len : length (machine_health_score df) = len df;
  inv_flags : forall t x, is_anomaly df !! t = Some x ->
    (x = 1 /\ covered placed (Z.of_nat t)) \/ (x = 0 /\ ~ covered placed (Z.of_nat t));
  inv_inside : forall s l, (s, l) ∈ placed ->
    48 <= s /\ 0 < l /\ s + l + 48 <= Z.of_nat (len df);
  inv_apart : forall i j a b, i <> j ->
    placed !! i = Some a -> placed !! j = Some b -> apart a b;
  inv_count : anomaly_count df = sum_Z (map snd placed)
}.

(** A stream of raw outputs that is 0 except at the listed positions. *)
Definition draws (l : list (nat * Z)) (i : nat) : Z :=
  match list_find (fun p => bool_decide (fst p = i)) l with
  | Some (_, p) => snd p
  | None => 0
  end.

(** A stream of normal variates that are all 0. *)
Definition still (i : nat) : float := 0%float.

(** A stream of raw outputs that looks random: a linear congruential
    sequence, cut to 53 bits. *)
Definition lcg (i : nat) : Z :=
  (Z.of_nat i * 6364136223846793005 + 1442695040888963407) mod 2 ^ 63 / 1024.

(** The same stream with output number 90 replaced by [k].  On a table of
    [n_samples] rows output 0 goes to the first [daily_hours], outputs 1 to
    89 to the 89 changes of day, and output 90 to the
    [random.uniform(10, 20)] of tick 1 of [tool_usage_min]. *)
Definition lcg_with (k : Z) (i : nat) : Z :=
  if (i =? 90)%nat then k else lcg i.

(** The run returned, and what it returned passes [check]. *)
Definition returned {A} (check : A -> bool) (r : result world A) : bool :=
  match r with
  | Ok a _ => check a
  | _ => false
  end.

(** The script up to the end of the first pass of the placement loop, run
    without any redraw. *)
Definition front (n_samples : nat) (anomaly_percentage : float)
    : M (list Z * (DataFrame * (Z * Z))) :=
  let* df := generate_normal_data n_samples in
  let* df := generate_health_and_maintenance df in
  let* sequences := draw_sequences (len df) anomaly_percentage in
  let* r := place_episode 0 df (hd 0 sequences) in
  ret (sequences, r).

(** The first pass of the placement loop left no start for the second
    episode: every start that [randint] can draw for it is rejected. *)
Definition second_stuck (a : list Z * (DataFrame * (Z * Z))) : bool :=
  match fst a with
  | _ :: l2 :: _ =>
      let df := fst (snd a) in
      (48 <=? Z.of_nat (len df) - l2 - 48) &&
      forallb (fun s => overlaps df s l2)
        (map (fun i => 48 + Z.of_nat i)
           (seq 0 (Z.to_nat (Z.of_nat (len df) - l2 - 48 - 48 + 1))))
  | _ => false
  end.

(** 300 rows, 5% of anomalies: the budget of 15 hours is split into episodes
    of 8 and 7 hours, shuffled to 7 and 8.  The first goes to rows 48..54;
    the first start drawn for the second is 48 again and is rejected, the
    redraw gives 148. *)
Abbreviation run_300 :=
  (pipeline_trace 1 300 0.05
     (boot still (draws [(318%nat, 2); (319%nat, 1); (325%nat, 100)]))).

(** The script as it is, [n_samples] rows and 15% of anomalies, on the
    stream [lcg] and with up to 50 redraws per episode: 14 episodes. *)
Abbreviation run_script := (pipeline_trace 50 n_samples 0.15 (boot still lcg)).

(** 120 rows, 5% of anomalies, all raw outputs 0: one episode of 6 hours of
    type tool_wear on rows 48..53. *)
Abbreviation run_120 := (pipeline_trace 0 120 0.05 (boot still (draws []))).

(** 602 rows, 1% of anomalies, all raw outputs 0: tick 600 is a checkpoint
    and a row of the table, and so is tick 601. *)
Abbreviation run_602 := (pipeline_trace 0 602 0.01 (boot still (draws []))).

(** The checkpoints of a run of [n_samples] rows. *)
Definition checkpoints (n_samples : nat) : M (list Z) :=
  let* df := generate_normal_data n_samples in
  draw_maintenance_points.

(** The health pass of a run of [n_samples] rows, before the noise: the
    checkpoints and the two columns of the loop. *)
Definition health_pass (n_samples : nat) : M (list Z * (list float * list Z)) :=
  let* df := generate_normal_data n_samples in
  let* pts := draw_maintenance_points in
  match health_loop pts (total_machine_hours df) n_samples 0 100
          (replicate n_samples 0%float) (replicate n_samples 0) with
  | Value r => ret (pts, r)
  | Throws e => raise e
  end.

(** The cell of tick 1 of [tool_usage_min]. *)
Definition second_tool_usage (df : DataFrame) : option float :=
  match measurements df !! "tool_usage_min"%string with
  | Some col => col !! 1%nat
  | None => None
  end.

(** Both runs returned, and the cell of tick 1 of [tool_usage_min] is below
    12 in the first table only. *)
Definition differ (r1 r2 : result world DataFrame) : bool :=
  match r1, r2 with
  | Ok df1 _, Ok df2 _ =>
      match second_tool_usage df1, second_tool_usage df2 with
      | Some x, Some y => PrimFloat.ltb x 12 && negb (PrimFloat.ltb y 12)
      | _, _ => false
      end
  | _, _ => false
  end.

(** A float that is a number: neither NaN nor an infinity. *)
Definition finite (x : float) : bool :=
  match Prim2SF x with
  | S754_zero _ | S754_finite _ _ _ => true
  | S754_infinity _ | S754_nan => false
  end.

(** [0 <= h <= 100] *)
Definition in_range (h : float) : Prop :=
  PrimFloat.leb 0 h = true /\ PrimFloat.leb h 100 = true.

Definition keeps_gauss {A} (m : M A) : Prop :=
  forall w a w', m w = Ok a w' -> np_gauss (np w') = np_gauss (np w).

(** ** Vocabulary of the row-by-row statements *)
(** [df.loc[t, name]] for a measurement column [name]. *)
Definition loc (df : DataFrame) (name : string) (t : nat) : option float :=
  match measurements df !! name with
  | Some col => col !! t
  | None => None
  end.

(** What the loop over [anomaly_config.items()] leaves in a cell that held [x]:
    the cell times [effect] when the column is a key of the entry, [x]
    otherwise. *)
Definition scaled (anomaly_config : list (string * float)) (name : string)
    (severity x : float) : float :=
  match dict_get anomaly_config name with
  | Some multiplier =>
      if bool_decide (name ∈ ["severity_impact"; "progression_rate"]%string) then x
      else (x * (1.0 + (multiplier - 1.0) * severity))%float
  | None => x
  end.

(** Two states of one column that differ at most on the rows [touched]. *)
Definition agree_outside {A} (touched : nat -> Prop) (col col' : list A) : Prop :=
  length col' = length col /\ forall t, ~ touched t -> col' !! t = col !! t.

(** Two states of the table that differ at most on the rows [touched]: the
    same columns of the same lengths, and the same cells elsewhere. *)
Definition rows_kept (touched : nat -> Prop) (df df' : DataFrame) : Prop :=
  timestamp df' = timestamp df /\
  total_machine_hours df' = total_machine_hours df /\
  days_to_maintenance df' = days_to_maintenance df /\
  agree_outside touched (machine_health_score df) (machine_health_score df') /\
  agree_outside touched (is_anomaly df) (is_anomaly df') /\
  agree_outside touched (anomaly_type df) (anomaly_type df') /\
  agree_outside touched (anomaly_severity df) (anomaly_severity df') /\
  (forall name, length <$> measurements df' !! name = length <$> measurements df !! name) /\
  (forall name t, ~ touched t -> loc df' name t = loc df name t).

(** Row [t] of [df'] is what tick [t - start_pos] of an episode of type
    [type] makes of row [t] of [df]. *)
Definition row_written (type : string) (anomaly_config : list (string * float))
    (progression_rate severity_impact : float) (start_pos seq_length : Z)
    (df df' : DataFrame) (t : nat) : Prop :=
  is_anomaly df' !! t = Some 1 /\
  anomaly_type df' !! t = Some type /\
  exists z severity,
    severity =
      py_max 0.1 (py_min 1.0 (float_of_Z (Z.of_nat t - start_pos) / float_of_Z seq_length
                              * progression_rate + (0 + 0.05 * z)))%float /\
    anomaly_severity df' !! t = Some severity /\
    (exists h, machine_health_score df !! t = Some h /\
       machine_health_score df' !! t =
         Some (py_max 0 (py_min 100 (h + -50 * severity * severity_impact)%float))) /\
    (forall name, loc df' name t = scaled anomaly_config name severity <$> loc df name t).

(** The four columns that [generate_health_and_maintenance] adds besides the
    days have one cell per row. *)
Definition labelled (df : DataFrame) : Prop :=
  length (machine_health_score df) = len df /\
  length (is_anomaly df) = len df /\
  length (anomaly_type df) = len df /\
  length (anomaly_severity df) = len df.

(** The float columns of [generate_normal_data] other than
    [total_machine_hours], in the order of the dict. *)
Definition measurement_columns : list string :=
  [ "vibration_rms"; "motor_temp_C"; "spindle_current_A"; "rpm"; "tool_usage_min";
    "coolant_temp_C"; "cutting_force_N"; "power_consumption_W"; "acoustic_level_dB";
    "machine_hours_today" ]%string.

(** The day of the month of the day number [doe] of a 400-year era that
    starts on a 1st of March: the last steps of [day]. *)
Definition day_of_era (doe : Z) : Z :=
  let yoe := (doe - doe / 1460 + doe / 36524 - doe / 146096) / 365 in
  let doy := doe - (365 * yoe + yoe / 4 - yoe / 100) in
  let mp := (5 * doy + 2) / 153 in
  doy - (153 * mp + 2) / 5 + 1.

(** No two consecutive days of an era have the same day of the month. *)
Definition days_differ (doe : Z) : bool :=
  negb (day_of_era ((doe + 1) mod 146097) =? day_of_era doe).

(** [f] holds of the [k] integers from [a] on. *)
Fixpoint all_from (f : Z -> bool) (a : Z) (k : nat) : bool :=
  match k with
  | O => true
  | S k' => f a && all_from f (a + 1) k'
  end.

(** 1 for an episode length below the 6 hours that [randint(6, 48)] draws at
    least, 0 otherwise. *)
Definition short (seq_length : Z) : Z := if seq_length <? 6 then 1 else 0.

(** The calls [np.random.normal(loc, scale, n_samples)] of
    [generate_normal_data], in the order in which the dict is built: the
    column and its [(loc, scale)]. *)
Definition sensor_baselines : list (string * (float * float)) :=
  [ ("vibration_rms", (0.8, 0.15)); ("motor_temp_C", (65, 4));
    ("spindle_current_A", (15, 1.5)); ("rpm", (3000, 200));
    ("coolant_temp_C", (30, 2)); ("cutting_force_N", (200, 15));
    ("power_consumption_W", (5000, 400)); ("acoustic_level_dB", (75, 3)) ]%string%float.

(** A call that draws from Python's generator only: it leaves numpy's
    generator as it found it. *)
Definition py_only {A} (m : M A) : Prop :=
  forall w a w', m w = Ok a w' -> np w' = np w.

(** [current_health] one tick later, when the cumulative hours have grown by
    one in between: [max(20, current_health - 0.02 * (1.0 + 1.0 / 1000))]. *)
Definition next_health (current_health : float) : float :=
  py_max 20 (current_health - health_decay_per_hour * (1.0 + 1.0 / 1000))%float.

(** [current_health] [k] ticks after it was 100. *)
Definition health_after (k : nat) : float := Nat.iter k next_health 100%float.

(** [check] holds of [h] and of the [k] values of [current_health] that
    follow it. *)
Fixpoint along (check : float -> bool) (h : float) (k : nat) : bool :=
  match k with
  | O => check h
  | S k' => check h && along check (next_health h) k'
  end.

(** The step function returns on [h], one of the five values 30, 20, 10, 3
    and 2. *)
Definition days_known (h : float) : bool :=
  match days_to_maint h with
  | Value d => bool_decide (d ∈ [30; 20; 10; 3; 2])
  | Throws _ => false
  end.

(** The number of ticks from the last reset of [current_health] to tick [i]:
    from the tick after the last checkpoint before [i], or from tick 0. *)
Fixpoint since (maintenance_points : list Z) (i : nat) : nat :=
  match i with
  | O => O
  | S j => if bool_decide (Z.of_nat j ∈ maintenance_points) then 1%nat
           else S (since maintenance_points j)
  end.

(** * Properties *)

(** ** The monad *)

Lemma bind_ok {A B} (m : M A) (f : A -> M B) w b w' :
  bind m f w = Ok b w' -> exists a w1, m w = Ok a w1 /\ f a w1 = Ok b w'.
Proof. unfold bind. destruct (m w); [eauto | discriminate | discriminate]. Qed.

Lemma bind_run {A B} (m : M A) (f : A -> M B) w a w1 :
  m w = Ok a w1 -> bind m f w = f a w1.
Proof. unfold bind. intros ->. reflexivity. Qed.

Lemma returns_ret {A} (a : A) : returns (ret a).
Proof. intros w. eexists _, _. reflexivity. Qed.

Lemma returns_bind {A B} (m : M A) (f : A -> M B) :
  returns m -> (forall a, returns (f a)) -> returns (bind m f).
Proof.
  intros Hm Hf w. destruct (Hm w) as (a & w1 & E).
  rewrite (bind_run _ _ _ _ _ E). apply Hf.
Qed.

Lemma returns_getrand : returns getrand.
Proof. intros w. eexists _, _. reflexivity. Qed.

Lemma returns_uniform a b : returns (uniform a b).
Proof.
  unfold uniform, random.
  repeat (apply returns_bind; [| intros ?]); auto using returns_getrand, returns_ret.
Qed.

Lemma returns_normal_vec loc scale n : returns (normal_vec loc scale n).
Proof.
  induction n as [| n IH]; simpl; [apply returns_ret |].
  apply returns_bind.
  - intros w. eexists _, _. reflexivity.
  - intros x. apply returns_bind; [exact IH | intros; apply returns_ret].
Qed.

(** What a draw of [uniform] looks like. *)
Lemma uniform_value a b w u w' :
  uniform a b w = Ok u w' -> exists k, u = (a + (b - a) * random_of_bits k)%float.
Proof.
  unfold uniform, random, getrand, bind, ret. intros [= <- _]. eauto.
Qed.

(** ** Stage 1 *)

Lemma usage_loop_spec ts d h c w :
  exists r w', usage_loop ts d h c w = Ok r w' /\
    snd r = map (fun j => c + 1 + Z.of_nat j) (seq 0 (length ts)).
Proof.
  revert d h c w. induction ts as [| t ts IH]; intros d h c w; simpl.
  - eexists _, _. split; reflexivity.
  - assert (Hd : returns (if negb (day t =? d) then uniform 6 15 else ret h)).
    { destruct (negb _); [apply returns_uniform | apply returns_ret]. }
    destruct (Hd w) as (h' & w1 & E1).
    rewrite (bind_run _ _ _ _ _ E1).
    destruct (IH (day t) h' (c + 1) w1) as (r & w2 & E2 & Hr).
    rewrite (bind_run _ _ _ _ _ E2).
    eexists _, _. split; [reflexivity |]. simpl. rewrite Hr.
    f_equal; [lia |]. rewrite <- seq_shift, map_map.
    apply map_ext. intros j. lia.
Qed.

Lemma tool_usage_loop_spec k : forall i tool_usage col w,
  length col = (i + k)%nat ->
  ((0 < i)%nat -> col !! (i - 1)%nat = Some tool_usage) ->
  exists col' w', tool_usage_loop k i tool_usage col w = Ok col' w' /\
    length col' = length col /\
    (forall j, (j < i)%nat -> col' !! j = col !! j) /\
    (i = 0%nat -> (0 < k)%nat -> col' !! 0%nat = Some tool_usage) /\
    (forall j prev cur, (0 < j)%nat -> (i <= j)%nat ->
       col' !! (j - 1)%nat = Some prev -> col' !! j = Some cur ->
       tool_usage_step prev cur).
Proof.
  induction k as [| k IH]; intros i tu col w Hlen Hprev; simpl.
  - eexists _, _. split; [reflexivity |]. repeat split; try lia.
    intros j prev cur _ Hj _ Hc. apply lookup_lt_Some in Hc. lia.
  - set (body := if (0 <? i)%nat then _ else _).
    assert (Hbody : exists tu' w1, body w = Ok tu' w1 /\
              ((0 < i)%nat -> tool_usage_step tu tu') /\ (i = 0%nat -> tu' = tu)).
    { subst body. destruct (Nat.ltb_spec 0 i) as [Hi | Hi].
      - unfold tool_usage_step. destruct (PrimFloat.ltb 4000 tu).
        + eexists _, _. split; [reflexivity |]. split; [auto | lia].
        + destruct (returns_uniform 10 20 w) as (u & w1 & E).
          rewrite (bind_run _ _ _ _ _ E). eexists _, _. split; [reflexivity |].
          split; [| lia]. intros _. apply uniform_value in E as [k0 ->]. eauto.
      - eexists _, _. split; [reflexivity |]. split; [lia | auto]. }
    destruct Hbody as (tu' & w1 & E1 & Hstep & Hzero).
    rewrite (bind_run _ _ _ _ _ E1).
    assert (Hi : (i < length col)%nat) by lia.
    destruct (IH (S i) tu' (<[i := tu']> col) w1) as (col' & w2 & E2 & Hl & Hlow & _ & Hsteps).
    { rewrite length_insert. lia. }
    { intros _. replace (S i - 1)%nat with i by lia. by apply list_lookup_insert_eq. }
    eexists _, _. split; [exact E2 |].
    rewrite length_insert in Hl.
    assert (Hat : col' !! i = Some tu').
    { rewrite Hlow by lia. by apply list_lookup_insert_eq. }
    repeat split.
    + exact Hl.
    + intros j Hj. rewrite Hlow by lia. apply list_lookup_insert_ne. lia.
    + intros -> _. rewrite Hat. f_equal. auto.
    + intros j prev cur Hj0 Hij Hp Hc.
      destruct (decide (j = i)) as [-> | Hne].
      * rewrite Hat in Hc. injection Hc as <-.
        rewrite Hlow in Hp by lia.
        rewrite list_lookup_insert_ne in Hp by lia.
        rewrite Hprev in Hp by lia. injection Hp as <-. auto.
      * apply (Hsteps j); auto; lia.
Qed.

(** Runs the next call of a sequence of binds, given that it returns. *)
Ltac run_with H x w1 E :=
  destruct H as (x & w1 & E); rewrite (bind_run _ _ _ _ _ E).

(** The timestamps are the hours [0 .. n_samples - 1] when the last of them
    is a [datetime], and [OverflowError] otherwise. *)
Lemma timestamps_outcome n :
  (Z.of_nat n - 1 <= last_hour /\ timestamps n = Value (map Z.of_nat (seq 0 n))) \/
  (last_hour < Z.of_nat n - 1 /\ timestamps n = Throws OverflowError).
Proof.
  unfold timestamps. destruct (Z.ltb_spec last_hour (Z.of_nat n - 1)); [right | left]; by split.
Qed.

Lemma timestamps_Value n ts :
  timestamps n = Value ts -> ts = map Z.of_nat (seq 0 n) /\ Z.of_nat n - 1 <= last_hour.
Proof.
  destruct (timestamps_outcome n) as [[Hn ->] | [Hn ->]]; [| discriminate].
  by intros [= <-].
Qed.

Lemma timestamps_small n :
  Z.of_nat n - 1 <= last_hour -> timestamps n = Value (map Z.of_nat (seq 0 n)).
Proof. destruct (timestamps_outcome n) as [[Hn ->] | [Hn ->]]; [done | lia]. Qed.

(** Unfolds [generate_normal_data] in a hypothesis that says it returned. *)
Ltac open_generate_normal_data H n :=
  unfold generate_normal_data in H;
  let ts := fresh "ts" in
  let Ets := fresh "Ets" in
  destruct (timestamps n) as [ts | ?] eqn:Ets; [| discriminate H];
  apply timestamps_Value in Ets as [-> ?]; cbv zeta in H.

Lemma generate_normal_data_empty w : generate_normal_data 0 w = Raise IndexError.
Proof. reflexivity. Qed.

(** More rows than hours left to the end of year 9999: the timestamps
    overflow before anything is drawn. *)
Lemma generate_normal_data_overflow n w :
  last_hour < Z.of_nat n - 1 -> generate_normal_data n w = Raise OverflowError.
Proof.
  intros Hn. unfold generate_normal_data.
  destruct (timestamps_outcome n) as [[Hn' _] | [_ ->]]; [lia | reflexivity].
Qed.

(** A call that returned had a row to generate, and no row past the last
    hour. *)
Lemma generate_normal_data_bound n w df w' :
  generate_normal_data n w = Ok df w' -> (0 < n)%nat /\ Z.of_nat n - 1 <= last_hour.
Proof.
  intros E. split.
  - destruct n; [| lia]. by rewrite generate_normal_data_empty in E.
  - destruct (Z.le_gt_cases (Z.of_nat n - 1) last_hour) as [H | H]; [exact H |].
    rewrite (generate_normal_data_overflow n w) in E by lia. discriminate E.
Qed.

(** [generate_normal_data] returns whenever there is a row to generate and
    the last row is a [datetime]; its two counters are those of the loops. *)
Lemma generate_normal_data_spec n w :
  (0 < n)%nat -> Z.of_nat n - 1 <= last_hour ->
  exists df w' tool r w1 w2,
    generate_normal_data n w = Ok df w' /\
    usage_loop (map Z.of_nat (seq 0 n)) (day 0) (fst r) 5000 w1 = Ok (snd r) w2 /\
    total_machine_hours df = snd (snd r) /\
    tool_usage_loop n 0 0%float (replicate n 0%float) w2 = Ok tool w' /\
    measurements df !! "tool_usage_min"%string = Some tool /\
    timestamp df = map Z.of_nat (seq 0 n).
Proof.
  intros Hn Hlast. unfold generate_normal_data. rewrite (timestamps_small n Hlast).
  run_with (returns_normal_vec 0.8 0.15 n w) c1 w1 E1.
  run_with (returns_normal_vec 65 4 n w1) c2 w2 E2.
  run_with (returns_normal_vec 15 1.5 n w2) c3 w3 E3.
  run_with (returns_normal_vec 3000 200 n w3) c4 w4 E4.
  run_with (returns_normal_vec 30 2 n w4) c5 w5 E5.
  run_with (returns_normal_vec 200 15 n w5) c6 w6 E6.
  run_with (returns_normal_vec 5000 400 n w6) c7 w7 E7.
  run_with (returns_normal_vec 75 3 n w7) c8 w8 E8.
  assert (Ht0 : map Z.of_nat (seq 0 n) !! 0%nat = Some 0).
  { destruct n; [lia | reflexivity]. }
  rewrite Ht0.
  run_with (returns_uniform 6 15 w8) h w9 E9.
  destruct (usage_loop_spec (map Z.of_nat (seq 0 n)) (day 0) h 5000 w9)
    as (r & w10 & E10 & _).
  rewrite (bind_run _ _ _ _ _ E10).
  destruct (tool_usage_loop_spec n 0 0%float (replicate n 0%float) w10)
    as (tool & w11 & E11 & _).
  { rewrite length_replicate. lia. }
  { lia. }
  rewrite (bind_run _ _ _ _ _ E11).
  eexists _, w11, tool, (h, r), w9, w10. simpl.
  split; [reflexivity |]. repeat split; auto.
Qed.

(** C5. Generating at least one row and at most 69,907,392 rows (the hours
    from [start_date] to the end of year 9999) returns, and in the column
    [total_machine_hours] of the table the cell of tick [i] holds
    [5000 + (i + 1)], so each cell is its predecessor plus 1, counting up
    from the base 5000. *)
Theorem total_machine_hours_increments (n : nat) (w : world) :
  (0 < n)%nat -> Z.of_nat n <= 69907392 ->
  exists df w', generate_normal_data n w = Ok df w' /\
    length (total_machine_hours df) = n /\
    (forall i, (i < n)%nat ->
       total_machine_hours df !! i = Some (5000 + (Z.of_nat i + 1))) /\
    (forall i a b, (0 < i)%nat ->
       total_machine_hours df !! i = Some a ->
       total_machine_hours df !! (i - 1)%nat = Some b ->
       a = b + 1).
Proof.
  intros Hn Hlast.
  destruct (generate_normal_data_spec n w Hn ltac:(unfold last_hour; lia))
    as (df & w' & tool & r & w1 & w2 & E & Eu & Ht & _).
  destruct (usage_loop_spec (map Z.of_nat (seq 0 n)) (day 0) (fst r) 5000 w1)
    as (r' & w2' & Eu' & Hr).
  rewrite Eu in Eu'. injection Eu' as <- <-.
  rewrite length_map, length_seq in Hr.
  assert (Hcell : forall i x, total_machine_hours df !! i = Some x ->
                    (i < n)%nat /\ x = 5000 + (Z.of_nat i + 1)).
  { intros i x. rewrite Ht, Hr, list_lookup_fmap.
    destruct (seq 0 n !! i) as [j |] eqn:Ej; simpl; [| discriminate].
    apply lookup_seq in Ej as [-> Hi]. intros [= <-]. split; [exact Hi | lia]. }
  exists df, w'. split; [exact E |]. split; [| split].
  - rewrite Ht, Hr, length_map, length_seq. reflexivity.
  - intros i Hi. rewrite Ht, Hr, list_lookup_fmap, lookup_seq_lt by exact Hi.
    simpl. f_equal. lia.
  - intros i a b Hi Ha Hb.
    apply Hcell in Ha as [_ ->]. apply Hcell in Hb as [_ ->]. lia.
Qed.

(** C9. Generating at least one row and at most 69,907,392 rows (the hours
    from [start_date] to the end of year 9999) returns, and the column
    [tool_usage_min] of the table starts at 0,
    and at each later tick it is 0 when the previous cell exceeds 4000,
    otherwise the previous cell plus a draw [10 + (20 - 10) * random()] of
    [uniform(10, 20)]; so a cell above 4000 is always followed by 0. *)
Theorem tool_usage_min_recurrence (n : nat) (w : world) :
  (0 < n)%nat -> Z.of_nat n <= 69907392 ->
  exists df w' col, generate_normal_data n w = Ok df w' /\
    measurements df !! "tool_usage_min"%string = Some col /\
    length col = n /\
    col !! 0%nat = Some 0%float /\
    (forall i prev cur, (0 < i)%nat ->
       col !! (i - 1)%nat = Some prev -> col !! i = Some cur ->
       (if PrimFloat.ltb 4000 prev then cur = 0%float
        else exists k, cur = (prev + (10 + (20 - 10) * random_of_bits k))%float)) /\
    (forall i prev, col !! i = Some prev -> (S i < n)%nat ->
       PrimFloat.ltb 4000 prev = true -> col !! S i = Some 0%float).
Proof.
  intros Hn Hlast.
  destruct (generate_normal_data_spec n w Hn ltac:(unfold last_hour; lia))
    as (df & w' & tool & r & w1 & w2 & E & _ & _ & Et & Hm & _).
  destruct (tool_usage_loop_spec n 0 0%float (replicate n 0%float) w2)
    as (col & w3 & Et' & Hl & _ & H0 & Hstep).
  { rewrite length_replicate. lia. }
  { lia. }
  rewrite Et in Et'. injection Et' as <- <-.
  rewrite length_replicate in Hl.
  exists df, w', tool. split; [exact E |]. split; [exact Hm |].
  split; [exact Hl |]. split; [auto |]. split.
  - intros i prev cur Hi Hp Hc. apply (Hstep i prev cur); auto; lia.
  - intros i prev Hp Hi Hgt.
    destruct (lookup_lt_is_Some_2 tool (S i)) as [cur Hc]; [lia |].
    rewrite Hc. f_equal.
    assert (Hs := Hstep (S i) prev cur).
    replace (S i - 1)%nat with i in Hs by lia.
    specialize (Hs ltac:(lia) ltac:(lia) Hp Hc).
    unfold tool_usage_step in Hs. rewrite Hgt in Hs. exact Hs.
Qed.

(** C5 on a table of 30 rows. *)
Lemma total_machine_hours_increments_30_rows :
  exists df w', generate_normal_data 30 (boot still (draws [])) = Ok df w' /\
    length (total_machine_hours df) = 30%nat /\
    (forall i, (i < 30)%nat ->
       total_machine_hours df !! i = Some (5000 + (Z.of_nat i + 1))) /\
    (forall i a b, (0 < i)%nat ->
       total_machine_hours df !! i = Some a ->
       total_machine_hours df !! (i - 1)%nat = Some b ->
       a = b + 1).
Proof.
  apply (total_machine_hours_increments 30 (boot still (draws []))); lia.
Defined.

(** C9 on a table of 30 rows. *)
Lemma tool_usage_min_recurrence_30_rows :
  exists df w' col, generate_normal_data 30 (boot still (draws [])) = Ok df w' /\
    measurements df !! "tool_usage_min"%string = Some col /\
    length col = 30%nat /\
    col !! 0%nat = Some 0%float /\
    (forall i prev cur, (0 < i)%nat ->
       col !! (i - 1)%nat = Some prev -> col !! i = Some cur ->
       (if PrimFloat.ltb 4000 prev then cur = 0%float
        else exists k, cur = (prev + (10 + (20 - 10) * random_of_bits k))%float)) /\
    (forall i prev, col !! i = Some prev -> (S i < 30)%nat ->
       PrimFloat.ltb 4000 prev = true -> col !! S i = Some 0%float).
Proof.
  apply (tool_usage_min_recurrence 30 (boot still (draws []))); lia.
Defined.

(** ** Stage 2 *)

(** What the health loop leaves in its two columns, from tick [i] on: the
    cell of tick [i] is the decayed value of the health carried in, the cell
    after tick [j] restarts from 100 exactly when [j] is a checkpoint, and
    the days are 30 at a checkpoint and the step function of the cell
    elsewhere. *)
Lemma health_loop_spec pts total k : forall i cur hs ds hs' ds',
  length hs = (i + k)%nat -> length ds = (i + k)%nat ->
  health_loop pts total k i cur hs ds = Value (hs', ds') ->
  length hs' = (i + k)%nat /\ length ds' = (i + k)%nat /\
  (forall j, (j < i)%nat -> hs' !! j = hs !! j /\ ds' !! j = ds !! j) /\
  ((0 < k)%nat -> hs' !! i = Some (decayed total i cur)) /\
  (forall j h, (i <= j)%nat -> (S j < i + k)%nat -> hs' !! j = Some h ->
     hs' !! S j =
       Some (decayed total (S j) (if bool_decide (Z.of_nat j ∈ pts) then 100%float else h))) /\
  (forall j h, (i <= j)%nat -> hs' !! j = Some h ->
     if bool_decide (Z.of_nat j ∈ pts) then ds' !! j = Some 30
     else exists d, days_to_maint h = Value d /\ ds' !! j = Some d).
Proof.
  induction k as [| k IH]; intros i cur hs ds hs' ds' Hlh Hld; simpl.
  - intros [= <- <-]. repeat split; auto; try lia.
    intros j h Hij Hj. apply lookup_lt_Some in Hj. lia.
  - set (c := decayed total i cur).
    destruct (days_to_maint c) as [d |] eqn:Ed; [| discriminate].
    set (cur' := if bool_decide (Z.of_nat i ∈ pts) then 100%float else c).
    set (ds1 := if bool_decide (Z.of_nat i ∈ pts) then <[i := 30]> (<[i := d]> ds)
                else <[i := d]> ds).
    intros Hrun.
    assert (Hrun' : health_loop pts total k (S i) cur' (<[i := c]> hs) ds1 = Value (hs', ds')).
    { subst cur' ds1. destruct (bool_decide (Z.of_nat i ∈ pts)); exact Hrun. }
    clear Hrun.
    assert (Hl1 : length ds1 = (S i + k)%nat).
    { subst ds1. destruct (bool_decide _); rewrite ?length_insert; lia. }
    apply IH in Hrun' as (Hh & Hd & Hlow & Hfirst & Hnext & Hdays);
      [| rewrite length_insert; lia | exact Hl1].
    assert (Hi : hs' !! i = Some c).
    { destruct (Hlow i) as [-> _]; [lia |]. apply list_lookup_insert_eq. lia. }
    assert (Hdi : ds' !! i = Some (if bool_decide (Z.of_nat i ∈ pts) then 30 else d)).
    { destruct (Hlow i) as [_ ->]; [lia |]. subst ds1.
      destruct (bool_decide _); apply list_lookup_insert_eq; rewrite ?length_insert; lia. }
    split; [lia |]. split; [lia |]. split; [| split; [| split]].
    + intros j Hj. destruct (Hlow j) as [-> ->]; [lia |]. subst ds1.
      split; [apply list_lookup_insert_ne; lia |].
      destruct (bool_decide _); rewrite ?list_lookup_insert_ne by lia; reflexivity.
    + intros _. exact Hi.
    + intros j h Hij Hj Hjh. destruct (decide (j = i)) as [-> | Hne].
      * rewrite Hi in Hjh. injection Hjh as <-. apply Hfirst. lia.
      * apply Hnext; auto; lia.
    + intros j h Hij Hjh. destruct (decide (j = i)) as [-> | Hne].
      * rewrite Hi in Hjh. injection Hjh as <-. rewrite Hdi.
        destruct (bool_decide _); eauto.
      * apply Hdays; auto; lia.
Qed.

(** The stage returns the table it was given with five more columns; the
    days are those of the health loop, the scores are its scores plus the
    noise, clipped. *)
Lemma generate_health_and_maintenance_spec df w df' w' :
  generate_health_and_maintenance df w = Ok df' w' ->
  exists pts w1 hs noise,
    draw_maintenance_points w = Ok pts w1 /\
    health_loop pts (total_machine_hours df) (len df) 0 100
      (replicate (len df) 0%float) (replicate (len df) 0) = Value (hs, days_to_maintenance df') /\
    normal_vec 0 1 (len df) w1 = Ok noise w' /\
    machine_health_score df' = add_noise_and_clip hs noise /\
    is_anomaly df' = replicate (len df) 0 /\
    timestamp df' = timestamp df /\
    total_machine_hours df' = total_machine_hours df /\
    measurements df' = measurements df.
Proof.
  unfold generate_health_and_maintenance. intros H.
  apply bind_ok in H as (pts & w1 & Ep & H).
  destruct (health_loop _ _ _ _ _ _ _) as [[hs ds] |] eqn:El; [| discriminate].
  apply bind_ok in H as (noise & w2 & En & H).
  injection H as <- <-. simpl.
  exists pts, w1, hs, noise. repeat split; auto.
Qed.

(** ** Stage 3: what one tick and one episode write *)

Lemma perturb_same pos severity df item : same_frame df (perturb pos severity df item).
Proof.
  unfold perturb, same_frame. destruct item as [metric multiplier].
  destruct (measurements df !! metric) as [col |]; [| by repeat split].
  destruct (bool_decide _); [by repeat split |].
  destruct (col !! pos); by repeat split.
Qed.

Lemma fold_perturb_same pos severity cfg : forall df,
  same_frame df (fold_left (perturb pos severity) cfg df).
Proof.
  induction cfg as [| item cfg IH]; intros df; simpl; [by repeat split |].
  destruct (perturb_same pos severity df item) as (H1 & H2 & H3 & H4 & H5 & H6 & H7).
  destruct (IH (perturb pos severity df item)) as (G1 & G2 & G3 & G4 & G5 & G6 & G7).
  unfold same_frame. rewrite G1, G2, G3, G4, G5, G6, G7. by repeat split.
Qed.

Lemma anomaly_tick_spec ty cfg pr si start_pos seq_length df i w df' w' :
  anomaly_tick ty cfg pr si start_pos seq_length df i w = Ok df' w' ->
  timestamp df' = timestamp df /\
  total_machine_hours df' = total_machine_hours df /\
  days_to_maintenance df' = days_to_maintenance df /\
  is_anomaly df' = <[Z.to_nat (start_pos + i) := 1]> (is_anomaly df) /\
  exists h, clamped h /\
    machine_health_score df' = <[Z.to_nat (start_pos + i) := h]> (machine_health_score df).
Proof.
  unfold anomaly_tick. intros H.
  apply bind_ok in H as (noise & w1 & _ & H).
  set (sev := py_max _ _) in H.
  set (df1 := set_anomaly_severity _ _ _) in H.
  destruct (fold_perturb_same (Z.to_nat (start_pos + i)) sev cfg df1)
    as (H1 & H2 & H3 & H4 & H5 & _ & _).
  destruct (machine_health_score _ !! _) as [h |]; [| discriminate].
  injection H as <- _. simpl. rewrite H1, H2, H3, H4, H5. subst df1. simpl.
  repeat split; auto. eexists. split; [eexists; reflexivity | reflexivity].
Qed.

Lemma for_each_ticks_spec ty cfg pr si start_pos seq_length : forall offsets df w df' w',
  for_each (anomaly_tick ty cfg pr si start_pos seq_length) offsets df w = Ok df' w' ->
  timestamp df' = timestamp df /\
  total_machine_hours df' = total_machine_hours df /\
  days_to_maintenance df' = days_to_maintenance df /\
  is_anomaly df' =
    mark (is_anomaly df) (map (fun i => Z.to_nat (start_pos + i)) offsets) /\
  length (machine_health_score df') = length (machine_health_score df) /\
  (forall t h, machine_health_score df' !! t = Some h ->
     machine_health_score df !! t = Some h \/ clamped h).
Proof.
  induction offsets as [| i offsets IH]; intros df w df' w'; simpl.
  - intros [= <- _]. repeat split; auto.
  - intros H. apply bind_ok in H as (df1 & w1 & E1 & H).
    apply anomaly_tick_spec in E1 as (H1 & H2 & H3 & H4 & h1 & Hc & H5).
    apply IH in H as (G1 & G2 & G3 & G4 & G5 & G6).
    rewrite G1, G2, G3, G4, G5, H1, H2, H3, H4, H5, length_insert.
    repeat split; auto.
    intros t h Ht. apply G6 in Ht as [Ht | Ht]; [| by right].
    rewrite H5 in Ht. destruct (decide (t = Z.to_nat (start_pos + i))) as [-> | Hne].
    + apply list_lookup_insert_Some in Ht as [(_ & <- & _) | (Hne & _)]; [by right | done].
    + rewrite list_lookup_insert_ne in Ht by done. by left.
Qed.

Lemma mark_cons col p ps : mark col (p :: ps) = mark (<[p := 1]> col) ps.
Proof. reflexivity. Qed.

Lemma mark_length ps : forall col, length (mark col ps) = length col.
Proof.
  induction ps as [| p ps IH]; intros col; [done |].
  rewrite mark_cons, IH. apply length_insert.
Qed.

Lemma mark_lookup ps : forall col t,
  mark col ps !! t =
    if bool_decide (t ∈ ps /\ (t < length col)%nat) then Some 1 else col !! t.
Proof.
  induction ps as [| p ps IH]; intros col t.
  - rewrite bool_decide_eq_false_2; [done |]. intros [H _]. by apply elem_of_nil in H.
  - rewrite mark_cons, IH, length_insert.
    destruct (decide (t ∈ ps /\ (t < length col)%nat)) as [Hin | Hnin].
    + rewrite !bool_decide_eq_true_2; [done | | done].
      split; [apply elem_of_cons; right |]; tauto.
    + rewrite (bool_decide_eq_false_2 _ Hnin).
      destruct (decide (t = p)) as [-> | Hne].
      * destruct (decide (p < length col)%nat) as [Hlt | Hge].
        -- rewrite list_lookup_insert_eq by done.
           rewrite bool_decide_eq_true_2; [done |]. split; [apply elem_of_cons; by left | done].
        -- rewrite bool_decide_eq_false_2 by tauto.
           rewrite list_insert_ge by lia. done.
      * rewrite list_lookup_insert_ne by done.
        rewrite bool_decide_eq_false_2; [done |].
        intros [Hin Hlt]. apply elem_of_cons in Hin as [-> | Hin]; tauto.
Qed.

Lemma sum_Z_insert (l : list Z) : forall i x y,
  l !! i = Some x -> sum_Z (<[i := y]> l) = sum_Z l - x + y.
Proof.
  induction l as [| a l IH]; intros [| i] x y; simpl; try discriminate.
  - intros [= ->]. lia.
  - intros H. rewrite (IH i x y H). lia.
Qed.

Lemma mark_sum ps : forall col,
  NoDup ps ->
  (forall p, p ∈ ps -> col !! p = Some 0) ->
  sum_Z (mark col ps) = sum_Z col + Z.of_nat (length ps).
Proof.
  induction ps as [| p ps IH]; intros col Hnd Hz; [simpl; lia |].
  apply NoDup_cons in Hnd as [Hp Hnd].
  rewrite mark_cons, IH; [| done |]; simpl length.
  - rewrite (sum_Z_insert col p 0 1); [lia |]. apply Hz, elem_of_cons. by left.
  - intros q Hq. rewrite list_lookup_insert_ne.
    + apply Hz, elem_of_cons. by right.
    + intros ->. done.
Qed.

Lemma elem_of_episode_ticks start_pos seq_length t :
  0 <= start_pos ->
  t ∈ episode_ticks start_pos seq_length <->
  start_pos <= Z.of_nat t < start_pos + seq_length.
Proof.
  intros Hs. unfold episode_ticks, range. rewrite list_elem_of_fmap. split.
  - intros (i & -> & Hi). apply list_elem_of_fmap in Hi as (j & -> & Hj).
    apply elem_of_seq in Hj. lia.
  - intros Ht. exists (Z.of_nat t - start_pos). split; [lia |].
    apply list_elem_of_fmap. exists (Z.to_nat (Z.of_nat t - start_pos)).
    split; [lia |]. apply elem_of_seq. lia.
Qed.

Lemma episode_ticks_NoDup start_pos seq_length :
  0 <= start_pos -> NoDup (episode_ticks start_pos seq_length).
Proof.
  intros Hs. unfold episode_ticks, range. rewrite <- list_fmap_compose.
  apply NoDup_fmap_2_strong; [| apply NoDup_seq].
  intros i j _ _. unfold compose. lia.
Qed.

Lemma episode_ticks_length start_pos seq_length :
  length (episode_ticks start_pos seq_length) = Z.to_nat seq_length.
Proof. unfold episode_ticks, range. by rewrite !length_map, length_seq. Qed.

(** ** Stage 3: the draws *)

Lemma randint_spec a b w r w' : randint a b w = Ok r w' -> a <= r <= b.
Proof.
  unfold randint. destruct (Z.ltb_spec b a) as [Hlt | Hle]; [discriminate |].
  unfold randbelow, getrand, bind, ret. intros [= <- _].
  pose proof (Z.mod_pos_bound (py_bits (py w) (py_pos (py w))) (b - a + 1)). lia.
Qed.

Lemma returns_randint a b : a <= b -> returns (randint a b).
Proof.
  intros Hab w. unfold randint. destruct (Z.ltb_spec b a) as [Hlt | Hle]; [lia |].
  eexists _, _. reflexivity.
Qed.

(** A cell of the slice [iloc lo hi] is the cell of the column at the same
    row. *)
Lemma iloc_lookup {A} (lo hi : Z) (col : list A) (t : nat) :
  0 <= lo -> lo <= Z.of_nat t < hi ->
  iloc lo hi col !! (t - Z.to_nat lo)%nat = col !! t.
Proof.
  intros Hlo Ht. unfold iloc.
  rewrite lookup_take_lt by lia. rewrite lookup_drop. f_equal. lia.
Qed.

(** When the rejection test is negative, no cell of the window around the
    episode is flagged. *)
Lemma overlaps_false df start_pos seq_length t x :
  overlaps df start_pos seq_length = false ->
  Z.max 0 (start_pos - 48) <= Z.of_nat t
    < Z.min (Z.of_nat (len df)) (start_pos + seq_length + 48) ->
  is_anomaly df !! t = Some x -> x <= 0.
Proof.
  unfold overlaps. intros H Ht Hx.
  rewrite <- (iloc_lookup (Z.max 0 (start_pos - 48))
                (Z.min (Z.of_nat (len df)) (start_pos + seq_length + 48))) in Hx by lia.
  apply list_elem_of_lookup_2, list_elem_of_In in Hx.
  destruct (Z.ltb_spec 0 x) as [Hpos | Hle]; [| exact Hle].
  assert (existsb (fun x => 0 <? x)
            (iloc (Z.max 0 (start_pos - 48))
               (Z.min (Z.of_nat (len df)) (start_pos + seq_length + 48)) (is_anomaly df)) = true).
  { apply existsb_exists. exists x. split; [exact Hx | by apply Z.ltb_lt]. }
  congruence.
Qed.

(** The start the rejection loop settles on passes the test; it is the first
    draw or a later draw of the same [randint]. *)
Lemma redraw_start_spec df seq_length fuel : forall start_pos w r w',
  redraw_start fuel df seq_length start_pos w = Ok r w' ->
  overlaps df r seq_length = false /\
  (r = start_pos \/ 48 <= r <= Z.of_nat (len df) - seq_length - 48).
Proof.
  induction fuel as [| fuel IH]; intros s w r w'; simpl;
    destruct (overlaps df s seq_length) eqn:Eo; try discriminate.
  - intros [= <- _]. auto.
  - intros H. apply bind_ok in H as (s1 & w1 & E1 & H).
    apply randint_spec in E1. apply IH in H as [H1 [-> | H2]]; auto.
  - intros [= <- _]. auto.
Qed.

(** More fuel does not change a run of the rejection loop that ended. *)
Lemma redraw_start_more_fuel df seq_length fuel : forall fuel' start_pos w r w',
  (fuel <= fuel')%nat ->
  redraw_start fuel df seq_length start_pos w = Ok r w' ->
  redraw_start fuel' df seq_length start_pos w = Ok r w'.
Proof.
  induction fuel as [| fuel IH]; intros fuel' s w r w' Hle; simpl.
  - destruct (overlaps df s seq_length) eqn:Eo; [discriminate |].
    intros H. destruct fuel'; simpl; rewrite Eo; exact H.
  - destruct (overlaps df s seq_length) eqn:Eo.
    + destruct fuel' as [| fuel']; [lia |]. simpl. rewrite Eo.
      intros H. apply bind_ok in H as (s1 & w1 & E1 & H).
      rewrite (bind_run _ _ _ _ _ E1). apply IH; [lia | exact H].
    + intros H. destruct fuel'; simpl; rewrite Eo; exact H.
Qed.

(** When every start that [randint] can draw is rejected, the loop is still
    running after any number of redraws. *)
Lemma redraw_start_stuck df seq_length :
  48 <= Z.of_nat (len df) - seq_length - 48 ->
  (forall s, 48 <= s <= Z.of_nat (len df) - seq_length - 48 ->
     overlaps df s seq_length = true) ->
  forall fuel start_pos w,
    overlaps df start_pos seq_length = true ->
    redraw_start fuel df seq_length start_pos w = Hang.
Proof.
  intros Hne Hall. induction fuel as [| fuel IH]; intros s w Hs; simpl; rewrite Hs.
  - reflexivity.
  - destruct (returns_randint 48 (Z.of_nat (len df) - seq_length - 48) Hne w)
      as (s1 & w1 & E1).
    rewrite (bind_run _ _ _ _ _ E1). apply IH, Hall. by apply randint_spec in E1.
Qed.

(** ** Stage 3: the invariant of the placement loop *)

Lemma sum_Z_app l1 l2 : sum_Z (l1 ++ l2) = sum_Z l1 + sum_Z l2.
Proof. induction l1 as [| a l1 IH]; simpl; [done |]. unfold sum_Z in *. simpl. lia. Qed.

Lemma sum_Z_replicate n : sum_Z (replicate n 0) = 0.
Proof. induction n as [| n IH]; simpl; [done |]. exact IH. Qed.

(** A placed episode is flagged, and it keeps clear of the window of a start
    that passes the rejection test. *)
Lemma accepted_start_apart df placed start_pos seq_length a :
  placement_inv df placed ->
  a ∈ placed ->
  48 <= start_pos -> 0 < seq_length ->
  start_pos + seq_length + 48 <= Z.of_nat (len df) ->
  overlaps df start_pos seq_length = false ->
  apart a (start_pos, seq_length).
Proof.
  intros Hinv Ha Hs Hl Hn Ho. destruct a as [s2 l2].
  destruct (inv_inside _ _ Hinv s2 l2 Ha) as (Hs2 & Hl2 & Hn2).
  assert (Hflag : forall t, s2 <= Z.of_nat t < s2 + l2 ->
            ~ (start_pos - 48 <= Z.of_nat t < start_pos + seq_length + 48)).
  { intros t Ht Hw.
    destruct (lookup_lt_is_Some_2 (is_anomaly df) t) as [x Hx].
    { rewrite (inv_flags_len _ _ Hinv). lia. }
    pose proof (overlaps_false df start_pos seq_length t x Ho ltac:(lia) Hx) as Hx0.
    destruct (inv_flags _ _ Hinv t x Hx) as [[-> _] | [_ Hnc]]; [lia |].
    apply Hnc. exists s2, l2. auto. }
  unfold apart. simpl.
  destruct (Z.le_gt_cases (start_pos + seq_length + 48) s2) as [Hge | Hlt]; [by right |].
  left.
  destruct (Z.le_gt_cases (s2 + l2 + 48) start_pos) as [Hok | Hbad]; [done |].
  exfalso.
  destruct (Z.le_gt_cases (start_pos - 48) s2) as [Hin | Hout].
  - apply (Hflag (Z.to_nat s2)); lia.
  - apply (Hflag (Z.to_nat (start_pos - 48))); lia.
Qed.

(** What one pass of [for seq_length in sequences] does to the table. *)
Lemma place_episode_spec fuel df seq_length w df' e w' :
  place_episode fuel df seq_length w = Ok (df', e) w' ->
  exists start_pos,
    e = (start_pos, seq_length) /\
    48 <= start_pos <= Z.of_nat (len df) - seq_length - 48 /\
    overlaps df start_pos seq_length = false /\
    timestamp df' = timestamp df /\
    total_machine_hours df' = total_machine_hours df /\
    days_to_maintenance df' = days_to_maintenance df /\
    is_anomaly df' = mark (is_anomaly df) (episode_ticks start_pos seq_length) /\
    length (machine_health_score df') = length (machine_health_score df) /\
    (forall t h, machine_health_score df' !! t = Some h ->
       machine_health_score df !! t = Some h \/ clamped h).
Proof.
  unfold place_episode. intros H.
  apply bind_ok in H as (ty & w1 & _ & H).
  destruct (dict_get anomaly_types ty) as [cfg |]; [| discriminate].
  apply bind_ok in H as (s0 & w2 & E0 & H). apply randint_spec in E0.
  apply bind_ok in H as (s & w3 & Es & H). apply redraw_start_spec in Es as [Ho Hs].
  destruct (dict_get cfg "progression_rate") as [pr |]; [| discriminate].
  destruct (dict_get cfg "severity_impact") as [si |]; [| discriminate].
  apply bind_ok in H as (df1 & w4 & Ef & H). injection H as <- <- _.
  apply for_each_ticks_spec in Ef as (H1 & H2 & H3 & H4 & H5 & H6).
  exists s. repeat split; auto; destruct Hs as [-> | Hs]; lia.
Qed.

Lemma place_episode_inv fuel df placed seq_length w df' e w' :
  placement_inv df placed -> 0 < seq_length ->
  place_episode fuel df seq_length w = Ok (df', e) w' ->
  snd e = seq_length /\ placement_inv df' (placed ++ [e]).
Proof.
  intros Hinv Hl H.
  apply place_episode_spec in H
    as (s & -> & Hs & Ho & Hts & _ & _ & Hfl & Hhl & _).
  split; [reflexivity |].
  assert (Hlen : len df' = len df) by (unfold len; by rewrite Hts).
  assert (Hticks : forall t, t ∈ episode_ticks s seq_length ->
            is_anomaly df !! t = Some 0).
  { intros t Ht. apply elem_of_episode_ticks in Ht; [| lia].
    destruct (lookup_lt_is_Some_2 (is_anomaly df) t) as [x Hx].
    { rewrite (inv_flags_len _ _ Hinv). lia. }
    pose proof (overlaps_false df s seq_length t x Ho ltac:(lia) Hx) as Hx0.
    destruct (inv_flags _ _ Hinv t x Hx) as [[-> _] | [-> _]]; [lia | exact Hx]. }
  constructor.
  - rewrite Hfl, mark_length, Hlen. apply (inv_flags_len _ _ Hinv).
  - rewrite Hhl, Hlen. apply (inv_health_len _ _ Hinv).
  - intros t x. rewrite Hfl, mark_lookup. case_bool_decide as Hin.
    + intros [= <-]. left. split; [reflexivity |].
      exists s, seq_length. split; [apply elem_of_app; right; apply list_elem_of_singleton; done |].
      apply elem_of_episode_ticks; [lia | tauto].
    + intros Hx.
      assert (Hout : ~ (s <= Z.of_nat t < s + seq_length)).
      { intros Ht. apply Hin. split; [apply elem_of_episode_ticks; [lia | done] |].
        by apply lookup_lt_Some in Hx. }
      destruct (inv_flags _ _ Hinv t x Hx) as [[-> (s2 & l2 & Hm & Ht)] | [-> Hnc]].
      * left. split; [reflexivity |]. exists s2, l2. split; [| done].
        apply elem_of_app. by left.
      * right. split; [reflexivity |]. intros (s2 & l2 & Hm & Ht).
        apply elem_of_app in Hm as [Hm | Hm].
        -- apply Hnc. by exists s2, l2.
        -- apply list_elem_of_singleton in Hm. injection Hm as -> ->. lia.
  - intros s2 l2 Hm. rewrite Hlen. apply elem_of_app in Hm as [Hm | Hm].
    + by apply (inv_inside _ _ Hinv).
    + apply list_elem_of_singleton in Hm. injection Hm as -> ->. lia.
  - intros i j a b Hij Ha Hb.
    apply lookup_app_Some in Ha as [Ha | [Hia Ha]];
      apply lookup_app_Some in Hb as [Hb | [Hjb Hb]].
    + by apply (inv_apart _ _ Hinv i j).
    + apply list_lookup_singleton_Some in Hb as [_ <-].
      apply (accepted_start_apart df placed); auto; try lia.
      by apply list_elem_of_lookup_2 in Ha.
    + apply list_lookup_singleton_Some in Ha as [_ <-].
      assert (Hab : apart b (s, seq_length)).
      { apply (accepted_start_apart df placed); auto; try lia.
        by apply list_elem_of_lookup_2 in Hb. }
      unfold apart in *. tauto.
    + apply list_lookup_singleton_Some in Ha as [Hi' _].
      apply list_lookup_singleton_Some in Hb as [Hj' _]. lia.
  - unfold anomaly_count. rewrite Hfl, mark_sum.
    + rewrite map_app, sum_Z_app, episode_ticks_length. simpl.
      pose proof (inv_count _ _ Hinv) as Hc. unfold anomaly_count in Hc. lia.
    + apply episode_ticks_NoDup. lia.
    + exact Hticks.
Qed.

Lemma place_episodes_inv fuel : forall sequences df placed w df' placed' w',
  placement_inv df placed -> Forall (fun l => 0 < l) sequences ->
  place_episodes fuel sequences df placed w = Ok (df', placed') w' ->
  placement_inv df' placed' /\ map snd placed' = map snd placed ++ sequences.
Proof.
  induction sequences as [| l rest IH]; intros df placed w df' placed' w' Hinv Hpos; simpl.
  - intros [= <- <- _]. split; [exact Hinv | by rewrite app_nil_r].
  - intros H. apply bind_ok in H as ([df1 e] & w1 & E1 & H). simpl in H.
    apply Forall_cons in Hpos as [Hl Hrest].
    destruct (place_episode_inv _ _ _ _ _ _ _ _ Hinv Hl E1) as [He Hinv1].
    apply IH in H as [Hinv' Hsnd]; auto.
    split; [exact Hinv' |]. rewrite Hsnd, map_app. simpl. rewrite He, <- app_assoc. done.
Qed.

(** The other columns through the whole placement loop. *)
Lemma place_episodes_frame fuel : forall sequences df placed w df' placed' w',
  place_episodes fuel sequences df placed w = Ok (df', placed') w' ->
  timestamp df' = timestamp df /\
  total_machine_hours df' = total_machine_hours df /\
  days_to_maintenance df' = days_to_maintenance df /\
  length (machine_health_score df') = length (machine_health_score df) /\
  (forall t h, machine_health_score df' !! t = Some h ->
     machine_health_score df !! t = Some h \/ clamped h).
Proof.
  induction sequences as [| l rest IH]; intros df placed w df' placed' w'; simpl.
  - intros [= <- _ _]. repeat split; auto.
  - intros H. apply bind_ok in H as ([df1 e] & w1 & E1 & H). simpl in H.
    apply place_episode_spec in E1 as (s & _ & _ & _ & H1 & H2 & H3 & _ & H4 & H5).
    apply IH in H as (G1 & G2 & G3 & G4 & G5).
    rewrite G1, G2, G3, G4, H1, H2, H3, H4. repeat split; auto.
    intros t h Ht. apply G5 in Ht as [Ht | Ht]; [| by right]. by apply H5.
Qed.

(** ** Stage 3: the episode lengths *)

Lemma sequences_loop_spec fuel : forall remaining sequences w,
  remaining <= Z.of_nat fuel ->
  exists out w', sequences_loop fuel remaining sequences w = Ok out w' /\
    sum_Z out = sum_Z sequences + Z.max 0 remaining /\
    (Forall (fun l => 0 < l) sequences -> Forall (fun l => 0 < l) out).
Proof.
  induction fuel as [| fuel IH]; intros remaining acc w Hfuel; simpl;
    destruct (Z.ltb_spec 0 remaining) as [Hpos | Hle]; try lia.
  - eexists _, _. split; [reflexivity |]. split; [lia | auto].
  - destruct (returns_randint 6 48 ltac:(lia) w) as (r & w1 & E1).
    rewrite (bind_run _ _ _ _ _ E1). apply randint_spec in E1.
    destruct (IH (remaining - Z.min r remaining) (acc ++ [Z.min r remaining]) w1)
      as (out & w2 & E2 & Hsum & Hall); [lia |].
    exists out, w2. split; [exact E2 |]. split.
    + rewrite Hsum, sum_Z_app. simpl. lia.
    + intros Hacc. apply Hall, Forall_app. split; [exact Hacc |].
      apply Forall_singleton. lia.
  - eexists _, _. split; [reflexivity |]. split; [lia | auto].
Qed.

Lemma swap_sum (x : list Z) i j : sum_Z (swap x i j) = sum_Z x.
Proof.
  unfold swap. destruct (x !! i) as [a |] eqn:Ea; [| done].
  destruct (x !! j) as [b |] eqn:Eb; [| done].
  assert (Ha' : <[j := a]> x !! i = Some a).
  { destruct (decide (i = j)) as [-> | Hne].
    - apply list_lookup_insert_eq. by apply lookup_lt_Some in Eb.
    - by rewrite list_lookup_insert_ne. }
  rewrite (sum_Z_insert _ i a b Ha'), (sum_Z_insert _ j b a Eb). lia.
Qed.

Lemma swap_Forall {A} (P : A -> Prop) (x : list A) i j :
  Forall P x -> Forall P (swap x i j).
Proof.
  intros H. unfold swap. destruct (x !! i) as [a |] eqn:Ea; [| done].
  destruct (x !! j) as [b |] eqn:Eb; [| done].
  apply Forall_insert; [apply Forall_insert; [done |] |].
  - by apply (Forall_lookup_1 P x i a).
  - by apply (Forall_lookup_1 P x j b).
Qed.

Lemma shuffle_from_spec i : forall (x : list Z) w,
  exists y w', shuffle_from i x w = Ok y w' /\
    sum_Z y = sum_Z x /\
    (forall P : Z -> Prop, Forall P x -> Forall P y).
Proof.
  induction i as [| i IH]; intros x w; simpl.
  - eexists _, _. split; [reflexivity |]. auto.
  - unfold randbelow, getrand, bind at 1 2, ret.
    destruct (IH (swap x (S i) (Z.to_nat (py_bits (py w) (py_pos (py w)) `mod` (Z.of_nat (S i) + 1))))
                {| py := {| py_bits := py_bits (py w); py_pos := S (py_pos (py w)) |};
                   np := np w |})
      as (y & w' & E & Hsum & Hall).
    exists y, w'. split; [exact E |]. split.
    + rewrite Hsum. apply swap_sum.
    + intros P HP. apply Hall, swap_Forall, HP.
Qed.

(** The episode lengths handed to the placement loop: all positive, and
    their sum is the budget [int(total_hours * anomaly_percentage)] when that
    is positive and 12 otherwise. *)
Lemma draw_sequences_spec n p w sequences w' :
  draw_sequences n p w = Ok sequences w' ->
  exists budget, int (float_of_Z (Z.of_nat n) * p)%float = Value budget /\
    sum_Z sequences = (if 0 <? budget then budget else 12) /\
    Forall (fun l => 0 < l) sequences.
Proof.
  unfold draw_sequences, total_anomaly_hours.
  destruct (int _) as [budget |]; [| discriminate].
  set (total := if budget =? 0 then 12 else budget).
  destruct (sequences_loop_spec (Z.to_nat total) total [] w ltac:(lia))
    as (out & w1 & E1 & Hsum & Hall).
  rewrite (bind_run _ _ _ _ _ E1).
  set (out' := if bool_decide (length out = 0%nat) then [12] else out).
  destruct (shuffle_from_spec (length out' - 1) out' w1) as (y & w2 & E2 & Hs2 & Hall2).
  unfold shuffle. rewrite E2. intros [= <- _].
  exists budget. split; [reflexivity |].
  assert (Hout : sum_Z out' = (if 0 <? budget then budget else 12) /\
                 Forall (fun l => 0 < l) out').
  { subst out'. case_bool_decide as Hlen.
    - apply nil_length_inv in Hlen. subst out. simpl in Hsum.
      split; [| apply Forall_singleton; lia].
      subst total. destruct (Z.eqb_spec budget 0), (Z.ltb_spec 0 budget); simpl; lia.
    - split; [| apply Hall; constructor].
      rewrite Hsum. simpl. subst total.
      destruct (Z.eqb_spec budget 0), (Z.ltb_spec 0 budget); try lia.
      exfalso. apply Hlen. destruct out as [| a out]; [done |].
      apply Forall_cons in Hall as [Ha Hall]; [| constructor].
      assert (0 <= sum_Z out).
      { clear -Hall. induction Hall; simpl; [lia |]. unfold sum_Z in *. simpl. lia. }
      unfold sum_Z in *. simpl in Hsum. lia. }
  destruct Hout as [Hs Hp]. split; [by rewrite Hs2 | by apply Hall2].
Qed.

(** ** Stage 3 as a whole *)

Lemma introduce_anomalies_trace_spec fuel df p w df' placed w' :
  is_anomaly df = replicate (len df) 0 ->
  length (machine_health_score df) = len df ->
  introduce_anomalies_trace fuel df p w = Ok (df', placed) w' ->
  placement_inv df' placed /\
  (exists budget, int (float_of_Z (Z.of_nat (len df)) * p)%float = Value budget /\
     sum_Z (map snd placed) = (if 0 <? budget then budget else 12)) /\
  timestamp df' = timestamp df /\
  total_machine_hours df' = total_machine_hours df /\
  days_to_maintenance df' = days_to_maintenance df /\
  (forall t h, machine_health_score df' !! t = Some h ->
     machine_health_score df !! t = Some h \/ clamped h).
Proof.
  intros Hflags Hhl H. unfold introduce_anomalies_trace in H.
  apply bind_ok in H as (sequences & w1 & Es & H).
  apply draw_sequences_spec in Es as (budget & Eb & Hsum & Hpos).
  assert (Hinv0 : placement_inv df []).
  { constructor; auto.
    - rewrite Hflags. apply length_replicate.
    - intros t x. rewrite Hflags. intros Hx. apply lookup_replicate in Hx as [-> _].
      right. split; [done |]. intros (s & l & Hm & _). by apply elem_of_nil in Hm.
    - intros s l Hm. by apply elem_of_nil in Hm.
    - intros i j a b _ Ha. by rewrite lookup_nil in Ha.
    - unfold anomaly_count. rewrite Hflags. apply sum_Z_replicate. }
  destruct (place_episodes_inv _ _ _ _ _ _ _ _ Hinv0 Hpos H) as [Hinv Hsnd].
  apply place_episodes_frame in H as (H1 & H2 & H3 & _ & H5).
  split; [exact Hinv |]. split; [| by repeat split].
  exists budget. split; [exact Eb |]. by rewrite Hsnd.
Qed.

(** ** The whole script *)

Lemma normal_vec_length loc scale n : forall w xs w',
  normal_vec loc scale n w = Ok xs w' -> length xs = n.
Proof.
  induction n as [| n IH]; intros w xs w'; simpl.
  - by intros [= <- _].
  - intros H. apply bind_ok in H as (x & w1 & _ & H).
    apply bind_ok in H as (xs' & w2 & E & H). injection H as <- _.
    simpl. f_equal. by apply (IH w1 xs' w2).
Qed.

(** The table that enters [introduce_anomalies]. *)
Lemma pipeline_trace_stages fuel n p w df placed w' :
  pipeline_trace fuel n p w = Ok (df, placed) w' ->
  exists df1 w1 df2 w2,
    generate_normal_data n w = Ok df1 w1 /\
    generate_health_and_maintenance df1 w1 = Ok df2 w2 /\
    introduce_anomalies_trace fuel df2 p w2 = Ok (df, placed) w' /\
    len df1 = n /\ len df2 = n /\
    is_anomaly df2 = replicate n 0 /\
    length (machine_health_score df2) = n.
Proof.
  unfold pipeline_trace. intros H.
  apply bind_ok in H as (df1 & w1 & E1 & H).
  apply bind_ok in H as (df2 & w2 & E2 & H).
  exists df1, w1, df2, w2.
  destruct (generate_normal_data_bound _ _ _ _ E1) as [Hn Hlast].
  destruct (generate_normal_data_spec n w Hn Hlast)
    as (df1' & w1' & tool & r & wa & wb & E1' & _ & _ & _ & _ & Hts).
  rewrite E1 in E1'. injection E1' as <- <-.
  assert (Hn1 : len df1 = n) by (unfold len; by rewrite Hts, length_map, length_seq).
  destruct (generate_health_and_maintenance_spec _ _ _ _ E2)
    as (pts & wc & hs & noise & _ & El & En & Hh & Hf & Hts2 & _).
  apply health_loop_spec in El as (Hlh & _); [| by rewrite length_replicate ..].
  apply normal_vec_length in En.
  repeat split; auto.
  - unfold len. by rewrite Hts2.
  - by rewrite Hf, Hn1.
  - rewrite Hh. unfold add_noise_and_clip.
    rewrite length_map, length_zip_with, Hlh, En, Hn1. lia.
Qed.

Lemma pipeline_trace_inv fuel n p w df placed w' :
  pipeline_trace fuel n p w = Ok (df, placed) w' ->
  len df = n /\ placement_inv df placed /\
  exists budget, int (float_of_Z (Z.of_nat n) * p)%float = Value budget /\
    sum_Z (map snd placed) = (if 0 <? budget then budget else 12).
Proof.
  intros H.
  apply pipeline_trace_stages in H
    as (df1 & w1 & df2 & w2 & _ & _ & H & _ & Hn & Hf & Hh).
  apply introduce_anomalies_trace_spec in H as (Hinv & Hb & Hts & _);
    [| by rewrite Hn | by rewrite Hn].
  rewrite Hn in Hb. split; [| by split].
  unfold len in *. by rewrite Hts.
Qed.

(** C6. In every run that completes, any two distinct episodes placed by
    [introduce_anomalies] are at least 48 ticks apart (so they do not
    overlap); a row is flagged exactly when it lies in a placed episode; and
    the 48 rows before and the 48 rows after each episode are rows of the
    table that are not flagged. *)
Theorem anomaly_episodes_apart fuel n p w df placed w' :
  pipeline_trace fuel n p w = Ok (df, placed) w' ->
  (forall i j a b, i <> j -> placed !! i = Some a -> placed !! j = Some b ->
     fst a + snd a + 48 <= fst b \/ fst b + snd b + 48 <= fst a) /\
  (forall t x, is_anomaly df !! t = Some x ->
     (x = 1 /\ covered placed (Z.of_nat t)) \/ (x = 0 /\ ~ covered placed (Z.of_nat t))) /\
  (forall s l t, (s, l) ∈ placed ->
     s - 48 <= Z.of_nat t < s \/ s + l <= Z.of_nat t < s + l + 48 ->
     is_anomaly df !! t = Some 0).
Proof.
  intros H. apply pipeline_trace_inv in H as (Hn & Hinv & _).
  split; [exact (inv_apart _ _ Hinv) |]. split; [exact (inv_flags _ _ Hinv) |].
  intros s l t Hm Ht.
  destruct (inv_inside _ _ Hinv s l Hm) as (Hs & Hl & Hend).
  destruct (lookup_lt_is_Some_2 (is_anomaly df) t) as [x Hx].
  { rewrite (inv_flags_len _ _ Hinv). lia. }
  rewrite Hx. f_equal.
  destruct (inv_flags _ _ Hinv t x Hx) as [[_ (s2 & l2 & Hm2 & Ht2)] | [-> _]]; [| done].
  exfalso.
  apply list_elem_of_lookup_1 in Hm as [i Hi].
  apply list_elem_of_lookup_1 in Hm2 as [j Hj].
  destruct (decide (i = j)) as [-> | Hij].
  - rewrite Hi in Hj. injection Hj as <- <-. lia.
  - pose proof (inv_apart _ _ Hinv i j _ _ Hij Hi Hj) as Hap.
    unfold apart in Hap. simpl in Hap. lia.
Qed.

(** C10. In every run that completes, the rows flagged [is_anomaly] are
    flagged with 1, and their number is [int(n_samples * anomaly_percentage)]
    when that budget is positive and 12 when it is 0 (a budget of 1 to 11
    gives fewer than 12 flagged rows). *)
Theorem anomaly_count_exact fuel n p w df placed w' :
  pipeline_trace fuel n p w = Ok (df, placed) w' ->
  Forall (fun x => x = 0 \/ x = 1) (is_anomaly df) /\
  exists budget, int (float_of_Z (Z.of_nat n) * p)%float = Value budget /\
    (0 < budget -> anomaly_count df = budget) /\
    (budget = 0 -> anomaly_count df = 12) /\
    (0 < budget < 12 -> anomaly_count df < 12).
Proof.
  intros H. apply pipeline_trace_inv in H as (Hn & Hinv & budget & Eb & Hsum).
  split.
  - apply Forall_lookup. intros t x Hx.
    destruct (inv_flags _ _ Hinv t x Hx) as [[-> _] | [-> _]]; auto.
  - exists budget. split; [exact Eb |].
    rewrite (inv_count _ _ Hinv), Hsum.
    destruct (Z.ltb_spec 0 budget); repeat split; lia.
Qed.

(** C7, as the code has it.  In every run that completes, at least one row
    is flagged, the number of flagged rows is at least the budget
    [int(n_samples * anomaly_percentage)], and it is at least 12 when that
    budget is 0 or is itself at least 12. *)
Theorem anomaly_count_lower_bounds fuel n p w df placed w' :
  pipeline_trace fuel n p w = Ok (df, placed) w' ->
  1 <= anomaly_count df /\
  exists budget, int (float_of_Z (Z.of_nat n) * p)%float = Value budget /\
    budget <= anomaly_count df /\
    (budget = 0 \/ 12 <= budget -> 12 <= anomaly_count df).
Proof.
  intros H. apply pipeline_trace_inv in H as (Hn & Hinv & budget & Eb & Hsum).
  rewrite (inv_count _ _ Hinv), Hsum.
  split; [destruct (Z.ltb_spec 0 budget); lia |].
  exists budget. split; [exact Eb |].
  destruct (Z.ltb_spec 0 budget); split; lia.
Qed.

(** ** The rejection loop has no retry budget *)

Lemma place_episode_more_fuel fuel fuel' df seq_length w r w' :
  (fuel <= fuel')%nat ->
  place_episode fuel df seq_length w = Ok r w' ->
  place_episode fuel' df seq_length w = Ok r w'.
Proof.
  unfold place_episode. intros Hle H.
  apply bind_ok in H as (ty & w1 & E1 & H). rewrite (bind_run _ _ _ _ _ E1).
  destruct (dict_get anomaly_types ty) as [cfg |]; [| discriminate].
  apply bind_ok in H as (s0 & w2 & E2 & H). rewrite (bind_run _ _ _ _ _ E2).
  apply bind_ok in H as (s & w3 & E3 & H).
  rewrite (bind_run _ _ _ _ _ (redraw_start_more_fuel _ _ _ _ _ _ _ _ Hle E3)).
  exact H.
Qed.

Lemma choice_catalog w :
  exists ty cfg w',
    choice ""%string (map fst anomaly_types) w = Ok ty w' /\
    dict_get anomaly_types ty = Some cfg.
Proof.
  unfold choice, randbelow, getrand, bind, ret.
  set (k := py_bits (py w) (py_pos (py w)) `mod` Z.of_nat (length (map fst anomaly_types))).
  assert (Hk : 0 <= k < 5) by (subst k; apply Z.mod_pos_bound; simpl; lia).
  assert (Hcase : k = 0 \/ k = 1 \/ k = 2 \/ k = 3 \/ k = 4) by lia.
  destruct Hcase as [-> | [-> | [-> | [-> | ->]]]]; eexists _, _, _; split; reflexivity.
Qed.

(** When every start that can be drawn for an episode is rejected, the pass
    for that episode never ends, whatever is drawn. *)
Lemma place_episode_stuck fuel df seq_length w :
  48 <= Z.of_nat (len df) - seq_length - 48 ->
  (forall s, 48 <= s <= Z.of_nat (len df) - seq_length - 48 ->
     overlaps df s seq_length = true) ->
  place_episode fuel df seq_length w = Hang.
Proof.
  intros Hne Hall. unfold place_episode.
  destruct (choice_catalog w) as (ty & cfg & w1 & E1 & Ecfg).
  rewrite (bind_run _ _ _ _ _ E1), Ecfg.
  destruct (returns_randint 48 (Z.of_nat (len df) - seq_length - 48) Hne w1)
    as (s0 & w2 & E2).
  rewrite (bind_run _ _ _ _ _ E2). apply randint_spec in E2.
  unfold bind at 1. rewrite redraw_start_stuck; auto.
Qed.

Lemma place_episodes_cons fuel seq_length rest df placed :
  place_episodes fuel (seq_length :: rest) df placed =
  bind (place_episode fuel df seq_length)
       (fun r => place_episodes fuel rest (fst r) (placed ++ [snd r])).
Proof. reflexivity. Qed.

(** A test that holds on each element of [a .. b], checked by enumeration. *)
Lemma forall_between (f : Z -> bool) (a b : Z) :
  forallb f (map (fun i => a + Z.of_nat i) (seq 0 (Z.to_nat (b - a + 1)))) = true ->
  forall s, a <= s <= b -> f s = true.
Proof.
  intros H s Hs. rewrite forallb_forall in H. apply H.
  apply in_map_iff. exists (Z.to_nat (s - a)). split; [lia |].
  apply in_seq. lia.
Qed.

Lemma bind_raise {A B} (m : M A) (f : A -> M B) w e :
  bind m f w = Raise e ->
  m w = Raise e \/ exists a w1, m w = Ok a w1 /\ f a w1 = Raise e.
Proof. unfold bind. destruct (m w); [eauto | intros [= ->]; auto | discriminate]. Qed.

Lemma randint_raise a b w e : randint a b w = Raise e -> e = ValueError /\ b < a.
Proof.
  unfold randint. destruct (Z.ltb_spec b a) as [Hlt | Hle]; [| discriminate].
  by intros [= <-].
Qed.

(** The only exception the rejection loop can end with is the [ValueError]
    of [randint] on an empty range. *)
Lemma redraw_start_raise df seq_length fuel : forall start_pos w e,
  redraw_start fuel df seq_length start_pos w = Raise e ->
  e = ValueError /\ Z.of_nat (len df) - seq_length - 48 < 48.
Proof.
  induction fuel as [| fuel IH]; intros s w e; simpl;
    destruct (overlaps df s seq_length); try discriminate.
  intros H. apply bind_raise in H as [H | (s1 & w1 & _ & H)].
  - by apply randint_raise in H.
  - by apply IH in H.
Qed.

(** C2, as the code has it.  The rejection loop has no retry budget and no
    placement error.  A start that passes the overlap test is returned at
    once, without a draw; a start that fails it is replaced by a draw of
    [randint(48, len(df) - seq_length - 48)] and the loop goes on with that
    one, so the loop returns the first drawn start that passes the test.
    When it returns, the start it returns passes the test; a run that
    returned within some number of redraws returns the same with any larger
    number; the only exception it can end with is the [ValueError] of
    [randint] on an empty range; and when every start in the range of the
    draw is rejected, the loop is still running after any number of
    redraws. *)
Theorem placement_search_unbounded (df : DataFrame) (seq_length : Z) :
  (forall fuel start_pos w,
     overlaps df start_pos seq_length = false ->
     redraw_start fuel df seq_length start_pos w = Ok start_pos w) /\
  (forall fuel start_pos w s w',
     overlaps df start_pos seq_length = true ->
     randint 48 (Z.of_nat (len df) - seq_length - 48) w = Ok s w' ->
     redraw_start (S fuel) df seq_length start_pos w =
       redraw_start fuel df seq_length s w') /\
  (forall fuel start_pos w s w',
     overlaps df start_pos seq_length = true ->
     randint 48 (Z.of_nat (len df) - seq_length - 48) w = Ok s w' ->
     overlaps df s seq_length = false ->
     redraw_start (S fuel) df seq_length start_pos w = Ok s w') /\
  (forall fuel start_pos w r w',
     redraw_start fuel df seq_length start_pos w = Ok r w' ->
     overlaps df r seq_length = false) /\
  (forall fuel fuel' start_pos w r w', (fuel <= fuel')%nat ->
     redraw_start fuel df seq_length start_pos w = Ok r w' ->
     redraw_start fuel' df seq_length start_pos w = Ok r w') /\
  (forall fuel start_pos w e,
     redraw_start fuel df seq_length start_pos w = Raise e ->
     e = ValueError /\ Z.of_nat (len df) - seq_length - 48 < 48) /\
  (48 <= Z.of_nat (len df) - seq_length - 48 ->
   (forall s, 48 <= s <= Z.of_nat (len df) - seq_length - 48 ->
      overlaps df s seq_length = true) ->
   forall fuel start_pos w,
     overlaps df start_pos seq_length = true ->
     redraw_start fuel df seq_length start_pos w = Hang).
Proof.
  assert (Hnow : forall fuel start_pos w,
            overlaps df start_pos seq_length = false ->
            redraw_start fuel df seq_length start_pos w = Ok start_pos w).
  { intros fuel s w Ho. destruct fuel; simpl; by rewrite Ho. }
  assert (Hnext : forall fuel start_pos w s w',
            overlaps df start_pos seq_length = true ->
            randint 48 (Z.of_nat (len df) - seq_length - 48) w = Ok s w' ->
            redraw_start (S fuel) df seq_length start_pos w =
              redraw_start fuel df seq_length s w').
  { intros fuel s0 w s w' Ho Er. simpl. rewrite Ho. by rewrite (bind_run _ _ _ _ _ Er). }
  split; [exact Hnow |]. split; [exact Hnext |].
  split; [| split; [| split; [| split]]].
  - intros fuel s0 w s w' Ho Er Hs. rewrite (Hnext fuel s0 w s w' Ho Er). by apply Hnow.
  - intros fuel s w r w' H. by apply redraw_start_spec in H as [H _].
  - intros fuel fuel' s w r w'. apply redraw_start_more_fuel.
  - intros fuel. apply redraw_start_raise.
  - apply redraw_start_stuck.
Qed.

(** ** The health pass inside a run of the script *)

(** The health pass of a run that completed: the checkpoints [pts] it drew,
    the column [hs] of scores it wrote before the noise, and its days, which
    are the days of the final table. *)
Lemma pipeline_health_pass fuel n p w df placed w' :
  pipeline_trace fuel n p w = Ok (df, placed) w' ->
  exists df1 w1 pts w2 hs,
    generate_normal_data n w = Ok df1 w1 /\
    draw_maintenance_points w1 = Ok pts w2 /\
    health_loop pts (total_machine_hours df1) n 0 100
      (replicate n 0%float) (replicate n 0) = Value (hs, days_to_maintenance df).
Proof.
  intros H.
  apply pipeline_trace_stages in H
    as (df1 & w1 & df2 & w2 & E1 & E2 & H & Hn1 & Hn2 & Hf & Hh).
  apply introduce_anomalies_trace_spec in H as (_ & _ & _ & _ & Hd & _);
    [| by rewrite Hn2 | by rewrite Hn2].
  apply generate_health_and_maintenance_spec in E2
    as (pts & wc & hs & noise & Ep & El & _).
  rewrite Hn1 in El. rewrite Hd. by exists df1, w1, pts, wc, hs.
Qed.

(** C1, as the code has it.  In a run that completed, at each checkpoint
    tick [t] that is a row of the table, [days_to_maintenance] is 30; the
    score written at [t] before the noise is the decayed value of what tick
    [t - 1] carried over, as at any other tick; and the reset to 100.0 is
    what tick [t + 1] starts from. *)
Theorem checkpoint_tick_records fuel n p w df placed w' :
  pipeline_trace fuel n p w = Ok (df, placed) w' ->
  exists df1 w1 pts w2 hs,
    generate_normal_data n w = Ok df1 w1 /\
    draw_maintenance_points w1 = Ok pts w2 /\
    health_loop pts (total_machine_hours df1) n 0 100
      (replicate n 0%float) (replicate n 0) = Value (hs, days_to_maintenance df) /\
    forall t, Z.of_nat t ∈ pts -> (t < n)%nat ->
      days_to_maintenance df !! t = Some 30 /\
      (forall prev, (0 < t)%nat -> hs !! (t - 1)%nat = Some prev ->
         hs !! t = Some (decayed (total_machine_hours df1) t
                           (if bool_decide (Z.of_nat (t - 1) ∈ pts) then 100%float else prev))) /\
      ((S t < n)%nat -> hs !! S t = Some (decayed (total_machine_hours df1) (S t) 100)).
Proof.
  intros H. destruct (pipeline_health_pass _ _ _ _ _ _ _ H)
    as (df1 & w1 & pts & w2 & hs & E1 & Ep & El).
  exists df1, w1, pts, w2, hs. repeat split; auto.
  - apply health_loop_spec in El as (Hlh & _ & _ & _ & _ & Hdays);
      [| by rewrite length_replicate ..].
    destruct (lookup_lt_is_Some_2 hs t) as [h Hh]; [lia |].
    specialize (Hdays t h ltac:(lia) Hh).
    by rewrite bool_decide_eq_true_2 in Hdays.
  - intros prev Ht Hprev.
    apply health_loop_spec in El as (_ & _ & _ & _ & Hnext & _);
      [| by rewrite length_replicate ..].
    specialize (Hnext (t - 1)%nat prev ltac:(lia) ltac:(lia) Hprev).
    by replace (S (t - 1)) with t in Hnext by lia.
  - intros Ht.
    apply health_loop_spec in El as (Hlh & _ & _ & _ & Hnext & _);
      [| by rewrite length_replicate ..].
    destruct (lookup_lt_is_Some_2 hs t) as [h Hh]; [lia |].
    specialize (Hnext t h ltac:(lia) ltac:(lia) Hh).
    by rewrite bool_decide_eq_true_2 in Hnext.
Qed.

(** C8, as the code has it.  In a run that completed, at each tick that is
    not a checkpoint, [days_to_maintenance] in the final table is the step
    function of the score the health pass wrote at that tick before the
    noise; the noise and the anomaly penalty applied to
    [machine_health_score] afterwards leave [days_to_maintenance] as it
    is. *)
Theorem days_to_maintenance_of_recorded_health fuel n p w df placed w' :
  pipeline_trace fuel n p w = Ok (df, placed) w' ->
  exists df1 w1 pts w2 hs,
    generate_normal_data n w = Ok df1 w1 /\
    draw_maintenance_points w1 = Ok pts w2 /\
    health_loop pts (total_machine_hours df1) n 0 100
      (replicate n 0%float) (replicate n 0) = Value (hs, days_to_maintenance df) /\
    length hs = n /\
    forall t h, hs !! t = Some h -> Z.of_nat t ∉ pts ->
      exists d, days_to_maint h = Value d /\ days_to_maintenance df !! t = Some d.
Proof.
  intros H. destruct (pipeline_health_pass _ _ _ _ _ _ _ H)
    as (df1 & w1 & pts & w2 & hs & E1 & Ep & El).
  exists df1, w1, pts, w2, hs. repeat split; auto.
  - by apply health_loop_spec in El as (Hlh & _); [| by rewrite length_replicate ..].
  - intros t h Hh Ht.
    apply health_loop_spec in El as (_ & _ & _ & _ & _ & Hdays);
      [| by rewrite length_replicate ..].
    specialize (Hdays t h ltac:(lia) Hh).
    by rewrite bool_decide_eq_false_2 in Hdays.
Qed.
(** ** Concrete runs *)

Lemma returned_ok {A} (check : A -> bool) (r : result world A) :
  returned check r = true -> exists a w', r = Ok a w' /\ check a = true.
Proof. destruct r as [a w' | e |]; simpl; [eauto | discriminate | discriminate]. Qed.

(** When the first episode is placed at once and no start is left for the
    second one, the script is still running after any number of redraws. *)
Lemma second_episode_stuck fuel n p w l1 l2 rest df3 e w4 :
  front n p w = Ok (l1 :: l2 :: rest, (df3, e)) w4 ->
  48 <= Z.of_nat (len df3) - l2 - 48 ->
  (forall s, 48 <= s <= Z.of_nat (len df3) - l2 - 48 -> overlaps df3 s l2 = true) ->
  pipeline_trace fuel n p w = Hang.
Proof.
  intros E Hne Hall. unfold front in E.
  apply bind_ok in E as (df1 & w1 & E1 & E).
  apply bind_ok in E as (df2 & w2 & E2 & E).
  apply bind_ok in E as (sequences & w3 & E3 & E).
  apply bind_ok in E as (r & w4' & E4 & E).
  injection E as -> -> ->. simpl in E4.
  unfold pipeline_trace, introduce_anomalies_trace.
  rewrite (bind_run _ _ _ _ _ E1), (bind_run _ _ _ _ _ E2), (bind_run _ _ _ _ _ E3).
  rewrite place_episodes_cons.
  rewrite (bind_run _ _ _ _ _ (place_episode_more_fuel 0 fuel _ _ _ _ _ ltac:(lia) E4)).
  cbn [fst snd]. rewrite place_episodes_cons. unfold bind at 1.
  by rewrite place_episode_stuck.
Qed.

(** With 200 rows and 5% of anomalies, the 10 hours of anomalies are split
    into episodes of 6 and 4 hours, shuffled to 4 and 6.  All raw outputs
    are 0 but output 218, the draw of the start of the first episode, which
    puts it on row 98, in the middle of the table; no start of the second
    one leaves 48 free rows between the two. *)
Lemma front_200_stuck :
  returned second_stuck (front 200 0.05 (boot still (draws [(218%nat, 50)]))) = true.
Proof. vm_compute. reflexivity. Qed.

Lemma placement_search_hangs_200 fuel :
  pipeline_trace fuel 200 0.05 (boot still (draws [(218%nat, 50)])) = Hang.
Proof.
  destruct (returned_ok _ _ front_200_stuck) as ([sequences [df3 e]] & w4 & E & Hc).
  unfold second_stuck in Hc. cbn [fst snd] in Hc.
  destruct sequences as [| l1 [| l2 rest]]; try discriminate Hc.
  apply andb_prop in Hc as [Hne Hall]. apply Z.leb_le in Hne.
  apply (second_episode_stuck fuel _ _ _ _ _ _ _ _ _ E Hne).
  apply (forall_between (fun s => overlaps df3 s l2)). exact Hall.
Qed.

(** C2 fails on the code: on this input the placement search neither ends
    nor raises, whatever number of redraws it is given. *)
Lemma placement_search_can_hang :
  ~ (exists fuel,
       pipeline_trace fuel 200 0.05 (boot still (draws [(218%nat, 50)])) <> Hang).
Proof. intros [fuel H]. apply H, placement_search_hangs_200. Qed.

(** ** Runs used as examples *)

Lemma run_script_check :
  returned (fun a => bool_decide (length (snd a) = 14%nat)) run_script = true.
Proof. vm_compute. reflexivity. Qed.

Lemma run_script_returns :
  exists df placed w', run_script = Ok (df, placed) w' /\ length placed = 14%nat.
Proof.
  destruct (returned_ok _ _ run_script_check) as ([df placed] & w' & E & Hc).
  apply bool_decide_eq_true in Hc. exists df, placed, w'. split; [exact E | exact Hc].
Qed.

Lemma run_300_check :
  returned (fun a => bool_decide (snd a = [(48, 7); (148, 8)])) run_300 = true.
Proof. vm_compute. reflexivity. Qed.

Lemma run_300_returns :
  exists df w', run_300 = Ok (df, [(48, 7); (148, 8)]) w'.
Proof.
  destruct (returned_ok _ _ run_300_check) as ([df placed] & w' & E & Hc).
  apply bool_decide_eq_true in Hc. simpl in Hc. subst placed.
  exists df, w'. exact E.
Qed.

Lemma run_602_check :
  returned (fun a => bool_decide (snd a = [(48, 6)])) run_602 = true.
Proof. vm_compute. reflexivity. Qed.

Lemma run_602_returns : exists df w', run_602 = Ok (df, [(48, 6)]) w'.
Proof.
  destruct (returned_ok _ _ run_602_check) as ([df placed] & w' & E & Hc).
  apply bool_decide_eq_true in Hc. simpl in Hc. subst placed.
  exists df, w'. exact E.
Qed.

(** The run of the script satisfies C6. *)
Lemma anomaly_episodes_apart_run_script :
  exists df placed w', run_script = Ok (df, placed) w' /\ length placed = 14%nat /\
    (forall i j a b, i <> j -> placed !! i = Some a -> placed !! j = Some b ->
       fst a + snd a + 48 <= fst b \/ fst b + snd b + 48 <= fst a) /\
    (forall t x, is_anomaly df !! t = Some x ->
       (x = 1 /\ covered placed (Z.of_nat t)) \/ (x = 0 /\ ~ covered placed (Z.of_nat t))) /\
    (forall s l t, (s, l) ∈ placed ->
       s - 48 <= Z.of_nat t < s \/ s + l <= Z.of_nat t < s + l + 48 ->
       is_anomaly df !! t = Some 0).
Proof.
  destruct run_script_returns as (df & placed & w' & E & Hlen).
  exists df, placed, w'. split; [exact E |]. split; [exact Hlen |].
  exact (anomaly_episodes_apart _ _ _ _ _ _ _ E).
Defined.

(** The run of the script satisfies C10: 324 flagged rows for a budget of
    [int(2160 * 0.15) = 324]. *)
Lemma anomaly_count_exact_run_script :
  exists df placed w', run_script = Ok (df, placed) w' /\ length placed = 14%nat /\
    Forall (fun x => x = 0 \/ x = 1) (is_anomaly df) /\
    exists budget, int (float_of_Z (Z.of_nat n_samples) * 0.15)%float = Value budget /\
      (0 < budget -> anomaly_count df = budget) /\
      (budget = 0 -> anomaly_count df = 12) /\
      (0 < budget < 12 -> anomaly_count df < 12).
Proof.
  destruct run_script_returns as (df & placed & w' & E & Hlen).
  exists df, placed, w'. split; [exact E |]. split; [exact Hlen |].
  exact (anomaly_count_exact _ _ _ _ _ _ _ E).
Defined.

(** The run of 300 rows satisfies the bounds of C7 that hold. *)
Lemma anomaly_count_lower_bounds_run_300 :
  exists df w', run_300 = Ok (df, [(48, 7); (148, 8)]) w' /\
    1 <= anomaly_count df /\
    exists budget, int (float_of_Z (Z.of_nat 300) * 0.05)%float = Value budget /\
      budget <= anomaly_count df /\
      (budget = 0 \/ 12 <= budget -> 12 <= anomaly_count df).
Proof.
  destruct run_300_returns as (df & w' & E). exists df, w'.
  split; [exact E |].
  exact (anomaly_count_lower_bounds _ _ _ _ _ _ _ E).
Defined.

Lemma run_120_check :
  returned (fun a =>
      (anomaly_count (fst a) =? 6) &&
      match machine_health_score (fst a) !! 53%nat with
      | Some h => bool_decide (days_to_maint h = Value 20)
      | None => false
      end &&
      bool_decide (days_to_maintenance (fst a) !! 53%nat = Some 30))
    run_120 = true.
Proof. vm_compute. reflexivity. Qed.

(** C7 fails on the code: with 120 rows and 5% of anomalies the budget is 6
    and the run flags 6 rows, fewer than 12. *)
Lemma fewer_than_12_flagged_rows :
  exists df placed w', run_120 = Ok (df, placed) w' /\
    int (float_of_Z 120 * 0.05)%float = Value 6 /\
    anomaly_count df = 6 /\ anomaly_count df < 12.
Proof.
  destruct (returned_ok _ _ run_120_check) as ([df placed] & w' & E & Hc).
  apply andb_prop in Hc as [Hc _]. apply andb_prop in Hc as [Hc _].
  apply Z.eqb_eq in Hc. simpl in Hc.
  exists df, placed, w'. split; [exact E |].
  split; [vm_compute; reflexivity |]. split; [exact Hc | lia].
Qed.

Lemma checkpoints_120 :
  returned (fun pts => bool_decide (pts = [600; 1320; 2040]))
    (checkpoints 120 (boot still (draws []))) = true.
Proof. vm_compute. reflexivity. Qed.

(** C8 fails on the code: row 53 of the run of 120 rows is no checkpoint
    (these are 600, 1320 and 2040), its final score is the 63.9 that the
    penalty of the anomaly leaves, whose step value is 20, and its
    [days_to_maintenance] is 30. *)
Lemma days_not_the_step_of_final_score :
  exists df placed w' h,
    run_120 = Ok (df, placed) w' /\
    (exists pts w2, checkpoints 120 (boot still (draws [])) = Ok pts w2 /\ 53 ∉ pts) /\
    machine_health_score df !! 53%nat = Some h /\
    days_to_maint h = Value 20 /\
    days_to_maintenance df !! 53%nat = Some 30.
Proof.
  destruct (returned_ok _ _ run_120_check) as ([df placed] & w' & E & Hc).
  apply andb_prop in Hc as [Hc Hd]. apply andb_prop in Hc as [_ Hh].
  simpl in Hh, Hd.
  destruct (machine_health_score df !! 53%nat) as [h |] eqn:Eh; [| discriminate Hh].
  apply bool_decide_eq_true in Hh. apply bool_decide_eq_true in Hd.
  destruct (returned_ok _ _ checkpoints_120) as (pts0 & w0 & E0 & Hp).
  apply bool_decide_eq_true in Hp. subst pts0.
  exists df, placed, w', h. split; [exact E |]. split; [| by repeat split].
  exists [600; 1320; 2040], w0. split; [exact E0 |].
  intros Hin. apply list_elem_of_In in Hin. simpl in Hin. lia.
Qed.

Lemma health_pass_inv n w pts hs ds w2 :
  health_pass n w = Ok (pts, (hs, ds)) w2 ->
  exists df1 w1,
    generate_normal_data n w = Ok df1 w1 /\
    draw_maintenance_points w1 = Ok pts w2 /\
    health_loop pts (total_machine_hours df1) n 0 100
      (replicate n 0%float) (replicate n 0) = Value (hs, ds).
Proof.
  unfold health_pass. intros H.
  apply bind_ok in H as (df1 & w1 & E1 & H).
  apply bind_ok in H as (pts' & w2' & E2 & H).
  destruct (health_loop _ _ _ _ _ _ _) as [r |] eqn:El; [| discriminate].
  injection H as <- <- <-. by exists df1, w1.
Qed.

Lemma health_pass_601 :
  returned (fun a =>
      bool_decide (fst a = [600; 1320; 2040]) &&
      match fst (snd a) !! 600%nat with
      | Some h => PrimFloat.ltb h 88 && negb (PrimFloat.eqb h 100)
      | None => false
      end &&
      bool_decide (snd (snd a) !! 600%nat = Some 30))
    (health_pass 601 (boot still (draws []))) = true.
Proof. vm_compute. reflexivity. Qed.

(** C1 fails on the code: with all raw outputs 0 the first checkpoint is
    tick 600, and the score written there before the noise is below 88 (it
    is the decayed 87.98...), not 100.0. *)
Lemma checkpoint_score_not_100 :
  exists df1 w1 pts w2 hs ds h,
    generate_normal_data 601 (boot still (draws [])) = Ok df1 w1 /\
    draw_maintenance_points w1 = Ok pts w2 /\
    600 ∈ pts /\
    health_loop pts (total_machine_hours df1) 601 0 100
      (replicate 601 0%float) (replicate 601 0) = Value (hs, ds) /\
    hs !! 600%nat = Some h /\
    PrimFloat.ltb h 88 = true /\ h <> 100%float /\
    ds !! 600%nat = Some 30.
Proof.
  destruct (returned_ok _ _ health_pass_601) as ([pts [hs ds]] & w2 & E & Hc).
  cbn [fst snd] in Hc.
  apply andb_prop in Hc as [Hc Hd]. apply andb_prop in Hc as [Hp Hh].
  apply bool_decide_eq_true in Hp. apply bool_decide_eq_true in Hd.
  destruct (hs !! 600%nat) as [h |] eqn:Eh; [| discriminate Hh].
  apply andb_prop in Hh as [Hlt Hne].
  apply health_pass_inv in E as (df1 & w1 & E1 & E2 & El).
  exists df1, w1, pts, w2, hs, ds, h.
  split; [exact E1 |]. split; [exact E2 |]. split; [| split; [exact El |]].
  2: split; [exact Eh |]; split; [exact Hlt |]; split; [| exact Hd].
  - rewrite Hp. apply list_elem_of_In. simpl. auto.
  - intros ->. vm_compute in Hne. discriminate Hne.
Qed.

(** The run of 602 rows satisfies C1 as the code has it. *)
Lemma checkpoint_tick_records_run_602 :
  exists df w', run_602 = Ok (df, [(48, 6)]) w' /\
  exists df1 w1 pts w2 hs,
    generate_normal_data 602 (boot still (draws [])) = Ok df1 w1 /\
    draw_maintenance_points w1 = Ok pts w2 /\
    health_loop pts (total_machine_hours df1) 602 0 100
      (replicate 602 0%float) (replicate 602 0) = Value (hs, days_to_maintenance df) /\
    forall t, Z.of_nat t ∈ pts -> (t < 602)%nat ->
      days_to_maintenance df !! t = Some 30 /\
      (forall prev, (0 < t)%nat -> hs !! (t - 1)%nat = Some prev ->
         hs !! t = Some (decayed (total_machine_hours df1) t
                           (if bool_decide (Z.of_nat (t - 1) ∈ pts) then 100%float else prev))) /\
      ((S t < 602)%nat -> hs !! S t = Some (decayed (total_machine_hours df1) (S t) 100)).
Proof.
  destruct run_602_returns as (df & w' & E). exists df, w'.
  split; [exact E |].
  exact (checkpoint_tick_records _ _ _ _ _ _ _ E).
Defined.

(** The run of 602 rows satisfies C8 as the code has it. *)
Lemma days_to_maintenance_of_recorded_health_run_602 :
  exists df w', run_602 = Ok (df, [(48, 6)]) w' /\
  exists df1 w1 pts w2 hs,
    generate_normal_data 602 (boot still (draws [])) = Ok df1 w1 /\
    draw_maintenance_points w1 = Ok pts w2 /\
    health_loop pts (total_machine_hours df1) 602 0 100
      (replicate 602 0%float) (replicate 602 0) = Value (hs, days_to_maintenance df) /\
    length hs = 602%nat /\
    forall t h, hs !! t = Some h -> Z.of_nat t ∉ pts ->
      exists d, days_to_maint h = Value d /\ days_to_maintenance df !! t = Some d.
Proof.
  destruct run_602_returns as (df & w' & E). exists df, w'.
  split; [exact E |].
  exact (days_to_maintenance_of_recorded_health _ _ _ _ _ _ _ E).
Defined.

(** ** The seed does not fix the table *)

Lemma differ_ok r1 r2 :
  differ r1 r2 = true ->
  exists df1 w1 df2 w2, r1 = Ok df1 w1 /\ r2 = Ok df2 w2 /\ df1 <> df2.
Proof.
  unfold differ. destruct r1 as [df1 w1 | |], r2 as [df2 w2 | |]; try discriminate.
  intros H. exists df1, w1, df2, w2. repeat split. intros ->.
  destruct (second_tool_usage df2) as [x |]; [| discriminate].
  destruct (PrimFloat.ltb x 12); discriminate.
Qed.

(** C3 fails on the code.  Whatever stream numpy derives from its seed, two
    runs of the script as it is ([n_samples] rows, 15% of anomalies) that
    differ only in one output of Python's [random] module, which the script
    never seeds, both complete and return different tables: the second cell
    of [tool_usage_min] is 10.0 in one and 15.0 in the other. *)
Theorem same_seed_different_tables (seeded : nat -> float) :
  exists df1 w1 df2 w2,
    pipeline 50 n_samples 0.15 (boot seeded (lcg_with 0)) = Ok df1 w1 /\
    pipeline 50 n_samples 0.15 (boot seeded (lcg_with (2 ^ 52))) = Ok df2 w2 /\
    df1 <> df2.
Proof. apply differ_ok. vm_compute. reflexivity. Qed.
(** ** Floating point facts *)

Lemma SFcompare_refl s : s <> S754_nan -> SFcompare s s = Some Eq.
Proof.
  destruct s as [b | b | | b m e]; simpl; intros H; try done.
  - by destruct b.
  - rewrite Z.compare_refl, Pos.compare_cont_refl. by destruct b.
Qed.

Lemma is_nan_false x : PrimFloat.is_nan x = false <-> Prim2SF x <> S754_nan.
Proof.
  unfold PrimFloat.is_nan. rewrite FloatAxioms.eqb_spec. unfold SFeqb. split.
  - intros H E. rewrite E in H. discriminate.
  - intros H. by rewrite SFcompare_refl.
Qed.

Lemma ltb_leb a b : PrimFloat.ltb a b = true -> PrimFloat.leb a b = true.
Proof.
  rewrite FloatAxioms.ltb_spec, FloatAxioms.leb_spec. unfold SFltb, SFleb.
  by destruct (SFcompare _ _) as [[] |].
Qed.

Lemma ltb_not_nan a b : PrimFloat.ltb a b = true -> PrimFloat.is_nan b = false.
Proof.
  rewrite FloatAxioms.ltb_spec. intros H. apply is_nan_false. intros E. rewrite E in H.
  unfold SFltb in H. by destruct (Prim2SF a).
Qed.

Lemma clamped_in_range h : clamped h -> in_range h.
Proof.
  intros [x ->]. unfold py_max, py_min, in_range.
  destruct (PrimFloat.ltb x 100) eqn:E1.
  - destruct (PrimFloat.ltb 0 x) eqn:E2; [by split; apply ltb_leb |].
    split; reflexivity.
  - split; reflexivity.
Qed.

Lemma clip_in_range v : PrimFloat.is_nan v = false -> in_range (clip 0 100 v).
Proof.
  intros H. unfold clip, in_range. rewrite H.
  destruct (PrimFloat.leb 0 v) eqn:E1.
  - destruct (PrimFloat.leb v 100) eqn:E2; [by split |]. split; reflexivity.
  - split; reflexivity.
Qed.

Lemma py_max_not_nan a y :
  PrimFloat.is_nan a = false -> PrimFloat.is_nan (py_max a y) = false.
Proof.
  intros H. unfold py_max. destruct (PrimFloat.ltb a y) eqn:E; [| exact H].
  by apply ltb_not_nan in E.
Qed.

(** Rounding never produces a NaN. *)
Lemma shr_1_nonneg mrs : 0 <= shr_m mrs -> 0 <= shr_m (shr_1 mrs).
Proof.
  destruct mrs as [m r s]. destruct m as [| p | p]; simpl; try lia;
    destruct p; simpl; lia.
Qed.

Lemma iter_pos_shr_1_nonneg n : forall mrs,
  0 <= shr_m mrs -> 0 <= shr_m (SpecFloat.iter_pos shr_1 n mrs).
Proof.
  induction n as [n IH | n IH |]; simpl; intros mrs H.
  - apply IH, IH, shr_1_nonneg, H.
  - apply IH, IH, H.
  - apply shr_1_nonneg, H.
Qed.

Lemma shr_fexp_nonneg m e l :
  0 <= m -> 0 <= shr_m (fst (shr_fexp prec emax m e l)).
Proof.
  intros H. unfold shr_fexp, shr.
  assert (H0 : 0 <= shr_m (shr_record_of_loc m l)).
  { by destruct l as [| []]. }
  destruct (fexp prec emax (Zdigits2 m + e) - e); simpl; auto.
  by apply iter_pos_shr_1_nonneg.
Qed.

Lemma round_nearest_even_nonneg m l : 0 <= m -> 0 <= round_nearest_even m l.
Proof.
  intros H. destruct l as [| []]; simpl; try lia. destruct (Z.even m); lia.
Qed.

Lemma binary_round_aux_not_nan sx mx ex lx :
  0 <= mx -> binary_round_aux prec emax sx mx ex lx <> S754_nan.
Proof.
  intros H. unfold binary_round_aux.
  pose proof (shr_fexp_nonneg mx ex lx H) as H1.
  destruct (shr_fexp prec emax mx ex lx) as [mrs' e']. simpl in H1.
  pose proof (shr_fexp_nonneg _ e' loc_Exact
                (round_nearest_even_nonneg _ (loc_of_shr_record mrs') H1)) as H2.
  destruct (shr_fexp prec emax _ e' loc_Exact) as [mrs'' e'']. simpl in H2.
  destruct (shr_m mrs'') as [| p | p]; [done | | lia].
  by destruct (e'' <=? emax - prec).
Qed.

Lemma binary_normalize_not_nan m e s : binary_normalize prec emax m e s <> S754_nan.
Proof.
  unfold binary_normalize, binary_round.
  destruct m as [| p | p]; [done | |];
    destruct (shl_align _ _ _) as [mz ez]; by apply binary_round_aux_not_nan.
Qed.

(** Adding a number to anything but a NaN does not give a NaN. *)
Lemma add_not_nan h x :
  PrimFloat.is_nan h = false -> finite x = true ->
  PrimFloat.is_nan (h + x)%float = false.
Proof.
  rewrite !is_nan_false. unfold finite. rewrite FloatAxioms.add_spec. unfold SF64add, SFadd.
  intros Hh Hx.
  destruct (Prim2SF h) as [sh | sh | | sh mh eh]; try done;
    destruct (Prim2SF x) as [sx | sx | | sx mx ex]; try done.
  - by destruct sh, sx.
  - apply binary_normalize_not_nan.
Qed.

Lemma digits2_pos_xO p : Z.pos (digits2_pos p~0) = Z.pos (digits2_pos p) + 1.
Proof. change (digits2_pos p~0) with (Pos.succ (digits2_pos p)). lia. Qed.

Lemma digits2_pos_shift (k : nat) p :
  Z.pos (digits2_pos (Nat.iter k xO p)) = Z.pos (digits2_pos p) + Z.of_nat k.
Proof.
  induction k as [| k IH]; [simpl; lia |].
  change (Nat.iter (S k) xO p) with ((Nat.iter k xO p)~0)%positive.
  rewrite digits2_pos_xO, IH. lia.
Qed.

(** Multiplying a number by 1.0 is exact. *)
Lemma shr_fexp_times_2_52 m e :
  canonical_mantissa prec emax m e = true ->
  shr_fexp prec emax (Z.pos (4503599627370496 * m)) (-52 + e) loc_Exact =
  ({| shr_m := Z.pos m; shr_r := false; shr_s := false |}, e).
Proof.
  unfold canonical_mantissa. intros H. apply Z.eqb_eq in H.
  unfold shr_fexp.
  assert (Hd : Zdigits2 (Z.pos (4503599627370496 * m)) = Z.pos (digits2_pos m) + 52).
  { change (4503599627370496 * m)%positive with (Nat.iter 52 xO m).
    unfold Zdigits2. rewrite digits2_pos_shift. lia. }
  rewrite Hd.
  replace (Z.pos (digits2_pos m) + 52 + (-52 + e)) with (Z.pos (digits2_pos m) + e) by lia.
  rewrite H. replace (e - (-52 + e)) with 52 by lia.
  unfold shr. replace (-52 + e + 52) with e by lia. reflexivity.
Qed.

Lemma shr_fexp_canonical m e :
  canonical_mantissa prec emax m e = true ->
  shr_fexp prec emax (Z.pos m) e loc_Exact =
  ({| shr_m := Z.pos m; shr_r := false; shr_s := false |}, e).
Proof.
  unfold canonical_mantissa. intros H. apply Z.eqb_eq in H.
  unfold shr_fexp. simpl Zdigits2. rewrite H, Z.sub_diag. reflexivity.
Qed.

Lemma one_times_finite z : finite z = true -> finite (0 + 1 * z)%float = true.
Proof.
  unfold finite. rewrite FloatAxioms.add_spec, FloatAxioms.mul_spec.
  pose proof (Prim2SF_valid z) as Hv.
  change (Prim2SF 0) with (S754_zero false).
  change (Prim2SF 1) with (S754_finite false 4503599627370496 (-52)).
  destruct (Prim2SF z) as [s | s | | s m e]; try done.
  - intros _. unfold SF64mul, SFmul, SF64add, SFadd. simpl. by destruct s.
  - intros _. unfold SF64mul, SFmul.
    simpl in Hv. apply andb_prop in Hv as [Hc Hb].
    unfold binary_round_aux.
    rewrite (shr_fexp_times_2_52 m e Hc). simpl round_nearest_even.
    rewrite (shr_fexp_canonical m e Hc). simpl shr_m.
    rewrite Hb. reflexivity.
Qed.

(** ** The stream of numpy is read, never replaced *)

Lemma keeps_ret {A} (a : A) : keeps_gauss (ret a).
Proof. by intros w a' w' [= _ <-]. Qed.

Lemma keeps_bind {A B} (m : M A) (f : A -> M B) :
  keeps_gauss m -> (forall a, keeps_gauss (f a)) -> keeps_gauss (bind m f).
Proof.
  intros Hm Hf w b w' H. apply bind_ok in H as (a & w1 & E1 & E2).
  rewrite (Hf a _ _ _ E2). exact (Hm _ _ _ E1).
Qed.

Lemma keeps_getrand : keeps_gauss getrand.
Proof. by intros w a w' [= _ <-]. Qed.

Lemma keeps_draw : keeps_gauss gauss.
Proof. by intros w a w' [= _ <-]. Qed.

Lemma keeps_uniform a b : keeps_gauss (uniform a b).
Proof.
  unfold uniform, random.
  repeat (apply keeps_bind; [| intros ?]); auto using keeps_getrand, keeps_ret.
Qed.

Lemma keeps_randint a b : keeps_gauss (randint a b).
Proof.
  unfold randint, randbelow. destruct (b <? a); [by intros w r w' |].
  repeat (apply keeps_bind; [| intros ?]); auto using keeps_getrand, keeps_ret.
Qed.

Lemma keeps_normal_vec loc scale n : keeps_gauss (normal_vec loc scale n).
Proof.
  induction n as [| n IH]; simpl; [apply keeps_ret |]. unfold normal.
  repeat (apply keeps_bind; [| intros ?]); auto using keeps_draw, keeps_ret.
Qed.

Lemma keeps_usage_loop ts : forall d h c, keeps_gauss (usage_loop ts d h c).
Proof.
  induction ts as [| t ts IH]; intros d h c; simpl; [apply keeps_ret |].
  apply keeps_bind; [destruct (negb _); auto using keeps_uniform, keeps_ret |].
  intros h'. apply keeps_bind; [apply IH | intros; apply keeps_ret].
Qed.

Lemma keeps_tool_usage_loop k : forall i tu col, keeps_gauss (tool_usage_loop k i tu col).
Proof.
  induction k as [| k IH]; intros i tu col; simpl; [apply keeps_ret |].
  apply keeps_bind; [| intros; apply IH].
  destruct (0 <? i)%nat; [| apply keeps_ret].
  destruct (PrimFloat.ltb 4000 tu); [apply keeps_ret |].
  apply keeps_bind; [apply keeps_uniform | intros; apply keeps_ret].
Qed.

Lemma keeps_generate_normal_data n : keeps_gauss (generate_normal_data n).
Proof.
  unfold generate_normal_data.
  destruct (timestamps n) as [ts | e]; [| by intros ? ? ?].
  do 8 (apply keeps_bind; [apply keeps_normal_vec | intros ?]).
  destruct (_ !! 0%nat); [| by intros ? ? ?].
  repeat (apply keeps_bind; [| intros ?; cbv zeta]);
    auto using keeps_uniform, keeps_usage_loop,
      keeps_tool_usage_loop, keeps_getrand, keeps_ret.
Qed.

Lemma keeps_draw_maintenance_points : keeps_gauss draw_maintenance_points.
Proof.
  unfold draw_maintenance_points, maintenance_point.
  repeat (apply keeps_bind; [| intros ?; cbv zeta]); auto using keeps_randint, keeps_getrand, keeps_ret.
Qed.

(** Each cell of [np.random.normal(loc, scale, size)] is [loc + scale * z]
    for a variate [z] of the stream. *)
Lemma normal_vec_cells loc scale n : forall w xs w',
  normal_vec loc scale n w = Ok xs w' ->
  forall x, x ∈ xs -> exists k, x = (loc + scale * np_gauss (np w) k)%float.
Proof.
  induction n as [| n IH]; intros w xs w'; simpl.
  - intros [= <- _] x Hx. by apply elem_of_nil in Hx.
  - intros H. apply bind_ok in H as (x0 & w1 & E0 & H).
    apply bind_ok in H as (xs' & w2 & E1 & H). injection H as <- _.
    unfold normal, gauss, bind, ret in E0. injection E0 as <- <-.
    intros x Hx. apply elem_of_cons in Hx as [-> | Hx]; [eauto |].
    destruct (IH _ _ _ E1 x Hx) as [k ->]. simpl. eauto.
Qed.

(** ** The scores stay within 0 and 100 *)

Lemma health_loop_not_nan pts total n hs ds :
  health_loop pts total n 0 100 (replicate n 0%float) (replicate n 0) = Value (hs, ds) ->
  forall t h, hs !! t = Some h -> PrimFloat.is_nan h = false.
Proof.
  intros H. apply health_loop_spec in H as (Hl & _ & _ & Hfirst & Hnext & _);
    [| by rewrite length_replicate ..].
  intros t h Ht. pose proof (lookup_lt_Some _ _ _ Ht) as Hlt.
  destruct t as [| j].
  - rewrite Hfirst in Ht by lia. by injection Ht as <-.
  - destruct (lookup_lt_is_Some_2 hs j) as [h' Hj]; [lia |].
    rewrite (Hnext j h' ltac:(lia) ltac:(lia) Hj) in Ht. injection Ht as <-.
    unfold decayed. simpl. by apply py_max_not_nan.
Qed.

(** C4. When the variates numpy hands out are numbers, every cell of
    [machine_health_score] in the table of a run that completed lies in
    [0, 100], and there is one cell per row: the cells the anomaly stage
    rewrote are clamped by [max(0, min(100, .))], the others were clipped
    after the noise. *)
Theorem machine_health_score_in_range fuel n p w df placed w' :
  (forall k, finite (np_gauss (np w) k) = true) ->
  pipeline_trace fuel n p w = Ok (df, placed) w' ->
  length (machine_health_score df) = n /\
  forall t h, machine_health_score df !! t = Some h ->
    PrimFloat.leb 0 h = true /\ PrimFloat.leb h 100 = true.
Proof.
  intros Hfin H.
  destruct (pipeline_trace_inv _ _ _ _ _ _ _ H) as (Hn & Hinv & _).
  split; [by rewrite (inv_health_len _ _ Hinv) |].
  apply pipeline_trace_stages in H
    as (df1 & w1 & df2 & w2 & E1 & E2 & H & Hn1 & Hn2 & Hf & Hh).
  apply introduce_anomalies_trace_spec in H as (_ & _ & _ & _ & _ & Hcells);
    [| by rewrite Hn2 | by rewrite Hn2].
  apply generate_health_and_maintenance_spec in E2
    as (pts & wc & hs & noise & Ep & El & En & Hscore & _).
  rewrite Hn1 in El.
  assert (Hstream : np_gauss (np wc) = np_gauss (np w)).
  { rewrite (keeps_draw_maintenance_points _ _ _ Ep).
    exact (keeps_generate_normal_data _ _ _ _ E1). }
  intros t h Ht. apply Hcells in Ht as [Ht | Ht]; [| by apply clamped_in_range].
  rewrite Hscore in Ht. unfold add_noise_and_clip in Ht.
  rewrite list_lookup_fmap in Ht.
  destruct (zip_with PrimFloat.add hs noise !! t) as [v |] eqn:Hv; [| discriminate].
  injection Ht as <-.
  apply lookup_zip_with_Some in Hv as (a & x & -> & Ha & Hx).
  apply clip_in_range, add_not_nan.
  - exact (health_loop_not_nan _ _ _ _ _ El _ _ Ha).
  - apply list_elem_of_lookup_2 in Hx.
    destruct (normal_vec_cells _ _ _ _ _ _ En x Hx) as [k ->].
    rewrite Hstream. apply one_times_finite, Hfin.
Qed.

(** The run of the script satisfies C4. *)
Lemma machine_health_score_in_range_run_script :
  exists df placed w', run_script = Ok (df, placed) w' /\ length placed = 14%nat /\
    length (machine_health_score df) = n_samples /\
    forall t h, machine_health_score df !! t = Some h ->
      PrimFloat.leb 0 h = true /\ PrimFloat.leb h 100 = true.
Proof.
  destruct run_script_returns as (df & placed & w' & E & Hlen).
  exists df, placed, w'. split; [exact E |]. split; [exact Hlen |].
  refine (machine_health_score_in_range _ _ _ _ _ _ _ _ E).
  intros k. reflexivity.
Defined.

(** ** Stage 3: row by row *)

Lemma agree_outside_refl {A} touched (col : list A) : agree_outside touched col col.
Proof. by split. Qed.

Lemma agree_outside_trans {A} (P Q R : nat -> Prop) (c1 c2 c3 : list A) :
  (forall t, P t -> R t) -> (forall t, Q t -> R t) ->
  agree_outside P c1 c2 -> agree_outside Q c2 c3 -> agree_outside R c1 c3.
Proof.
  intros HP HQ [L1 H1] [L2 H2]. split; [congruence |].
  intros t Ht. rewrite H2, H1; auto.
Qed.

Lemma agree_outside_insert {A} (col : list A) pos v :
  agree_outside (fun t => t = pos) col (<[pos := v]> col).
Proof.
  split; [apply length_insert |]. intros t Ht. by apply list_lookup_insert_ne.
Qed.

Lemma rows_kept_refl touched df : rows_kept touched df df.
Proof. unfold rows_kept. repeat split; auto. Qed.

Lemma rows_kept_trans (P Q R : nat -> Prop) df1 df2 df3 :
  (forall t, P t -> R t) -> (forall t, Q t -> R t) ->
  rows_kept P df1 df2 -> rows_kept Q df2 df3 -> rows_kept R df1 df3.
Proof.
  intros HP HQ (A1 & A2 & A3 & A4 & A5 & A6 & A7 & A8 & A9)
    (B1 & B2 & B3 & B4 & B5 & B6 & B7 & B8 & B9).
  unfold rows_kept. rewrite B1, B2, B3, A1, A2, A3.
  split; [done |]. split; [done |]. split; [done |].
  split; [exact (agree_outside_trans P Q R _ _ _ HP HQ A4 B4) |].
  split; [exact (agree_outside_trans P Q R _ _ _ HP HQ A5 B5) |].
  split; [exact (agree_outside_trans P Q R _ _ _ HP HQ A6 B6) |].
  split; [exact (agree_outside_trans P Q R _ _ _ HP HQ A7 B7) |].
  split.
  - intros name. by rewrite B8, A8.
  - intros name t Ht. rewrite B9, A9; auto.
Qed.

Lemma rows_kept_len touched df df' : rows_kept touched df df' -> len df' = len df.
Proof. intros (H & _). unfold len. by rewrite H. Qed.

Lemma rows_kept_labelled touched df df' :
  rows_kept touched df df' -> labelled df -> labelled df'.
Proof.
  intros H (L1 & L2 & L3 & L4). pose proof (rows_kept_len _ _ _ H) as Hl.
  destruct H as (_ & _ & _ & [A4 _] & [A5 _] & [A6 _] & [A7 _] & _).
  unfold labelled. rewrite Hl. repeat split; congruence.
Qed.

(** One pass of the loop over the items of a catalog entry, seen from a cell. *)
Lemma perturb_loc pos severity df metric multiplier name t :
  loc (perturb pos severity df (metric, multiplier)) name t =
    if bool_decide (name = metric /\ t = pos) then
      scaled [(metric, multiplier)] name severity <$> loc df name t
    else loc df name t.
Proof.
  unfold perturb, scaled, loc. simpl.
  destruct (decide (name = metric)) as [-> | Hne].
  - rewrite String.eqb_refl.
    destruct (measurements df !! metric) as [col |] eqn:Ecol;
      [| rewrite Ecol; by destruct (bool_decide _)].
    destruct (bool_decide (metric ∈ _)).
    { rewrite Ecol. destruct (col !! t); by destruct (bool_decide _). }
    destruct (decide (t = pos)) as [-> | Hnt].
    + rewrite bool_decide_eq_true_2 by done.
      destruct (col !! pos) as [x |] eqn:Ex; [| by rewrite Ecol, Ex].
      simpl. rewrite lookup_insert_eq. apply list_lookup_insert_eq.
      by apply lookup_lt_Some in Ex.
    + rewrite bool_decide_eq_false_2 by (by intros [? ?]).
      destruct (col !! pos) as [x |] eqn:Ex; [| by rewrite Ecol].
      simpl. rewrite lookup_insert_eq. by apply list_lookup_insert_ne.
  - rewrite (bool_decide_eq_false_2 (name = metric /\ t = pos)) by (by intros [? ?]).
    destruct (measurements df !! metric) as [col |] eqn:Ecol; [| done].
    destruct (bool_decide (metric ∈ _)); [done |].
    destruct (col !! pos) as [x |]; [| done].
    simpl. by rewrite lookup_insert_ne.
Qed.

Lemma perturb_shape pos severity df item name :
  length <$> measurements (perturb pos severity df item) !! name =
  length <$> measurements df !! name.
Proof.
  unfold perturb. destruct item as [metric multiplier].
  destruct (measurements df !! metric) as [col |] eqn:Ecol; [| done].
  destruct (bool_decide (metric ∈ _)); [done |].
  destruct (col !! pos) as [x |]; [| done]. simpl.
  destruct (decide (name = metric)) as [-> | Hne].
  - rewrite lookup_insert_eq, Ecol. simpl. by rewrite length_insert.
  - by rewrite lookup_insert_ne.
Qed.

Lemma dict_get_None {A} (d : list (string * A)) k :
  k ∉ map fst d -> dict_get d k = None.
Proof.
  induction d as [| [k' v] d IH]; simpl; [done |]. intros Hk.
  apply not_elem_of_cons in Hk as [Hne Hk].
  destruct (String.eqb_spec k' k) as [-> | _]; [done | auto].
Qed.

Lemma dict_get_Some {A} (d : list (string * A)) k v :
  dict_get d k = Some v -> k ∈ map fst d.
Proof.
  induction d as [| [k' v'] d IH]; simpl; [done |].
  destruct (String.eqb_spec k' k) as [-> | _]; intros H.
  - apply elem_of_cons. by left.
  - apply elem_of_cons. right. auto.
Qed.

(** The whole loop over the items of an entry whose keys are distinct: the
    cell of row [pos] of each column is scaled once, the other cells stay. *)
Lemma fold_perturb_loc pos severity cfg : forall df name t,
  NoDup (map fst cfg) ->
  loc (fold_left (perturb pos severity) cfg df) name t =
    if bool_decide (t = pos) then scaled cfg name severity <$> loc df name t
    else loc df name t.
Proof.
  induction cfg as [| [metric multiplier] cfg IH]; intros df name t Hnd.
  - unfold scaled. simpl. destruct (bool_decide _); [| done]. by destruct (loc df name t).
  - simpl in Hnd. apply NoDup_cons in Hnd as [Hm Hnd].
    change (fold_left (perturb pos severity) ((metric, multiplier) :: cfg) df)
      with (fold_left (perturb pos severity) cfg (perturb pos severity df (metric, multiplier))).
    rewrite IH by done. rewrite perturb_loc.
    destruct (decide (t = pos)) as [-> | Hnt].
    + rewrite (bool_decide_eq_true_2 (pos = pos)) by done.
      destruct (decide (name = metric)) as [-> | Hne].
      * rewrite bool_decide_eq_true_2 by done.
        destruct (loc df metric pos) as [x |]; [| done]. simpl. f_equal.
        unfold scaled at 1. rewrite (dict_get_None cfg metric Hm).
        unfold scaled. simpl. by rewrite String.eqb_refl.
      * rewrite bool_decide_eq_false_2 by (by intros [? ?]).
        destruct (loc df name pos) as [x |]; [| done]. simpl. f_equal.
        unfold scaled. simpl.
        destruct (String.eqb_spec metric name) as [-> | _]; [done | reflexivity].
    + rewrite (bool_decide_eq_false_2 (t = pos)) by done.
      rewrite bool_decide_eq_false_2 by (by intros [? ?]). reflexivity.
Qed.

Lemma fold_perturb_shape pos severity cfg : forall df name,
  length <$> measurements (fold_left (perturb pos severity) cfg df) !! name =
  length <$> measurements df !! name.
Proof.
  induction cfg as [| item cfg IH]; intros df name; simpl; [done |].
  by rewrite IH, perturb_shape.
Qed.

(** The keys of each entry of the catalog are distinct. *)
Lemma catalog_keys_NoDup ty cfg :
  dict_get anomaly_types ty = Some cfg -> NoDup (map fst cfg).
Proof.
  unfold anomaly_types, dict_get.
  repeat (destruct (String.eqb _ ty);
          [intros [= <-]; apply (bool_decide_unpack _); vm_compute; exact I |]).
  discriminate.
Qed.

(** Each entry of the catalog has the two keys that the placement loop
    reads. *)
Lemma catalog_meta ty cfg :
  dict_get anomaly_types ty = Some cfg ->
  exists pr si, dict_get cfg "progression_rate" = Some pr /\
    dict_get cfg "severity_impact" = Some si.
Proof.
  unfold anomaly_types, dict_get at 1.
  repeat (destruct (String.eqb _ ty); [intros [= <-]; by eexists _, _ |]).
  discriminate.
Qed.

(** One tick of an episode writes one row, and only that row. *)
Lemma anomaly_tick_row ty cfg pr si start_pos seq_length df i w df' w' :
  NoDup (map fst cfg) -> 0 <= start_pos + i ->
  labelled df -> (Z.to_nat (start_pos + i) < len df)%nat ->
  anomaly_tick ty cfg pr si start_pos seq_length df i w = Ok df' w' ->
  rows_kept (fun t => t = Z.to_nat (start_pos + i)) df df' /\
  row_written ty cfg pr si start_pos seq_length df df' (Z.to_nat (start_pos + i)).
Proof.
  intros Hnd Hpos (L1 & L2 & L3 & L4) Hlt. unfold anomaly_tick.
  set (pos := Z.to_nat (start_pos + i)). intros H.
  apply bind_ok in H as (noise & w1 & En & H).
  assert (Hz : exists z, noise = (0 + 0.05 * z)%float).
  { unfold normal, gauss, bind, ret in En. injection En as <- _. eauto. }
  destruct Hz as [z ->]. clear En.
  set (sev := py_max _ _) in H.
  set (df1 := set_anomaly_severity _ _ _) in H.
  destruct (fold_perturb_same pos sev cfg df1) as (H1 & H2 & H3 & H4 & H5 & H6 & H7).
  assert (Hloc : forall name t,
            loc (fold_left (perturb pos sev) cfg df1) name t =
              if bool_decide (t = pos) then scaled cfg name sev <$> loc df name t
              else loc df name t).
  { intros name t. by rewrite fold_perturb_loc. }
  assert (Hshape : forall name,
            length <$> measurements (fold_left (perturb pos sev) cfg df1) !! name =
            length <$> measurements df !! name).
  { intros name. by rewrite fold_perturb_shape. }
  set (df2 := fold_left _ _ _) in *. clearbody df2.
  subst df1. simpl in H1, H2, H3, H4, H5, H6, H7.
  rewrite H3 in H.
  destruct (machine_health_score df !! pos) as [h |] eqn:Eh; [| discriminate].
  injection H as <- _. split.
  - unfold rows_kept. simpl. rewrite H1, H2, H4, H5, H6, H7, H3.
    split; [done |]. split; [done |]. split; [done |].
    split; [apply agree_outside_insert |]. split; [apply agree_outside_insert |].
    split; [apply agree_outside_insert |]. split; [apply agree_outside_insert |].
    split; [exact Hshape |].
    intros name t Ht.
    change (loc df2 name t = loc df name t).
    by rewrite Hloc, bool_decide_eq_false_2.
  - unfold row_written. simpl. rewrite H5, H6, H7, H3.
    split; [apply list_lookup_insert_eq; lia |].
    split; [apply list_lookup_insert_eq; lia |].
    exists z, sev. split.
    { replace (Z.of_nat pos - start_pos) with i by (subst pos; lia). reflexivity. }
    split; [apply list_lookup_insert_eq; lia |]. split.
    + exists h. split; [exact Eh |]. apply list_lookup_insert_eq. lia.
    + intros name.
      change (loc df2 name pos = scaled cfg name sev <$> loc df name pos).
      by rewrite Hloc, bool_decide_eq_true_2.
Qed.

(** A written row stays what it is while later writes go to other rows. *)
Lemma row_written_after ty cfg pr si s l df0 df df' (P : nat -> Prop) t :
  row_written ty cfg pr si s l df0 df t -> rows_kept P df df' -> ~ P t ->
  row_written ty cfg pr si s l df0 df' t.
Proof.
  intros (R1 & R2 & z & sev & R3 & R4 & (h & R5 & R6) & R7)
    (_ & _ & _ & [_ A4] & [_ A5] & [_ A6] & [_ A7] & _ & A9) Ht.
  unfold row_written. rewrite A4, A5, A6, A7 by done.
  split; [done |]. split; [done |]. exists z, sev.
  split; [done |]. split; [done |]. split; [by exists h |].
  intros name. by rewrite A9.
Qed.

(** A row written over a table whose earlier writes went to other rows is
    written over the table before those writes. *)
Lemma row_written_before ty cfg pr si s l df0 df1 df (P : nat -> Prop) t :
  row_written ty cfg pr si s l df1 df t -> rows_kept P df0 df1 -> ~ P t ->
  row_written ty cfg pr si s l df0 df t.
Proof.
  intros (R1 & R2 & z & sev & R3 & R4 & (h & R5 & R6) & R7)
    (_ & _ & _ & [_ A4] & _ & _ & _ & _ & A9) Ht.
  unfold row_written. rewrite A4 in R5 by done.
  split; [done |]. split; [done |]. exists z, sev.
  split; [done |]. split; [done |]. split; [by exists h |].
  intros name. by rewrite R7, A9.
Qed.

(** The ticks of one episode, row by row. *)
Lemma for_each_ticks_rows ty cfg pr si s l : forall offsets df w df' w',
  NoDup (map fst cfg) -> 0 <= s -> NoDup offsets ->
  Forall (fun i => 0 <= i /\ s + i < Z.of_nat (len df)) offsets ->
  labelled df ->
  for_each (anomaly_tick ty cfg pr si s l) offsets df w = Ok df' w' ->
  rows_kept (fun t => exists i, i ∈ offsets /\ t = Z.to_nat (s + i)) df df' /\
  forall i, i ∈ offsets -> row_written ty cfg pr si s l df df' (Z.to_nat (s + i)).
Proof.
  induction offsets as [| i offsets IH]; intros df w df' w' Hcfg Hs Hnd Hin Hlab; simpl.
  - intros [= <- _]. split; [apply rows_kept_refl |].
    intros i Hi. by apply elem_of_nil in Hi.
  - intros H. apply bind_ok in H as (df1 & w1 & E1 & H).
    apply NoDup_cons in Hnd as [Hi Hnd]. apply Forall_cons in Hin as [[Hi0 Hilt] Hin].
    apply anomaly_tick_row in E1 as [K1 W1]; [| done | lia | done | lia].
    pose proof (rows_kept_len _ _ _ K1) as Hlen.
    apply IH in H as [K2 W2]; [| done | done | done | by rewrite Hlen
                               | by apply (rows_kept_labelled _ _ _ K1)].
    split.
    + apply (rows_kept_trans _ _ _ df df1 df' ) with (3 := K1) (4 := K2).
      * intros t ->. exists i. split; [apply elem_of_cons; by left | done].
      * intros t (j & Hj & ->). exists j. split; [apply elem_of_cons; by right | done].
    + intros j Hj. apply elem_of_cons in Hj as [-> | Hj].
      * apply (row_written_after _ _ _ _ _ _ _ _ _ _ _ W1 K2).
        intros (j & Hj & Heq).
        pose proof (proj1 (Forall_forall _ _) Hin j Hj) as [Hj0 _].
        assert (i = j) by lia. by subst j.
      * apply (row_written_before _ _ _ _ _ _ _ _ _ _ _ (W2 j Hj) K1).
        intros Heq.
        pose proof (proj1 (Forall_forall _ _) Hin j Hj) as [Hj0 _].
        assert (i = j) by lia. by subst j.
Qed.

Lemma range_NoDup n : NoDup (range n).
Proof.
  unfold range. apply NoDup_fmap_2; [apply Nat2Z.inj' | apply NoDup_seq].
Qed.

Lemma elem_of_range n i : i ∈ range n <-> 0 <= i < n.
Proof.
  unfold range. rewrite list_elem_of_fmap. split.
  - intros (j & -> & Hj). apply elem_of_seq in Hj. lia.
  - intros Hi. exists (Z.to_nat i). split; [lia |]. apply elem_of_seq. lia.
Qed.

(** One pass of [for seq_length in sequences], row by row: the rows of the
    episode are written with one type of the catalog, the others are kept. *)
Lemma place_episode_rows fuel df seq_length w df' e w' :
  labelled df ->
  place_episode fuel df seq_length w = Ok (df', e) w' ->
  exists start_pos ty cfg pr si,
    e = (start_pos, seq_length) /\
    dict_get anomaly_types ty = Some cfg /\
    dict_get cfg "progression_rate" = Some pr /\
    dict_get cfg "severity_impact" = Some si /\
    rows_kept (fun t => start_pos <= Z.of_nat t < start_pos + seq_length) df df' /\
    forall t, start_pos <= Z.of_nat t < start_pos + seq_length ->
      row_written ty cfg pr si start_pos seq_length df df' t.
Proof.
  intros Hlab H.
  assert (Hspec := H). apply place_episode_spec in Hspec as (s' & He & Hs' & _).
  unfold place_episode in H.
  apply bind_ok in H as (ty & w1 & _ & H).
  destruct (dict_get anomaly_types ty) as [cfg |] eqn:Ecfg; [| discriminate].
  apply bind_ok in H as (s0 & w2 & _ & H).
  apply bind_ok in H as (s & w3 & _ & H).
  destruct (dict_get cfg "progression_rate") as [pr |] eqn:Epr; [| discriminate].
  destruct (dict_get cfg "severity_impact") as [si |] eqn:Esi; [| discriminate].
  apply bind_ok in H as (df1 & w4 & Ef & H). injection H as <- <- _.
  injection He as <-.
  apply for_each_ticks_rows in Ef as [K W];
    [| by apply (catalog_keys_NoDup ty) | lia | apply range_NoDup | | done].
  - exists s, ty, cfg, pr, si. repeat (split; [done |]). split.
    + apply (rows_kept_trans _ _ _ df df df1) with (3 := rows_kept_refl (fun _ => False) df) (4 := K).
      * done.
      * intros t (i & Hi & ->). apply elem_of_range in Hi. lia.
    + intros t Ht. replace t with (Z.to_nat (s + (Z.of_nat t - s))) by lia.
      apply W, elem_of_range. lia.
  - apply Forall_forall. intros i Hi. apply elem_of_range in Hi. lia.
Qed.

Lemma apart_disjoint a b t :
  apart a b -> fst a <= t < fst a + snd a -> fst b <= t < fst b + snd b -> False.
Proof. unfold apart. lia. Qed.

(** The whole placement loop, row by row: each episode placed writes its
    rows once, with one type of the catalog, and the rows outside the
    episodes are kept. *)
Lemma place_episodes_rows fuel : forall sequences df placed w df' placed' w',
  placement_inv df placed -> Forall (fun l => 0 < l) sequences -> labelled df ->
  place_episodes fuel sequences df placed w = Ok (df', placed') w' ->
  exists new, placed' = placed ++ new /\
    rows_kept (fun t => covered new (Z.of_nat t)) df df' /\
    forall s l, (s, l) ∈ new ->
      exists ty cfg pr si,
        dict_get anomaly_types ty = Some cfg /\
        dict_get cfg "progression_rate" = Some pr /\
        dict_get cfg "severity_impact" = Some si /\
        forall t, s <= Z.of_nat t < s + l -> row_written ty cfg pr si s l df df' t.
Proof.
  induction sequences as [| l rest IH]; intros df placed w df' placed' w' Hinv Hpos Hlab.
  - simpl. intros [= <- <- _]. exists []. split; [by rewrite app_nil_r |].
    split; [apply rows_kept_refl |]. intros s l Hm. by apply elem_of_nil in Hm.
  - rewrite place_episodes_cons. intros H.
    apply bind_ok in H as ([df1 e] & w1 & E1 & H). simpl in H.
    apply Forall_cons in Hpos as [Hl Hrest].
    destruct (place_episode_inv _ _ _ _ _ _ _ _ Hinv Hl E1) as [_ Hinv1].
    apply place_episode_rows in E1
      as (s & ty & cfg & pr & si & -> & Ecfg & Epr & Esi & K1 & W1); [| done].
    destruct (place_episodes_inv _ _ _ _ _ _ _ _ Hinv1 Hrest H) as [Hinv' _].
    apply IH in H as (new & -> & K2 & W2);
      [| done | done | by apply (rows_kept_labelled _ _ _ K1)].
    assert (Hap : forall s2 l2, (s2, l2) ∈ new -> apart (s, l) (s2, l2)).
    { intros s2 l2 Hm. apply list_elem_of_lookup_1 in Hm as [k Hk].
      apply (inv_apart _ _ Hinv' (length placed) (length placed + 1 + k)%nat); [lia | |].
      - rewrite <- app_assoc. rewrite lookup_app_r by lia.
        replace (length placed - length placed)%nat with 0%nat by lia. done.
      - rewrite lookup_app_r by (rewrite length_app; simpl; lia).
        rewrite length_app. simpl.
        replace (length placed + 1 + k - (length placed + 1))%nat with k by lia. done. }
    exists ((s, l) :: new). split; [by rewrite <- app_assoc |]. split.
    + apply (rows_kept_trans _ _ _ df df1 df') with (3 := K1) (4 := K2).
      * intros t Ht. exists s, l. split; [apply elem_of_cons; by left | done].
      * intros t (s2 & l2 & Hm & Ht). exists s2, l2.
        split; [apply elem_of_cons; by right | done].
    + intros s2 l2 Hm. apply elem_of_cons in Hm as [[= -> ->] | Hm].
      * exists ty, cfg, pr, si. repeat (split; [done |]). intros t Ht.
        apply (row_written_after _ _ _ _ _ _ _ _ _ _ _ (W1 t Ht) K2).
        intros (s2 & l2 & Hm & Ht2).
        exact (apart_disjoint _ _ _ (Hap s2 l2 Hm) Ht Ht2).
      * destruct (W2 s2 l2 Hm) as (ty2 & cfg2 & pr2 & si2 & Ecfg2 & Epr2 & Esi2 & W).
        exists ty2, cfg2, pr2, si2. repeat (split; [done |]). intros t Ht.
        apply (row_written_before _ _ _ _ _ _ _ _ _ _ _ (W t Ht) K1).
        intros Ht1. exact (apart_disjoint _ _ _ (Hap s2 l2 Hm) Ht1 Ht).
Qed.

(** The table that leaves [generate_health_and_maintenance] has no episode. *)
Lemma placement_inv_nil df :
  is_anomaly df = replicate (len df) 0 ->
  length (machine_health_score df) = len df ->
  placement_inv df [].
Proof.
  intros Hflags Hhl. constructor; auto.
  - rewrite Hflags. apply length_replicate.
  - intros t x. rewrite Hflags. intros Hx. apply lookup_replicate in Hx as [-> _].
    right. split; [done |]. intros (s & l & Hm & _). by apply elem_of_nil in Hm.
  - intros s l Hm. by apply elem_of_nil in Hm.
  - intros i j a b _ Ha. by rewrite lookup_nil in Ha.
  - unfold anomaly_count. rewrite Hflags. apply sum_Z_replicate.
Qed.

(** The label columns as [generate_health_and_maintenance] leaves them. *)
Lemma generate_health_and_maintenance_labels df w df' w' :
  generate_health_and_maintenance df w = Ok df' w' ->
  anomaly_type df' = replicate (len df) "normal"%string /\
  anomaly_severity df' = replicate (len df) 0%float.
Proof.
  unfold generate_health_and_maintenance. intros H.
  apply bind_ok in H as (pts & w1 & Ep & H).
  destruct (health_loop _ _ _ _ _ _ _) as [[hs ds] |] eqn:El; [| discriminate].
  apply bind_ok in H as (noise & w2 & En & H).
  injection H as <- _. by simpl.
Qed.

(** A run of the script, row by row.  [df1] and [df2] are the tables that
    leave the first two stages. *)
Lemma pipeline_trace_rows fuel n p w df placed w' :
  pipeline_trace fuel n p w = Ok (df, placed) w' ->
  exists df1 w1 df2 w2,
    generate_normal_data n w = Ok df1 w1 /\
    generate_health_and_maintenance df1 w1 = Ok df2 w2 /\
    len df2 = n /\
    measurements df2 = measurements df1 /\
    is_anomaly df2 = replicate n 0 /\
    anomaly_type df2 = replicate n "normal"%string /\
    anomaly_severity df2 = replicate n 0%float /\
    length (machine_health_score df2) = n /\
    rows_kept (fun t => covered placed (Z.of_nat t)) df2 df /\
    forall s l, (s, l) ∈ placed ->
      exists ty cfg pr si,
        dict_get anomaly_types ty = Some cfg /\
        dict_get cfg "progression_rate" = Some pr /\
        dict_get cfg "severity_impact" = Some si /\
        forall t, s <= Z.of_nat t < s + l -> row_written ty cfg pr si s l df2 df t.
Proof.
  intros H.
  apply pipeline_trace_stages in H
    as (df1 & w1 & df2 & w2 & E1 & E2 & H & Hn1 & Hn & Hf & Hh).
  destruct (generate_health_and_maintenance_spec _ _ _ _ E2)
    as (_ & _ & _ & _ & _ & _ & _ & _ & _ & _ & _ & Hm).
  destruct (generate_health_and_maintenance_labels _ _ _ _ E2) as [Hty Hsev].
  rewrite Hn1 in Hty, Hsev.
  exists df1, w1, df2, w2. repeat (split; [done |]).
  unfold introduce_anomalies_trace in H.
  apply bind_ok in H as (sequences & w3 & Es & H).
  apply draw_sequences_spec in Es as (budget & _ & _ & Hpos).
  apply place_episodes_rows in H as (new & -> & K & W); [by split | | done |].
  - apply placement_inv_nil; by rewrite Hn.
  - unfold labelled. by rewrite Hn, Hh, Hf, Hty, Hsev, !length_replicate.
Qed.

(** ** The columns of the table *)

Lemma usage_loop_lengths ts : forall d h c w r w',
  usage_loop ts d h c w = Ok r w' -> length (fst r) = length ts.
Proof.
  induction ts as [| t ts IH]; intros d h c w r w'; simpl.
  - by intros [= <- _].
  - intros H. apply bind_ok in H as (h' & w1 & _ & H).
    apply bind_ok in H as (rest & w2 & E & H). injection H as <- _.
    simpl. f_equal. by apply (IH _ _ _ _ _ _ E).
Qed.

(** The table that leaves [generate_normal_data]: the timestamps are the
    hours [0 .. n-1], and the measurement columns are the ten of the dict,
    each with one cell per row. *)
Lemma generate_normal_data_columns n w df w' :
  generate_normal_data n w = Ok df w' ->
  timestamp df = map Z.of_nat (seq 0 n) /\
  length (total_machine_hours df) = n /\
  forall name,
    if bool_decide (name ∈ measurement_columns)
    then exists col, measurements df !! name = Some col /\ length col = n
    else measurements df !! name = None.
Proof.
  intros H. open_generate_normal_data H n.
  apply bind_ok in H as (c1 & w1 & E1 & H). apply normal_vec_length in E1.
  apply bind_ok in H as (c2 & w2 & E2 & H). apply normal_vec_length in E2.
  apply bind_ok in H as (c3 & w3 & E3 & H). apply normal_vec_length in E3.
  apply bind_ok in H as (c4 & w4 & E4 & H). apply normal_vec_length in E4.
  apply bind_ok in H as (c5 & w5 & E5 & H). apply normal_vec_length in E5.
  apply bind_ok in H as (c6 & w6 & E6 & H). apply normal_vec_length in E6.
  apply bind_ok in H as (c7 & w7 & E7 & H). apply normal_vec_length in E7.
  apply bind_ok in H as (c8 & w8 & E8 & H). apply normal_vec_length in E8.
  destruct (map Z.of_nat (seq 0 n) !! 0%nat) as [t0 |]; [| discriminate].
  apply bind_ok in H as (h & w9 & _ & H).
  apply bind_ok in H as (r & w10 & Eu & H).
  apply bind_ok in H as (tool & w11 & Et & H).
  injection H as <- _. simpl.
  pose proof (usage_loop_lengths _ _ _ _ _ _ _ Eu) as Hmh.
  rewrite length_map, length_seq in Hmh.
  destruct (usage_loop_spec (map Z.of_nat (seq 0 n)) (day t0) h 5000 w9)
    as (r' & w10' & Eu' & Hr).
  rewrite Eu in Eu'. injection Eu' as <- <-.
  rewrite length_map, length_seq in Hr.
  assert (Htool : length tool = n).
  { destruct n as [| n]; [simpl in Et; by injection Et as <- _ |].
    destruct (tool_usage_loop_spec (S n) 0 0%float (replicate (S n) 0%float) w10)
      as (tool' & w11' & Et' & Hl & _); [by rewrite length_replicate | lia |].
    rewrite Et in Et'. injection Et' as <- <-. by rewrite Hl, length_replicate. }
  split; [done |]. split; [by rewrite Hr, length_map, length_seq |].
  intros name. unfold measurement_columns. case_bool_decide as Hin.
  - repeat (apply elem_of_cons in Hin as [-> | Hin]);
      try (rewrite ?lookup_insert_ne by done; rewrite lookup_insert_eq; by eauto).
    by apply elem_of_nil in Hin.
  - repeat (apply not_elem_of_cons in Hin as [? Hin]).
    by rewrite !lookup_insert_ne.
Qed.

(** The two keys of a catalog entry that are no column names. *)
Lemma measurement_columns_not_meta name :
  name ∈ measurement_columns ->
  name ∉ ["severity_impact"; "progression_rate"]%string.
Proof.
  unfold measurement_columns. intros Hin.
  repeat (apply elem_of_cons in Hin as [-> | Hin]);
    try (apply (bool_decide_unpack _); vm_compute; exact I).
  by apply elem_of_nil in Hin.
Qed.

Lemma severity_in_range x :
  PrimFloat.leb 0.1 (py_max 0.1 (py_min 1.0 x)) = true /\
  PrimFloat.leb (py_max 0.1 (py_min 1.0 x)) 1 = true.
Proof.
  unfold py_max, py_min.
  destruct (PrimFloat.ltb x 1) eqn:E1.
  - destruct (PrimFloat.ltb 0.1 x) eqn:E2.
    + split; by apply ltb_leb.
    + split; reflexivity.
  - destruct (PrimFloat.ltb 0.1 1) eqn:E2; split; reflexivity.
Qed.

(** ** What a run writes, row by row *)

(** X1. In a run that completed, a row outside the placed episodes is as
    the first two stages left it: it is not flagged, its type is "normal",
    its severity is 0, its score is the one of
    [generate_health_and_maintenance] and its measurements are those of
    [generate_normal_data]. *)
Theorem rows_outside_episodes_kept fuel n p w df placed w' :
  pipeline_trace fuel n p w = Ok (df, placed) w' ->
  exists df1 w1 df2 w2,
    generate_normal_data n w = Ok df1 w1 /\
    generate_health_and_maintenance df1 w1 = Ok df2 w2 /\
    forall t, (t < n)%nat -> ~ covered placed (Z.of_nat t) ->
      is_anomaly df !! t = Some 0 /\
      anomaly_type df !! t = Some "normal"%string /\
      anomaly_severity df !! t = Some 0%float /\
      machine_health_score df !! t = machine_health_score df2 !! t /\
      forall name, loc df name t = loc df1 name t.
Proof.
  intros H. apply pipeline_trace_rows in H
    as (df1 & w1 & df2 & w2 & E1 & E2 & Hn & Hm & Hf & Hty & Hsev & Hh & K & _).
  exists df1, w1, df2, w2. split; [exact E1 |]. split; [exact E2 |].
  intros t Ht Hout.
  destruct K as (_ & _ & _ & [_ A4] & [_ A5] & [_ A6] & [_ A7] & _ & A9).
  rewrite A4, A5, A6, A7 by done. rewrite Hf, Hty, Hsev.
  rewrite !lookup_replicate_2 by done. repeat (split; [done |]).
  intros name. rewrite A9 by done. unfold loc. by rewrite Hm.
Qed.

(** X2. In a run that completed, all the rows of a placed episode are
    flagged and carry one type of the catalog, and the severity of the row
    at offset [i] of an episode of [l] rows is
    [max(0.1, min(1.0, i / l * progression_rate + noise))], a value of
    [0.1 .. 1.0]. *)
Theorem episode_rows_labelled fuel n p w df placed w' :
  pipeline_trace fuel n p w = Ok (df, placed) w' ->
  forall s l, (s, l) ∈ placed ->
    exists ty cfg pr,
      dict_get anomaly_types ty = Some cfg /\
      dict_get cfg "progression_rate" = Some pr /\
      forall t, s <= Z.of_nat t < s + l ->
        is_anomaly df !! t = Some 1 /\
        anomaly_type df !! t = Some ty /\
        exists z sev,
          anomaly_severity df !! t = Some sev /\
          sev = py_max 0.1 (py_min 1.0 (float_of_Z (Z.of_nat t - s) / float_of_Z l * pr
                                        + (0 + 0.05 * z)))%float /\
          PrimFloat.leb 0.1 sev = true /\ PrimFloat.leb sev 1 = true.
Proof.
  intros H s l Hm. apply pipeline_trace_rows in H
    as (df1 & w1 & df2 & w2 & _ & _ & _ & _ & _ & _ & _ & _ & _ & W).
  destruct (W s l Hm) as (ty & cfg & pr & si & Ecfg & Epr & _ & Hrow).
  exists ty, cfg, pr. split; [exact Ecfg |]. split; [exact Epr |].
  intros t Ht. destruct (Hrow t Ht) as (R1 & R2 & z & sev & R3 & R4 & _).
  split; [exact R1 |]. split; [exact R2 |]. exists z, sev.
  split; [exact R4 |]. split; [exact R3 |]. rewrite R3. apply severity_in_range.
Qed.

(** X3. In a run that completed, the score of a row of a placed episode is
    the score [generate_health_and_maintenance] gave the row plus the
    penalty [-50 * severity * severity_impact] of the row's severity and the
    impact of its type, clamped to [0 .. 100]: the penalty is applied once. *)
Theorem episode_rows_health_penalty fuel n p w df placed w' :
  pipeline_trace fuel n p w = Ok (df, placed) w' ->
  exists df1 w1 df2 w2,
    generate_normal_data n w = Ok df1 w1 /\
    generate_health_and_maintenance df1 w1 = Ok df2 w2 /\
    forall s l, (s, l) ∈ placed ->
      exists ty cfg si,
        dict_get anomaly_types ty = Some cfg /\
        dict_get cfg "severity_impact" = Some si /\
        forall t, s <= Z.of_nat t < s + l ->
          anomaly_type df !! t = Some ty /\
          exists sev h,
            anomaly_severity df !! t = Some sev /\
            machine_health_score df2 !! t = Some h /\
            machine_health_score df !! t =
              Some (py_max 0 (py_min 100 (h + -50 * sev * si)%float)).
Proof.
  intros H. apply pipeline_trace_rows in H
    as (df1 & w1 & df2 & w2 & E1 & E2 & _ & _ & _ & _ & _ & _ & _ & W).
  exists df1, w1, df2, w2. split; [exact E1 |]. split; [exact E2 |].
  intros s l Hm. destruct (W s l Hm) as (ty & cfg & pr & si & Ecfg & _ & Esi & Hrow).
  exists ty, cfg, si. split; [exact Ecfg |]. split; [exact Esi |].
  intros t Ht. destruct (Hrow t Ht) as (_ & R2 & z & sev & _ & R4 & (h & R5 & R6) & _).
  split; [exact R2 |]. exists sev, h. by repeat split.
Qed.

(** X4. In a run that completed, on a row of a placed episode a measurement
    that the catalog entry of the row's type names is the value of
    [generate_normal_data] times [1 + (multiplier - 1) * severity], and a
    measurement that the entry does not name is the value of
    [generate_normal_data]: each cell is scaled once. *)
Theorem episode_rows_measurements fuel n p w df placed w' :
  pipeline_trace fuel n p w = Ok (df, placed) w' ->
  exists df1 w1,
    generate_normal_data n w = Ok df1 w1 /\
    forall s l, (s, l) ∈ placed ->
      exists ty cfg,
        dict_get anomaly_types ty = Some cfg /\
        forall t, s <= Z.of_nat t < s + l ->
          anomaly_type df !! t = Some ty /\
          exists sev,
            anomaly_severity df !! t = Some sev /\
            forall name x, loc df1 name t = Some x ->
              loc df name t =
                Some match dict_get cfg name with
                     | Some multiplier => (x * (1.0 + (multiplier - 1.0) * sev))%float
                     | None => x
                     end.
Proof.
  intros H. apply pipeline_trace_rows in H
    as (df1 & w1 & df2 & w2 & E1 & E2 & _ & Hmeas & _ & _ & _ & _ & _ & W).
  exists df1, w1. split; [exact E1 |].
  intros s l Hm. destruct (W s l Hm) as (ty & cfg & pr & si & Ecfg & _ & _ & Hrow).
  exists ty, cfg. split; [exact Ecfg |].
  intros t Ht. destruct (Hrow t Ht) as (_ & R2 & z & sev & _ & R4 & _ & R7).
  split; [exact R2 |]. exists sev. split; [exact R4 |].
  intros name x Hx. rewrite R7.
  assert (Hloc : loc df2 name t = Some x) by (unfold loc in *; by rewrite Hmeas).
  rewrite Hloc. simpl. f_equal. unfold scaled.
  destruct (dict_get cfg name) as [m |]; [| done].
  rewrite bool_decide_eq_false_2; [done |].
  apply measurement_columns_not_meta.
  destruct (generate_normal_data_columns _ _ _ _ E1) as (_ & _ & Hcols).
  specialize (Hcols name). case_bool_decide as Hin; [done |].
  unfold loc in Hx. by rewrite Hcols in Hx.
Qed.

(** X5. In a run that completed, the table has one row per hour: the
    timestamps are the hours [0 .. n-1] in order, and [total_machine_hours],
    the five columns of [generate_health_and_maintenance] and each of the
    ten measurement columns have [n] cells; there is no other measurement
    column. *)
Theorem table_shape fuel n p w df placed w' :
  pipeline_trace fuel n p w = Ok (df, placed) w' ->
  timestamp df = map Z.of_nat (seq 0 n) /\
  length (total_machine_hours df) = n /\
  length (machine_health_score df) = n /\
  length (days_to_maintenance df) = n /\
  length (is_anomaly df) = n /\
  length (anomaly_type df) = n /\
  length (anomaly_severity df) = n /\
  forall name,
    if bool_decide (name ∈ measurement_columns)
    then exists col, measurements df !! name = Some col /\ length col = n
    else measurements df !! name = None.
Proof.
  intros H. assert (Hd := H).
  apply pipeline_health_pass in Hd as (df0 & w0 & pts & w0' & hs & _ & _ & El).
  apply health_loop_spec in El as (_ & Hdl & _); [| by rewrite length_replicate ..].
  apply pipeline_trace_rows in H
    as (df1 & w1 & df2 & w2 & E1 & E2 & Hn & Hm & Hf & Hty & Hsev & Hh & K & _).
  destruct (generate_normal_data_columns _ _ _ _ E1) as (Hts & Htot & Hcols).
  destruct (generate_health_and_maintenance_spec _ _ _ _ E2)
    as (_ & _ & _ & _ & _ & _ & _ & _ & _ & Hts2 & Htot2 & _).
  destruct K as (A1 & A2 & _ & [A4 _] & [A5 _] & [A6 _] & [A7 _] & A8 & _).
  rewrite A1, A2, A4, A5, A6, A7, Hts2, Htot2, Hh, Hf, Hty, Hsev, !length_replicate.
  repeat (split; [done |]).
  intros name. specialize (Hcols name). specialize (A8 name). rewrite Hm in A8.
  case_bool_decide as Hin.
  - destruct Hcols as (col & Ec & Hl). rewrite Ec in A8.
    destruct (measurements df !! name) as [col' |]; [| done].
    exists col'. split; [done |]. simpl in A8. injection A8 as A8. lia.
  - rewrite Hcols in A8. by destruct (measurements df !! name).
Qed.

(** ** The checkpoints and the floor of the health pass *)

Lemma maintenance_point_spec i w :
  exists pt w', maintenance_point i w = Ok pt w' /\
    (i * 30 - 5) * 24 <= pt <= (i * 30 + 5) * 24 + 23.
Proof.
  unfold maintenance_point.
  destruct (returns_randint (-5) 5 ltac:(lia) w) as (d & w1 & E1).
  rewrite (bind_run _ _ _ _ _ E1). apply randint_spec in E1.
  destruct (returns_randint 0 23 ltac:(lia) w1) as (h & w2 & E2).
  rewrite (bind_run _ _ _ _ _ E2). apply randint_spec in E2.
  eexists _, _. split; [reflexivity |]. lia.
Qed.

Lemma draw_maintenance_points_spec w :
  exists p1 p2 p3 w', draw_maintenance_points w = Ok [p1; p2; p3] w' /\
    600 <= p1 <= 863 /\ 1320 <= p2 <= 1583 /\ 2040 <= p3 <= 2303.
Proof.
  unfold draw_maintenance_points.
  destruct (maintenance_point_spec 1 w) as (p1 & w1 & E1 & H1).
  rewrite (bind_run _ _ _ _ _ E1).
  destruct (maintenance_point_spec 2 w1) as (p2 & w2 & E2 & H2).
  rewrite (bind_run _ _ _ _ _ E2).
  destruct (maintenance_point_spec 3 w2) as (p3 & w3 & E3 & H3).
  rewrite (bind_run _ _ _ _ _ E3).
  exists p1, p2, p3, w3. split; [reflexivity |]. lia.
Qed.

(** X6. The three maintenance checkpoints are always drawn, one in each of
    the tick ranges 600..863, 1320..1583 and 2040..2303: they are in
    increasing order, at least 457 ticks apart, and tick 0 is none of
    them. *)
Theorem maintenance_points_ranges (w : world) :
  exists p1 p2 p3 w', draw_maintenance_points w = Ok [p1; p2; p3] w' /\
    600 <= p1 <= 863 /\ 1320 <= p2 <= 1583 /\ 2040 <= p3 <= 2303 /\
    p1 + 457 <= p2 /\ p2 + 457 <= p3.
Proof.
  destruct (draw_maintenance_points_spec w) as (p1 & p2 & p3 & w' & E & H).
  exists p1, p2, p3, w'. split; [exact E |]. lia.
Qed.

Lemma decayed_floor total i cur :
  PrimFloat.leb 20 cur = true -> PrimFloat.leb 20 (decayed total i cur) = true.
Proof.
  intros Hc. unfold decayed. destruct (0 <? i)%nat; [| exact Hc].
  unfold py_max. destruct (PrimFloat.ltb 20 _) eqn:E; [by apply ltb_leb | reflexivity].
Qed.

Lemma days_to_maint_nonneg h d : days_to_maint h = Value d -> 0 <= d.
Proof.
  unfold days_to_maint.
  destruct (PrimFloat.ltb 80 h); [intros [= <-]; lia |].
  destruct (PrimFloat.ltb 60 h); [intros [= <-]; lia |].
  destruct (PrimFloat.ltb 40 h); [intros [= <-]; lia |].
  destruct (int _); simpl; [intros [= <-]; lia | discriminate].
Qed.

(** The scores that the health loop writes are at least 20, and its days
    are not negative. *)
Lemma health_loop_floor pts total n hs ds :
  health_loop pts total n 0 100 (replicate n 0%float) (replicate n 0) = Value (hs, ds) ->
  (forall t h, hs !! t = Some h -> PrimFloat.leb 20 h = true) /\
  (forall t d, ds !! t = Some d -> 0 <= d).
Proof.
  intros El.
  apply health_loop_spec in El as (Hlh & Hld & _ & Hfirst & Hnext & Hdays);
    [| by rewrite length_replicate ..].
  assert (Hh : forall t h, hs !! t = Some h -> PrimFloat.leb 20 h = true).
  { induction t as [| t IH]; intros h Ht.
    - rewrite Hfirst in Ht by (apply lookup_lt_Some in Ht; lia).
      injection Ht as <-. by apply decayed_floor.
    - assert (Hlt := Ht). apply lookup_lt_Some in Hlt.
      destruct (lookup_lt_is_Some_2 hs t) as [h0 Hh0]; [lia |].
      rewrite (Hnext t h0) in Ht by (done || lia). injection Ht as <-.
      apply decayed_floor. destruct (bool_decide _); [reflexivity | by apply (IH h0)]. }
  split; [exact Hh |].
  intros t d Hd. assert (Hlt := Hd). apply lookup_lt_Some in Hlt.
  destruct (lookup_lt_is_Some_2 hs t) as [h Hht]; [lia |].
  specialize (Hdays t h ltac:(lia) Hht).
  destruct (bool_decide _).
  - rewrite Hdays in Hd. injection Hd as <-. lia.
  - destruct Hdays as (d' & Ed & Hd'). rewrite Hd' in Hd. injection Hd as <-.
    by apply days_to_maint_nonneg in Ed.
Qed.

(** X7. In a run that completed, every score that the health loop wrote
    before the noise is at least 20, the first one is 100, and no cell of
    [days_to_maintenance] of the final table is negative. *)
Theorem health_pass_floor fuel n p w df placed w' :
  pipeline_trace fuel n p w = Ok (df, placed) w' ->
  exists df1 w1 pts w2 hs,
    generate_normal_data n w = Ok df1 w1 /\
    draw_maintenance_points w1 = Ok pts w2 /\
    health_loop pts (total_machine_hours df1) n 0 100
      (replicate n 0%float) (replicate n 0) = Value (hs, days_to_maintenance df) /\
    hs !! 0%nat = Some 100%float /\
    (forall t h, hs !! t = Some h -> PrimFloat.leb 20 h = true) /\
    (forall t d, days_to_maintenance df !! t = Some d -> 0 <= d).
Proof.
  intros H. assert (Hn : (0 < n)%nat).
  { destruct n; [| lia]. unfold pipeline_trace in H.
    apply bind_ok in H as (df1 & w1 & E1 & _). by rewrite generate_normal_data_empty in E1. }
  destruct (pipeline_health_pass _ _ _ _ _ _ _ H)
    as (df1 & w1 & pts & w2 & hs & E1 & Ep & El).
  exists df1, w1, pts, w2, hs. split; [exact E1 |]. split; [exact Ep |].
  split; [exact El |].
  destruct (health_loop_floor _ _ _ _ _ El) as [Hh Hd].
  split; [| by split].
  apply health_loop_spec in El as (_ & _ & _ & Hfirst & _); [| by rewrite length_replicate ..].
  by rewrite Hfirst.
Qed.

(** ** The usage factor of the health loop *)

Lemma digits2_pos_log2 p : Z.pos (digits2_pos p) = Z.log2 (Z.pos p) + 1.
Proof.
  assert (H : digits2_pos p = Pos.size p) by (induction p; simpl; congruence).
  rewrite H. destruct p; simpl; lia.
Qed.

Lemma shl_align_value m e e' :
  e' <= e ->
  snd (shl_align m e e') = e' /\ Z.pos (fst (shl_align m e e')) = Z.pos m * 2 ^ (e - e').
Proof.
  intros He. unfold shl_align. destruct (e' - e) as [| d | d] eqn:E; [| lia |]; simpl.
  - replace (e - e') with 0 by lia. lia.
  - split; [done |]. replace (e - e') with (Z.pos d) by lia.
    change (Pos.iter xO m d) with (shift_pos d m). rewrite shift_pos_correct.
    rewrite Z.pow_pos_fold. lia.
Qed.

(** A positive integer of at most 53 bits at an exponent in range is a
    float: rounding it only moves the mantissa to 53 bits. *)
Lemma binary_round_exact s m e :
  Z.log2 (Z.pos m) <= 52 -> -1074 <= Z.log2 (Z.pos m) + e - 52 <= 971 ->
  exists m', binary_round prec emax s m e = S754_finite s m' (Z.log2 (Z.pos m) + e - 52) /\
    Z.pos m' = Z.pos m * 2 ^ (52 - Z.log2 (Z.pos m)).
Proof.
  intros Hd He. unfold binary_round.
  assert (Hf : fexp prec emax (Z.pos (digits2_pos m) + e) = Z.log2 (Z.pos m) + e - 52).
  { rewrite digits2_pos_log2. unfold fexp, SpecFloat.emin, prec, emax. lia. }
  rewrite Hf.
  destruct (shl_align_value m e (Z.log2 (Z.pos m) + e - 52)) as [H2 H1]; [lia |].
  destruct (shl_align m e (Z.log2 (Z.pos m) + e - 52)) as [m' e']. cbn [fst snd] in H1, H2. subst e'.
  replace (e - (Z.log2 (Z.pos m) + e - 52)) with (52 - Z.log2 (Z.pos m)) in H1 by lia.
  exists m'. split; [| exact H1].
  assert (Hc : canonical_mantissa prec emax m' (Z.log2 (Z.pos m) + e - 52) = true).
  { unfold canonical_mantissa. apply Z.eqb_eq. rewrite digits2_pos_log2, H1.
    rewrite Z.log2_mul_pow2 by lia. unfold fexp, SpecFloat.emin, prec, emax. lia. }
  unfold binary_round_aux.
  rewrite (shr_fexp_canonical m' _ Hc). simpl round_nearest_even.
  rewrite (shr_fexp_canonical m' _ Hc). simpl shr_m.
  destruct (Z.leb_spec (Z.log2 (Z.pos m) + e - 52) (emax - prec)) as [_ | Hgt]; [done |].
  unfold prec, emax in Hgt. lia.
Qed.

(** The float of a positive integer below [2 ^ 53] holds the integer. *)
Lemma float_of_Z_exact z :
  0 < z < 2 ^ 53 ->
  exists m, Prim2SF (float_of_Z z) = S754_finite false m (Z.log2 z - 52) /\
    Z.pos m = z * 2 ^ (52 - Z.log2 z).
Proof.
  intros Hz. unfold float_of_Z.
  destruct (Z.ltb_spec z 0) as [Hneg | _]; [lia |].
  rewrite FloatAxioms.of_uint63_spec, Uint63.of_Z_spec.
  rewrite Z.mod_small by (change wB with (2 ^ 63); lia).
  destruct z as [| m | m]; [lia | | lia]. simpl binary_normalize.
  assert (Hl : Z.log2 (Z.pos m) <= 52).
  { apply Z.lt_succ_r. apply Z.log2_lt_pow2; lia. }
  pose proof (Z.log2_nonneg (Z.pos m)) as Hl0.
  destruct (binary_round_exact false m 0) as (m' & E & V); [lia | lia |].
  exists m'. rewrite E. split; [f_equal; lia | exact V].
Qed.

(** Two consecutive integers below [2 ^ 53] are floats whose difference is
    exactly 1.0. *)
Lemma float_of_Z_succ_sub b :
  0 < b -> b + 1 < 2 ^ 53 ->
  (float_of_Z (b + 1) - float_of_Z b)%float = 1.0%float.
Proof.
  intros Hb Hb1. apply Prim2SF_inj. rewrite FloatAxioms.sub_spec.
  destruct (float_of_Z_exact (b + 1)) as (m1 & -> & V1); [lia |].
  destruct (float_of_Z_exact b) as (m2 & -> & V2); [lia |].
  pose proof (Z.log2_nonneg b) as Hl0.
  assert (Hle : Z.log2 b <= Z.log2 (b + 1)) by (apply Z.log2_le_mono; lia).
  assert (Hl : Z.log2 (b + 1) <= 52).
  { apply Z.lt_succ_r. apply Z.log2_lt_pow2; lia. }
  unfold SF64sub, SFsub. cbv zeta.
  rewrite Z.min_r by lia.
  destruct (shl_align_value m1 (Z.log2 (b + 1) - 52) (Z.log2 b - 52)) as [_ A1]; [lia |].
  destruct (shl_align_value m2 (Z.log2 b - 52) (Z.log2 b - 52)) as [_ A2]; [lia |].
  unfold cond_Zopp. rewrite A1, A2, V1, V2.
  replace ((b + 1) * 2 ^ (52 - Z.log2 (b + 1)) * 2 ^ (Z.log2 (b + 1) - 52 - (Z.log2 b - 52)) -
           b * 2 ^ (52 - Z.log2 b) * 2 ^ (Z.log2 b - 52 - (Z.log2 b - 52)))
    with (2 ^ (52 - Z.log2 b)).
  2:{ rewrite <- !Z.mul_assoc, <- !Z.pow_add_r by lia.
      replace (52 - Z.log2 (b + 1) + (Z.log2 (b + 1) - 52 - (Z.log2 b - 52)))
        with (52 - Z.log2 b) by lia.
      replace (52 - Z.log2 b + (Z.log2 b - 52 - (Z.log2 b - 52)))
        with (52 - Z.log2 b) by lia.
      lia. }
  pose proof (Z.pow_pos_nonneg 2 (52 - Z.log2 b)) as Hp.
  destruct (2 ^ (52 - Z.log2 b)) as [| q | q] eqn:Eq; [lia | | lia].
  simpl binary_normalize.
  assert (Hq : Z.log2 (Z.pos q) = 52 - Z.log2 b) by (rewrite <- Eq; apply Z.log2_pow2; lia).
  destruct (binary_round_exact false q (Z.log2 b - 52)) as (m' & E & V); [lia | lia |].
  rewrite E, Hq.
  replace (52 - Z.log2 b + (Z.log2 b - 52) - 52) with (-52) by lia.
  rewrite Hq, <- Eq, <- Z.pow_add_r in V by lia.
  replace (52 - Z.log2 b + (52 - (52 - Z.log2 b))) with 52 in V by lia.
  change (2 ^ 52) with (Z.pos 4503599627370496) in V. injection V as ->.
  reflexivity.
Qed.

Lemma generate_normal_data_total n w df w' :
  generate_normal_data n w = Ok df w' ->
  forall i, (i < n)%nat -> total_machine_hours df !! i = Some (5001 + Z.of_nat i).
Proof.
  intros E i Hi.
  destruct (generate_normal_data_bound _ _ _ _ E) as [Hn Hlast].
  destruct (generate_normal_data_spec n w Hn Hlast)
    as (df0 & w0 & tool & r & w1 & w2 & E0 & Eu & Ht & _).
  rewrite E in E0. injection E0 as <- <-.
  destruct (usage_loop_spec (map Z.of_nat (seq 0 n)) (day 0) (fst r) 5000 w1)
    as (r' & w2' & Eu' & Hr).
  rewrite Eu in Eu'. injection Eu' as <- <-.
  rewrite length_map, length_seq in Hr.
  rewrite Ht, Hr, list_lookup_fmap, lookup_seq_lt by exact Hi.
  simpl. f_equal; lia.
Qed.

(** The usage factor of tick [i] is [1.0 + 1.0 / 1000] when the cumulative
    hours of the ticks [i - 1] and [i] are consecutive integers. *)
Lemma decayed_consecutive total i b current_health :
  total !! i = Some b -> total !! S i = Some (b + 1) -> 0 < b -> b + 1 < 2 ^ 53 ->
  decayed total (S i) current_health =
    py_max 20 (current_health - health_decay_per_hour * (1.0 + 1.0 / 1000))%float.
Proof.
  intros H0 H1 Hb Hb1. unfold decayed.
  change (0 <? S i)%nat with true. cbv iota zeta.
  replace (S i - 1)%nat with i by lia.
  rewrite (nth_lookup_Some _ _ _ _ H0), (nth_lookup_Some _ _ _ _ H1).
  by rewrite float_of_Z_succ_sub.
Qed.

(** X18. In a run that completed, the usage factor of the health loop is
    [1.0 + 1.0 / 1000] at every tick,
    since the cumulative hours grow by exactly one per tick: the score that
    the loop writes at tick [t + 1] is [max(20, h - 0.02 * 1.001)], for [h]
    the score written at tick [t], or 100 when [t] is a maintenance
    checkpoint. *)
Theorem health_decay_constant fuel n p w df placed w' :
  pipeline_trace fuel n p w = Ok (df, placed) w' ->
  exists df1 w1 pts w2 hs,
    generate_normal_data n w = Ok df1 w1 /\
    draw_maintenance_points w1 = Ok pts w2 /\
    health_loop pts (total_machine_hours df1) n 0 100
      (replicate n 0%float) (replicate n 0) = Value (hs, days_to_maintenance df) /\
    forall t h, (S t < n)%nat -> hs !! t = Some h ->
      hs !! S t =
        Some (py_max 20 ((if bool_decide (Z.of_nat t ∈ pts) then 100 else h)
                         - 0.02 * (1.0 + 1.0 / 1000)))%float.
Proof.
  intros H.
  apply pipeline_health_pass in H as (df1 & w1 & pts & w2 & hs & E1 & Ep & El).
  destruct (generate_normal_data_bound _ _ _ _ E1) as [_ Hn]. unfold last_hour in Hn.
  assert (H53 : 2 ^ 53 = 9007199254740992) by reflexivity.
  exists df1, w1, pts, w2, hs. repeat (split; [done |]).
  intros t h Ht Hh.
  apply health_loop_spec in El as (_ & _ & _ & _ & Hnext & _);
    [| by rewrite length_replicate ..].
  rewrite (Hnext t h) by (done || lia).
  f_equal. apply (decayed_consecutive _ t (5001 + Z.of_nat t)).
  - by apply (generate_normal_data_total _ _ _ _ E1); lia.
  - rewrite (generate_normal_data_total _ _ _ _ E1) by lia. f_equal. lia.
  - lia.
  - lia.
Qed.

(** X18 on the run of 602 rows. *)
Lemma health_decay_constant_run_602 :
  exists df w', run_602 = Ok (df, [(48, 6)]) w' /\
  exists df1 w1 pts w2 hs,
    generate_normal_data 602 (boot still (draws [])) = Ok df1 w1 /\
    draw_maintenance_points w1 = Ok pts w2 /\
    health_loop pts (total_machine_hours df1) 602 0 100
      (replicate 602 0%float) (replicate 602 0) = Value (hs, days_to_maintenance df) /\
    forall t h, (S t < 602)%nat -> hs !! t = Some h ->
      hs !! S t =
        Some (py_max 20 ((if bool_decide (Z.of_nat t ∈ pts) then 100 else h)
                         - 0.02 * (1.0 + 1.0 / 1000)))%float.
Proof.
  destruct run_602_returns as (df & w' & E). exists df, w'.
  split; [exact E |].
  exact (health_decay_constant _ _ _ _ _ _ _ E).
Defined.

(** ** The health loop, tick by tick *)

Lemma along_iter check k : forall h j,
  along check h k = true -> (j <= k)%nat -> check (Nat.iter j next_health h) = true.
Proof.
  induction k as [| k IH]; intros h j H Hj.
  - replace j with 0%nat by lia. exact H.
  - simpl in H. apply andb_prop in H as [H0 H].
    destruct j as [| j]; [exact H0 |].
    rewrite Nat.iter_succ_r. apply IH; [exact H | lia].
Qed.

(** After 3997 ticks without a reset [current_health] is down to its floor. *)
Lemma health_after_3997 : health_after 3997 = 20%float.
Proof. vm_compute. reflexivity. Qed.

Lemma health_after_floor k : (3997 <= k)%nat -> health_after k = 20%float.
Proof.
  induction 1 as [| k _ IH]; [exact health_after_3997 |].
  unfold health_after in *. simpl. rewrite IH. reflexivity.
Qed.

(** What holds along the 3997 ticks from 100 to the floor holds of every
    value that [current_health] takes. *)
Lemma health_after_checked check :
  along check 100 3997 = true -> forall k, check (health_after k) = true.
Proof.
  intros H k. destruct (le_lt_dec k 3997) as [Hk | Hk].
  - exact (along_iter check 3997 100%float k H Hk).
  - rewrite health_after_floor by lia. rewrite <- health_after_3997.
    exact (along_iter check 3997 100%float 3997 H (le_n _)).
Qed.

Lemma days_known_health_after k : days_known (health_after k) = true.
Proof. apply health_after_checked. vm_compute. reflexivity. Qed.

Lemma days_to_maint_health_after k :
  exists d, days_to_maint (health_after k) = Value d /\ d ∈ [30; 20; 10; 3; 2].
Proof.
  pose proof (days_known_health_after k) as H. unfold days_known in H.
  destruct (days_to_maint (health_after k)) as [d | e]; [| discriminate].
  exists d. split; [reflexivity |]. by apply bool_decide_eq_true in H.
Qed.

(** While less than 1000 ticks have passed since the last reset the health
    is above 80. *)
Lemma health_after_above_80 k :
  (k <= 999)%nat -> PrimFloat.ltb 80 (health_after k) = true.
Proof.
  apply (along_iter (PrimFloat.ltb 80) 999 100%float k). vm_compute. reflexivity.
Qed.

Lemma health_after_succ k : health_after (S k) = next_health (health_after k).
Proof. reflexivity. Qed.

(** On cumulative hours that grow by one per tick the health loop returns:
    [int] is only taken on a number. *)
Lemma health_loop_returns pts total k : forall i cur hs ds,
  (forall j, (j < i + k)%nat -> total !! j = Some (5001 + Z.of_nat j)) ->
  Z.of_nat (i + k) + 5001 < 2 ^ 53 ->
  ((0 < k)%nat -> exists m, decayed total i cur = health_after m) ->
  exists r, health_loop pts total k i cur hs ds = Value r.
Proof.
  induction k as [| k IH]; intros i cur hs ds Htot Hbound Hcur; simpl; [by eexists |].
  destruct Hcur as [m Hm]; [lia |]. rewrite Hm.
  destruct (days_to_maint_health_after m) as (d & -> & _).
  assert (Hnext : forall c, (0 < k)%nat -> decayed total (S i) c = next_health c).
  { intros c Hk. apply (decayed_consecutive total i (5001 + Z.of_nat i)).
    - apply Htot. lia.
    - rewrite Htot by lia. f_equal. lia.
    - lia.
    - lia. }
  destruct (bool_decide (Z.of_nat i ∈ pts)); apply IH.
  - intros j Hj. apply Htot. lia.
  - lia.
  - intros Hk. exists 1%nat. by rewrite Hnext.
  - intros j Hj. apply Htot. lia.
  - lia.
  - intros Hk. exists (S m). by rewrite Hnext.
Qed.

Lemma since_le pts i : (since pts i <= i)%nat.
Proof.
  induction i as [| i IH]; simpl; [lia |]. destruct (bool_decide _); lia.
Qed.

Lemma since_checkpoint pts p i :
  Z.of_nat p ∈ pts -> (p < i)%nat -> (since pts i <= i - p)%nat.
Proof.
  intros Hp. induction i as [| i IH]; intros Hi; simpl; [lia |].
  destruct (bool_decide (Z.of_nat i ∈ pts)) eqn:E; [lia |].
  apply bool_decide_eq_false in E.
  assert (p <> i) by (intros ->; done).
  specialize (IH ltac:(lia)). lia.
Qed.

(** The columns of the health loop in closed form: the score of tick [t] is
    what 100 has decayed to over the ticks since the last reset, and the
    days are 30 at a checkpoint and the step function of the score
    elsewhere. *)
Lemma health_loop_closed_form pts total n hs ds :
  health_loop pts total n 0 100 (replicate n 0%float) (replicate n 0) = Value (hs, ds) ->
  (forall j, (j < n)%nat -> total !! j = Some (5001 + Z.of_nat j)) ->
  Z.of_nat n + 5001 < 2 ^ 53 ->
  forall t, (t < n)%nat ->
    hs !! t = Some (health_after (since pts t)) /\
    exists d, days_to_maint (health_after (since pts t)) = Value d /\
      ds !! t = Some (if bool_decide (Z.of_nat t ∈ pts) then 30 else d).
Proof.
  intros El Htot Hbound.
  apply health_loop_spec in El as (Hlh & Hld & _ & Hfirst & Hnext & Hdays);
    [| by rewrite length_replicate ..].
  assert (Hscore : forall t, (t < n)%nat -> hs !! t = Some (health_after (since pts t))).
  { induction t as [| t IH]; intros Ht.
    - rewrite Hfirst by lia. reflexivity.
    - rewrite (Hnext t _ ltac:(lia) ltac:(lia) (IH ltac:(lia))). f_equal.
      rewrite (decayed_consecutive total t (5001 + Z.of_nat t)); try lia.
      + simpl. by destruct (bool_decide _).
      + apply Htot. lia.
      + rewrite Htot by lia. f_equal. lia. }
  intros t Ht. split; [by apply Hscore |].
  destruct (days_to_maint_health_after (since pts t)) as (d & Ed & _).
  exists d. split; [exact Ed |].
  specialize (Hdays t _ ltac:(lia) (Hscore t Ht)).
  destruct (bool_decide (Z.of_nat t ∈ pts)); [exact Hdays |].
  destruct Hdays as (d' & Ed' & Hd'). rewrite Ed in Ed'. by injection Ed' as <-.
Qed.

(** The second stage returns on every table of the first. *)
Lemma generate_health_and_maintenance_returns n w df w1 w2 :
  generate_normal_data n w = Ok df w1 ->
  exists df' w', generate_health_and_maintenance df w2 = Ok df' w'.
Proof.
  intros E. destruct (generate_normal_data_bound _ _ _ _ E) as [Hn Hlast].
  unfold last_hour in Hlast.
  assert (H53 : 2 ^ 53 = 9007199254740992) by reflexivity.
  assert (Hlen : len df = n).
  { destruct (generate_normal_data_spec n w Hn ltac:(unfold last_hour; lia))
      as (df0 & w0 & tool & r & wa & wb & E0 & _ & _ & _ & _ & Hts).
    rewrite E in E0. injection E0 as <- <-.
    unfold len. by rewrite Hts, length_map, length_seq. }
  unfold generate_health_and_maintenance.
  destruct (draw_maintenance_points_spec w2) as (p1 & p2 & p3 & w3 & Ep & _).
  rewrite (bind_run _ _ _ _ _ Ep), Hlen.
  destruct (health_loop_returns [p1; p2; p3] (total_machine_hours df) n 0 100
              (replicate n 0%float) (replicate n 0)) as [[hs ds] ->].
  - intros j Hj. apply (generate_normal_data_total _ _ _ _ E). lia.
  - lia.
  - intros _. by exists 0%nat.
  - destruct (returns_normal_vec 0 1 n w3) as (noise & w4 & En).
    rewrite (bind_run _ _ _ _ _ En). by eexists _, _.
Qed.

(** ** Tables too short for an episode, and budgets of one episode *)

(** The episode lengths are drawn, unless [int] raises on the budget; there
    is at least one. *)
Lemma draw_sequences_outcome n p w :
  match int (float_of_Z (Z.of_nat n) * p)%float with
  | Throws e => draw_sequences n p w = Raise e
  | Value _ => exists l rest w', draw_sequences n p w = Ok (l :: rest) w' /\ 0 < l
  end.
Proof.
  destruct (int _) as [budget | e] eqn:Eb.
  - assert (E : exists y w', draw_sequences n p w = Ok y w').
    { unfold draw_sequences, total_anomaly_hours. rewrite Eb.
      set (total := if budget =? 0 then 12 else budget).
      destruct (sequences_loop_spec (Z.to_nat total) total [] w ltac:(lia))
        as (out & w1 & E1 & _).
      rewrite (bind_run _ _ _ _ _ E1).
      set (out' := if bool_decide (length out = 0%nat) then [12] else out).
      destruct (shuffle_from_spec (length out' - 1) out' w1) as (y & w2 & E2 & _).
      unfold shuffle. rewrite E2. by eexists _, _. }
    destruct E as (sequences & w' & E). assert (E' := E).
    apply draw_sequences_spec in E' as (budget' & _ & Hsum & Hpos).
    destruct sequences as [| l rest].
    + simpl in Hsum. destruct (0 <? budget') eqn:Eb'; [apply Z.ltb_lt in Eb' |]; lia.
    + apply Forall_cons in Hpos as [Hl _]. by exists l, rest, w'.
  - unfold draw_sequences, total_anomaly_hours. by rewrite Eb.
Qed.

(** No start can be drawn for an episode that does not fit between the two
    margins of 48 rows. *)
Lemma place_episode_short fuel df seq_length w :
  Z.of_nat (len df) - seq_length - 48 < 48 ->
  place_episode fuel df seq_length w = Raise ValueError.
Proof.
  intros Hshort. unfold place_episode.
  destruct (choice_catalog w) as (ty & cfg & w1 & E1 & Ecfg).
  rewrite (bind_run _ _ _ _ _ E1), Ecfg.
  unfold bind at 1, randint.
  destruct (Z.ltb_spec (Z.of_nat (len df) - seq_length - 48) 48) as [_ | Hle]; [done | lia].
Qed.

(** X8. A table of fewer than 97 rows cannot take an episode: the script
    then raises, whatever the random draws.  The exception is [IndexError]
    on an empty table; otherwise it is the one of
    [int(total_hours * anomaly_percentage)] when the product is a NaN
    ([ValueError]) or an infinity ([OverflowError]), and the [ValueError] of
    [randint] on an empty range when the product is a number. *)
Theorem short_table_raises (fuel n : nat) (p : float) (w : world) :
  (n < 97)%nat ->
  pipeline_trace fuel n p w =
    Raise (if (n =? 0)%nat then IndexError
           else match int (float_of_Z (Z.of_nat n) * p)%float with
                | Throws e => e
                | Value _ => ValueError
                end).
Proof.
  intros Hn. unfold pipeline_trace. destruct n as [| n].
  { unfold bind. by rewrite generate_normal_data_empty. }
  destruct (generate_normal_data_spec (S n) w ltac:(lia) ltac:(unfold last_hour; lia))
    as (df1 & w1 & tool & r & wa & wb & E1 & _ & _ & _ & _ & Hts).
  rewrite (bind_run _ _ _ _ _ E1). simpl Nat.eqb.
  destruct (generate_health_and_maintenance_returns _ _ _ _ w1 E1) as (df2 & w2 & E2).
  rewrite (bind_run _ _ _ _ _ E2).
  assert (Hlen : len df2 = S n).
  { apply generate_health_and_maintenance_spec in E2
      as (_ & _ & _ & _ & _ & _ & _ & _ & _ & Hts2 & _).
    unfold len. by rewrite Hts2, Hts, length_map, length_seq. }
  unfold introduce_anomalies_trace. rewrite Hlen.
  pose proof (draw_sequences_outcome (S n) p w2) as E3.
  destruct (int _) as [budget | e].
  - destruct E3 as (l & rest & w3 & E3 & Hl).
    rewrite (bind_run _ _ _ _ _ E3), place_episodes_cons.
    unfold bind. rewrite place_episode_short; [done | lia].
  - unfold bind. by rewrite E3.
Qed.

(** X8 on a table of 96 rows. *)
Lemma short_table_raises_96_rows :
  pipeline_trace 0 96 0.15 (boot still (draws [])) =
  Raise (if (96 =? 0)%nat then IndexError
         else match int (float_of_Z (Z.of_nat 96) * 0.15)%float with
              | Throws e => e
              | Value _ => ValueError
              end).
Proof. apply short_table_raises. lia. Defined.

Lemma overlaps_clean df start_pos seq_length :
  is_anomaly df = replicate (len df) 0 -> overlaps df start_pos seq_length = false.
Proof.
  intros Hf. unfold overlaps.
  destruct (existsb _ _) eqn:E; [| done]. exfalso.
  apply existsb_exists in E as (x & Hx & Hpos). apply Z.ltb_lt in Hpos.
  apply list_elem_of_In in Hx. unfold iloc in Hx.
  apply subseteq_take, subseteq_drop in Hx.
  rewrite Hf in Hx. apply elem_of_replicate_inv in Hx. lia.
Qed.

(** The ticks of an episode that lies inside the table all return. *)
Lemma for_each_ticks_returns ty cfg pr si start_pos seq_length :
  forall offsets df w,
    length (machine_health_score df) = len df ->
    Forall (fun i => 0 <= start_pos + i < Z.of_nat (len df)) offsets ->
    exists df' w',
      for_each (anomaly_tick ty cfg pr si start_pos seq_length) offsets df w = Ok df' w'.
Proof.
  induction offsets as [| i offsets IH]; intros df w Hh Hin; simpl.
  - by eexists _, _.
  - apply Forall_cons in Hin as [Hi Hin].
    assert (Htick : exists df1 w1,
              anomaly_tick ty cfg pr si start_pos seq_length df i w = Ok df1 w1).
    { unfold anomaly_tick. unfold bind at 1, normal at 1, bind at 1, gauss, ret at 1.
      set (sev := py_max _ _). set (df1 := set_anomaly_severity _ _ _).
      destruct (fold_perturb_same (Z.to_nat (start_pos + i)) sev cfg df1)
        as (_ & _ & H3 & _).
      rewrite H3. subst df1. simpl.
      destruct (lookup_lt_is_Some_2 (machine_health_score df) (Z.to_nat (start_pos + i)))
        as [h Eh]; [lia |].
      rewrite Eh. by eexists _, _. }
    destruct Htick as (df1 & w1 & E1). rewrite (bind_run _ _ _ _ _ E1).
    apply anomaly_tick_spec in E1 as (Hts & _ & _ & _ & h & _ & Hscore).
    apply IH.
    + unfold len. by rewrite Hscore, length_insert, Hts.
    + unfold len. by rewrite Hts.
Qed.

(** On a table without a flagged row an episode that fits is placed at the
    first start drawn, with no redraw. *)
Lemma place_episode_clean fuel df seq_length w :
  is_anomaly df = replicate (len df) 0 ->
  length (machine_health_score df) = len df ->
  48 <= Z.of_nat (len df) - seq_length - 48 ->
  exists df' start_pos w',
    place_episode fuel df seq_length w = Ok (df', (start_pos, seq_length)) w' /\
    48 <= start_pos <= Z.of_nat (len df) - seq_length - 48.
Proof.
  intros Hf Hh Hfit. unfold place_episode.
  destruct (choice_catalog w) as (ty & cfg & w1 & E1 & Ecfg).
  rewrite (bind_run _ _ _ _ _ E1), Ecfg.
  destruct (returns_randint 48 (Z.of_nat (len df) - seq_length - 48) Hfit w1)
    as (s & w2 & E2).
  rewrite (bind_run _ _ _ _ _ E2). apply randint_spec in E2.
  assert (Er : redraw_start fuel df seq_length s w2 = Ok s w2).
  { destruct fuel; simpl; by rewrite (overlaps_clean df s seq_length Hf). }
  rewrite (bind_run _ _ _ _ _ Er).
  destruct (catalog_meta ty cfg Ecfg) as (pr & si & -> & ->).
  destruct (for_each_ticks_returns ty cfg pr si s seq_length (range seq_length) df w2 Hh)
    as (df' & w3 & Ef).
  { apply Forall_forall. intros i Hi. apply elem_of_range in Hi. lia. }
  rewrite (bind_run _ _ _ _ _ Ef). exists df', s, w3. by split.
Qed.

(** A budget of 1 to 6 hours makes one episode. *)
Lemma draw_sequences_single n p w b :
  int (float_of_Z (Z.of_nat n) * p)%float = Value b -> 0 < b <= 6 ->
  exists w', draw_sequences n p w = Ok [b] w'.
Proof.
  intros Eb Hb. unfold draw_sequences, total_anomaly_hours. rewrite Eb.
  destruct (Z.eqb_spec b 0) as [-> | _]; [lia |].
  destruct (Z.to_nat b) as [| fuel] eqn:Ef; [lia |]. simpl.
  destruct (Z.ltb_spec 0 b) as [_ | Hle]; [| lia].
  destruct (returns_randint 6 48 ltac:(lia) w) as (r & w1 & E1).
  unfold bind at 1. rewrite (bind_run _ _ _ _ _ E1). apply randint_spec in E1.
  rewrite Z.min_r by lia. rewrite Z.sub_diag.
  destruct fuel; simpl; by eexists.
Qed.

(** X9. When the budget [int(n_samples * anomaly_percentage)] is 1 to 6
    hours, the table has room for it ([budget + 96 <= n_samples]) and the
    first two stages return, the script returns with no redraw at all: the
    budget makes one episode, which is placed at the first start drawn. *)
Theorem single_episode_always_placed fuel n p w df1 w1 df2 w2 b :
  generate_normal_data n w = Ok df1 w1 ->
  generate_health_and_maintenance df1 w1 = Ok df2 w2 ->
  int (float_of_Z (Z.of_nat n) * p)%float = Value b ->
  0 < b <= 6 -> b + 96 <= Z.of_nat n ->
  exists df start_pos w',
    pipeline_trace fuel n p w = Ok (df, [(start_pos, b)]) w' /\
    48 <= start_pos <= Z.of_nat n - b - 48.
Proof.
  intros E1 E2 Eb Hb Hfit. unfold pipeline_trace.
  rewrite (bind_run _ _ _ _ _ E1), (bind_run _ _ _ _ _ E2).
  assert (Hstages : len df2 = n /\ is_anomaly df2 = replicate n 0 /\
                    length (machine_health_score df2) = n).
  { destruct (generate_normal_data_bound _ _ _ _ E1) as [Hn Hlast].
    destruct (generate_normal_data_spec n w Hn Hlast)
      as (df1' & w1' & tool & r & wa & wb & E1' & _ & _ & _ & _ & Hts).
    rewrite E1 in E1'. injection E1' as <- <-.
    destruct (generate_health_and_maintenance_spec _ _ _ _ E2)
      as (pts & wc & hs & noise & _ & El & En & Hh & Hf & Hts2 & _).
    assert (Hn1 : len df1 = n) by (unfold len; by rewrite Hts, length_map, length_seq).
    apply health_loop_spec in El as (Hlh & _); [| by rewrite length_replicate ..].
    apply normal_vec_length in En.
    split; [unfold len; by rewrite Hts2 |]. split; [by rewrite Hf, Hn1 |].
    rewrite Hh. unfold add_noise_and_clip.
    rewrite length_map, length_zip_with, Hlh, En, Hn1. lia. }
  destruct Hstages as (Hn & Hf & Hh).
  unfold introduce_anomalies_trace. rewrite Hn.
  destruct (draw_sequences_single n p w2 b Eb Hb) as (w3 & Es).
  rewrite (bind_run _ _ _ _ _ Es), place_episodes_cons.
  destruct (place_episode_clean fuel df2 b w3) as (df & s & w4 & Ep & Hs);
    [by rewrite Hn | by rewrite Hn | lia |].
  rewrite (bind_run _ _ _ _ _ Ep). simpl. rewrite Hn in Hs. by exists df, s, w4.
Qed.

(** ** The daily hours *)

Lemma day_day_of_era h : day h = day_of_era ((start_date + h / 24 + 719468) mod 146097).
Proof.
  unfold day, day_of_era. cbv zeta.
  set (z := start_date + h / 24 + 719468).
  replace (z - z / 146097 * 146097) with (z mod 146097); [reflexivity |].
  rewrite Z.mod_eq by lia. lia.
Qed.

Lemma all_from_spec f k : forall a s,
  all_from f a k = true -> a <= s < a + Z.of_nat k -> f s = true.
Proof.
  induction k as [| k IH]; intros a s H Hs; [lia |].
  simpl in H. apply andb_prop in H as [Ha H].
  destruct (Z.eq_dec s a) as [-> | Hne]; [exact Ha |].
  apply (IH (a + 1)); [exact H | lia].
Qed.

Lemma days_differ_era : all_from days_differ 0 (Z.to_nat 146097) = true.
Proof. vm_cast_no_check (eq_refl true). Qed.

(** The day of the month changes exactly when the hour count passes a
    multiple of 24. *)
Lemma day_changes_at_midnight h :
  0 <= h -> (day (h + 1) =? day h) = negb ((h + 1) mod 24 =? 0).
Proof.
  intros Hh. rewrite !day_day_of_era.
  destruct (Z.eqb_spec ((h + 1) mod 24) 0) as [Hm | Hm]; simpl.
  - assert (Hd : (h + 1) / 24 = h / 24 + 1).
    { pose proof (Z.div_mod (h + 1) 24 ltac:(lia)).
      pose proof (Z.div_mod h 24 ltac:(lia)).
      pose proof (Z.mod_pos_bound h 24 ltac:(lia)). lia. }
    rewrite Hd.
    set (z := start_date + h / 24 + 719468).
    replace (start_date + (h / 24 + 1) + 719468) with (z + 1) by (subst z; lia).
    assert (Hz : 0 <= z).
    { subst z. pose proof (Z.div_pos h 24 Hh ltac:(lia)). unfold start_date. lia. }
    pose proof (Z.mod_pos_bound z 146097 ltac:(lia)) as Hr.
    assert (Hdiff : days_differ (z mod 146097) = true).
    { apply (all_from_spec _ _ _ _ days_differ_era).
      rewrite Z2Nat.id by lia. lia. }
    unfold days_differ in Hdiff. apply negb_true_iff in Hdiff.
    rewrite <- Hdiff. f_equal. f_equal.
    rewrite <- (Zplus_mod_idemp_l z 1). reflexivity.
  - assert (Hd : (h + 1) / 24 = h / 24).
    { pose proof (Z.div_mod (h + 1) 24 ltac:(lia)).
      pose proof (Z.div_mod h 24 ltac:(lia)).
      pose proof (Z.mod_pos_bound h 24 ltac:(lia)).
      pose proof (Z.mod_pos_bound (h + 1) 24 ltac:(lia)). lia. }
    rewrite Hd. apply Z.eqb_refl.
Qed.

(** The column of daily hours that the usage loop writes: the cell of a
    tick whose day of the month is the current one repeats the hours carried
    in, and each cell is the hours carried in or a draw of [uniform(6, 15)]. *)
Lemma usage_loop_hours ts : forall d h c w r w',
  usage_loop ts d h c w = Ok r w' ->
  length (fst r) = length ts /\
  (forall t0, ts !! 0%nat = Some t0 -> day t0 = d -> fst r !! 0%nat = Some h) /\
  (forall i t t', ts !! i = Some t -> ts !! S i = Some t' -> day t' = day t ->
     fst r !! S i = fst r !! i) /\
  (forall i x, fst r !! i = Some x ->
     x = h \/ exists k, x = (6 + (15 - 6) * random_of_bits k)%float).
Proof.
  induction ts as [| t ts IH]; intros d h c w r w'; simpl.
  - intros [= <- _]. simpl. repeat split; try done.
  - intros H. apply bind_ok in H as (h' & w1 & Eh & H).
    apply bind_ok in H as (rest & w2 & E & H). injection H as <- _. simpl.
    apply IH in E as (Hl & Hfirst & Hnext & Hval).
    assert (Hh' : (day t = d -> h' = h) /\
                  (h' = h \/ exists k, h' = (6 + (15 - 6) * random_of_bits k)%float)).
    { destruct (Z.eqb_spec (day t) d) as [Hd | Hd]; simpl in Eh.
      - injection Eh as <- _. by split; [| left].
      - apply uniform_value in Eh as [k ->]. split; [done | right; by exists k]. }
    destruct Hh' as [Hsame Hdraw].
    split; [by rewrite Hl |]. split; [| split].
    + intros t0 [= <-] Hd. by rewrite Hsame.
    + intros [| i] t1 t2 H1 H2 Hd; simpl in *.
      * injection H1 as <-. by apply (Hfirst t2).
      * by apply (Hnext i t1 t2).
    + intros [| i] x Hx; simpl in Hx.
      * injection Hx as <-. exact Hdraw.
      * apply Hval in Hx as [-> | Hx]; [exact Hdraw | by right].
Qed.

(** The column [machine_hours_today] of the table that leaves
    [generate_normal_data]. *)
Lemma generate_normal_data_hours n w df w' :
  generate_normal_data n w = Ok df w' ->
  exists col, measurements df !! "machine_hours_today"%string = Some col /\
    length col = n /\
    (forall i, (S i < n)%nat -> (Z.of_nat (S i) mod 24 =? 0) = false ->
       col !! S i = col !! i) /\
    (forall i x, col !! i = Some x ->
       exists k, x = (6 + (15 - 6) * random_of_bits k)%float).
Proof.
  intros H. open_generate_normal_data H n.
  apply bind_ok in H as (c1 & w1 & _ & H). apply bind_ok in H as (c2 & w2 & _ & H).
  apply bind_ok in H as (c3 & w3 & _ & H). apply bind_ok in H as (c4 & w4 & _ & H).
  apply bind_ok in H as (c5 & w5 & _ & H). apply bind_ok in H as (c6 & w6 & _ & H).
  apply bind_ok in H as (c7 & w7 & _ & H). apply bind_ok in H as (c8 & w8 & _ & H).
  destruct (map Z.of_nat (seq 0 n) !! 0%nat) as [t0 |] eqn:Et0; [| discriminate].
  apply bind_ok in H as (h & w9 & Eh & H).
  apply bind_ok in H as (r & w10 & Eu & H).
  apply bind_ok in H as (tool & w11 & _ & H).
  injection H as <- _. simpl.
  apply usage_loop_hours in Eu as (Hl & Hfirst & Hnext & Hval).
  rewrite length_map, length_seq in Hl.
  exists (fst r). split; [rewrite !lookup_insert_ne by done; apply lookup_insert_eq |]. split; [exact Hl |]. split.
  - intros i Hi Hm. apply (Hnext i (Z.of_nat i) (Z.of_nat (S i))).
    + rewrite list_lookup_fmap, lookup_seq_lt by lia. reflexivity.
    + rewrite list_lookup_fmap, lookup_seq_lt by lia. reflexivity.
    + pose proof (day_changes_at_midnight (Z.of_nat i) ltac:(lia)) as Hd.
      replace (Z.of_nat i + 1) with (Z.of_nat (S i)) in Hd by lia.
      rewrite Hm in Hd. simpl in Hd. by apply Z.eqb_eq in Hd.
  - intros i x Hx. apply Hval in Hx as [-> | Hx]; [| exact Hx].
    by apply uniform_value in Eh.
Qed.

(** X10. In the table that leaves [generate_normal_data] the cell of
    [machine_hours_today] of any tick is the cell of the first tick of its
    calendar day (the last multiple of 24 before it), and every cell is a
    draw [6 + (15 - 6) * random()] of [uniform(6, 15)]: the daily hours are
    drawn once per day. *)
Theorem machine_hours_today_per_day n w df w' :
  generate_normal_data n w = Ok df w' ->
  exists col, measurements df !! "machine_hours_today"%string = Some col /\
    length col = n /\
    (forall i, (i < n)%nat -> col !! i = col !! (i - i mod 24)%nat) /\
    (forall i x, col !! i = Some x ->
       exists k, x = (6 + (15 - 6) * random_of_bits k)%float).
Proof.
  intros H. apply generate_normal_data_hours in H as (col & Ec & Hl & Hstep & Hval).
  exists col. split; [exact Ec |]. split; [exact Hl |]. split; [| exact Hval].
  induction i as [| i IH]; intros Hi; [reflexivity |].
  assert (Hz : Z.of_nat (S i mod 24) = Z.of_nat (S i) mod 24).
  { rewrite Nat2Z.inj_mod. reflexivity. }
  assert (Hz' : Z.of_nat (i mod 24) = Z.of_nat i mod 24).
  { rewrite Nat2Z.inj_mod. reflexivity. }
  pose proof (Z.div_mod (Z.of_nat (S i)) 24 ltac:(lia)) as D1.
  pose proof (Z.div_mod (Z.of_nat i) 24 ltac:(lia)) as D2.
  pose proof (Z.mod_pos_bound (Z.of_nat (S i)) 24 ltac:(lia)) as B1.
  pose proof (Z.mod_pos_bound (Z.of_nat i) 24 ltac:(lia)) as B2.
  destruct (Z.eqb_spec (Z.of_nat (S i) mod 24) 0) as [Hm | Hm].
  - f_equal. lia.
  - rewrite Hstep by (lia || by apply Z.eqb_neq). rewrite IH by lia. f_equal.
    assert (Z.of_nat (S i) mod 24 = Z.of_nat i mod 24 + 1); [| lia].
    assert (Z.of_nat (S i) / 24 = Z.of_nat i / 24) by nia.
    lia.
Qed.

(** ** The lengths of the episodes *)

Lemma sequences_loop_lengths fuel : forall remaining sequences w out w',
  sequences_loop fuel remaining sequences w = Ok out w' ->
  Forall (fun l => 1 <= l <= 48) sequences ->
  Forall (fun l => 1 <= l <= 48) out /\
  sum_Z (map short out) <= sum_Z (map short sequences) + 1.
Proof.
  induction fuel as [| fuel IH]; intros remaining acc w out w'; simpl;
    destruct (Z.ltb_spec 0 remaining) as [Hpos | Hle]; try discriminate.
  - intros [= <- _] Hacc. split; [exact Hacc | lia].
  - intros H Hacc. apply bind_ok in H as (r & w1 & E1 & H). apply randint_spec in E1.
    assert (Hnew : Forall (fun l => 1 <= l <= 48) (acc ++ [Z.min r remaining])).
    { apply Forall_app. split; [exact Hacc |]. apply Forall_singleton. lia. }
    destruct (Z.le_gt_cases 6 (Z.min r remaining)) as [Hlong | Hshort].
    + apply IH in H as [Hall Hsum]; [| exact Hnew]. split; [exact Hall |].
      rewrite map_app, sum_Z_app in Hsum. unfold short at 3 in Hsum. simpl in Hsum.
      destruct (Z.ltb_spec (Z.min r remaining) 6); [lia |]. simpl in Hsum. lia.
    + assert (Hrem : remaining - Z.min r remaining = 0) by lia.
      rewrite Hrem in H.
      assert (Hout : out = acc ++ [Z.min r remaining]).
      { destruct fuel; simpl in H; by injection H as <- _. }
      subst out. split; [exact Hnew |].
      rewrite map_app, sum_Z_app. unfold short at 2. simpl.
      destruct (Z.ltb_spec (Z.min r remaining) 6); simpl; lia.
  - intros [= <- _] Hacc. split; [exact Hacc | lia].
Qed.

Lemma swap_map {A B} (f : A -> B) (x : list A) i j :
  map f (swap x i j) = swap (map f x) i j.
Proof.
  unfold swap. rewrite !list_lookup_fmap.
  destruct (x !! i) as [a |]; [| done]. destruct (x !! j) as [b |]; [| done].
  simpl. by rewrite !list_fmap_insert.
Qed.

Lemma shuffle_from_short i : forall (x : list Z) w y w',
  shuffle_from i x w = Ok y w' ->
  sum_Z (map short y) = sum_Z (map short x) /\
  (forall P : Z -> Prop, Forall P x -> Forall P y).
Proof.
  induction i as [| i IH]; intros x w y w'; simpl.
  - intros [= <- _]. auto.
  - intros H. apply bind_ok in H as (j & w1 & _ & H).
    apply IH in H as [Hsum Hall]. split.
    + by rewrite Hsum, swap_map, swap_sum.
    + intros P HP. apply Hall, swap_Forall, HP.
Qed.

(** The episode lengths handed to the placement loop are lengths of 1 to 48
    hours, and at most one of them is below 6. *)
Lemma draw_sequences_lengths n p w sequences w' :
  draw_sequences n p w = Ok sequences w' ->
  Forall (fun l => 1 <= l <= 48) sequences /\ sum_Z (map short sequences) <= 1.
Proof.
  unfold draw_sequences. destruct (total_anomaly_hours n p) as [total |]; [| discriminate].
  intros H. apply bind_ok in H as (out & w1 & E1 & H).
  apply sequences_loop_lengths in E1 as [Hall Hsum]; [| constructor].
  apply shuffle_from_short in H as [Hs Hp]. rewrite Hs.
  case_bool_decide as Hlen.
  - split; [apply Hp, Forall_singleton; lia | vm_compute; discriminate].
  - split; [by apply Hp | exact Hsum].
Qed.

Lemma sum_Z_cons x l : sum_Z (x :: l) = x + sum_Z l.
Proof. reflexivity. Qed.

Lemma short_bounds x : 0 <= short x <= 1 /\ (x < 6 -> short x = 1).
Proof. unfold short. destruct (Z.ltb_spec x 6); lia. Qed.

Lemma short_nonneg (l : list Z) : 0 <= sum_Z (map short l).
Proof.
  induction l as [| x l IH]; [done |].
  rewrite map_cons, sum_Z_cons. pose proof (short_bounds x). lia.
Qed.

Lemma short_once (l : list Z) : forall i a,
  l !! i = Some a -> a < 6 -> 1 <= sum_Z (map short l).
Proof.
  induction l as [| x l IH]; intros [| i] a Ha Hlt; simpl in Ha; try discriminate;
    rewrite map_cons, sum_Z_cons.
  - injection Ha as ->. pose proof (short_bounds a). pose proof (short_nonneg l). lia.
  - pose proof (IH i a Ha Hlt). pose proof (short_bounds x). lia.
Qed.

Lemma short_twice (l : list Z) : forall i j a b,
  i <> j -> l !! i = Some a -> l !! j = Some b -> a < 6 -> b < 6 ->
  2 <= sum_Z (map short l).
Proof.
  induction l as [| x l IH]; intros [| i] [| j] a b Hij Ha Hb Hla Hlb;
    simpl in Ha, Hb; try discriminate; try lia;
    rewrite map_cons, sum_Z_cons.
  - injection Ha as ->. pose proof (short_once l j b Hb Hlb).
    pose proof (short_bounds a). lia.
  - injection Hb as ->. pose proof (short_once l i a Ha Hla).
    pose proof (short_bounds b). lia.
  - assert (Hij' : i <> j) by lia.
    pose proof (IH i j a b Hij' Ha Hb Hla Hlb). pose proof (short_bounds x). lia.
Qed.

(** The lengths of the episodes placed are those drawn, in order. *)
Lemma pipeline_trace_sequences fuel n p w df placed w' :
  pipeline_trace fuel n p w = Ok (df, placed) w' ->
  exists df2 w2 w3,
    draw_sequences (len df2) p w2 = Ok (map snd placed) w3.
Proof.
  intros H. apply pipeline_trace_stages in H
    as (df1 & w1 & df2 & w2 & _ & _ & H & _ & Hn & Hf & Hh).
  unfold introduce_anomalies_trace in H.
  apply bind_ok in H as (sequences & w3 & Es & H).
  assert (Hpos := Es). apply draw_sequences_spec in Hpos as (_ & _ & _ & Hpos).
  apply place_episodes_inv in H as [_ Hsnd];
    [| apply placement_inv_nil; by rewrite Hn | exact Hpos].
  simpl in Hsnd. rewrite Hsnd. by exists df2, w2, w3.
Qed.

(** X11. In a run that completed, every episode placed lasts 1 to 48 hours,
    and at most one of them lasts less than 6 hours (the one that takes
    what is left of the budget). *)
Theorem episode_lengths fuel n p w df placed w' :
  pipeline_trace fuel n p w = Ok (df, placed) w' ->
  (forall s l, (s, l) ∈ placed -> 1 <= l <= 48) /\
  (forall i j a b, placed !! i = Some a -> placed !! j = Some b ->
     snd a < 6 -> snd b < 6 -> i = j).
Proof.
  intros H. apply pipeline_trace_sequences in H as (df2 & w2 & w3 & Es).
  apply draw_sequences_lengths in Es as [Hall Hsum]. split.
  - intros s l Hm. rewrite Forall_forall in Hall. apply (Hall l).
    apply list_elem_of_fmap. by exists (s, l).
  - intros i j a b Ha Hb Hla Hlb.
    destruct (decide (i = j)) as [Heq | Hne]; [exact Heq | exfalso].
    pose proof (short_twice (map snd placed) i j (snd a) (snd b) Hne) as H2.
    rewrite !list_lookup_fmap, Ha, Hb in H2.
    specialize (H2 eq_refl eq_refl Hla Hlb). lia.
Qed.

(** ** The sensor columns and the seeded stream *)

Lemma normal_vec_spec loc scale n : forall w xs w',
  normal_vec loc scale n w = Ok xs w' ->
  py w' = py w /\ np_gauss (np w') = np_gauss (np w) /\
  np_pos (np w') = (np_pos (np w) + n)%nat /\
  length xs = n /\
  forall i, (i < n)%nat ->
    xs !! i = Some (loc + scale * np_gauss (np w) (np_pos (np w) + i))%float.
Proof.
  induction n as [| n IH]; intros w xs w'; simpl.
  - intros [= <- <-]. repeat split; try done; try lia.
  - intros H. apply bind_ok in H as (x & w1 & Ex & H).
    apply bind_ok in H as (xs' & w2 & E & H). injection H as <- <-.
    unfold normal, gauss, bind, ret in Ex. injection Ex as <- <-.
    apply IH in E as (Hpy & Hg & Hp & Hl & Hcells). simpl in *.
    split; [done |]. split; [done |]. split; [lia |]. split; [by rewrite Hl |].
    intros [| i] Hi; simpl.
    + by rewrite Nat.add_0_r.
    + rewrite Hcells by lia. do 4 f_equal. lia.
Qed.

(** Column number [k] of [sensor_baselines] holds the variates number
    [k * n .. k * n + n - 1] that numpy's generator hands out from the start
    of the call, scaled. *)
Lemma generate_normal_data_sensors n w df w' :
  generate_normal_data n w = Ok df w' ->
  forall k name mu sigma,
    sensor_baselines !! k = Some (name, (mu, sigma)) ->
    exists col, measurements df !! name = Some col /\ length col = n /\
      forall i, (i < n)%nat ->
        col !! i = Some (mu + sigma * np_gauss (np w) (np_pos (np w) + k * n + i))%float.
Proof.
  intros H. open_generate_normal_data H n.
  apply bind_ok in H as (c1 & w1 & E1 & H).
  apply normal_vec_spec in E1 as (_ & G1 & P1 & L1 & C1).
  apply bind_ok in H as (c2 & w2 & E2 & H).
  apply normal_vec_spec in E2 as (_ & G2 & P2 & L2 & C2).
  apply bind_ok in H as (c3 & w3 & E3 & H).
  apply normal_vec_spec in E3 as (_ & G3 & P3 & L3 & C3).
  apply bind_ok in H as (c4 & w4 & E4 & H).
  apply normal_vec_spec in E4 as (_ & G4 & P4 & L4 & C4).
  apply bind_ok in H as (c5 & w5 & E5 & H).
  apply normal_vec_spec in E5 as (_ & G5 & P5 & L5 & C5).
  apply bind_ok in H as (c6 & w6 & E6 & H).
  apply normal_vec_spec in E6 as (_ & G6 & P6 & L6 & C6).
  apply bind_ok in H as (c7 & w7 & E7 & H).
  apply normal_vec_spec in E7 as (_ & G7 & P7 & L7 & C7).
  apply bind_ok in H as (c8 & w8 & E8 & H).
  apply normal_vec_spec in E8 as (_ & G8 & P8 & L8 & C8).
  destruct (map Z.of_nat (seq 0 n) !! 0%nat) as [t0 |]; [| discriminate].
  apply bind_ok in H as (h & w9 & _ & H).
  apply bind_ok in H as (r & w10 & _ & H).
  apply bind_ok in H as (tool & w11 & _ & H).
  injection H as <- _. simpl.
  rewrite G7, G6, G5, G4, G3, G2, G1 in C8. rewrite G6, G5, G4, G3, G2, G1 in C7.
  rewrite G5, G4, G3, G2, G1 in C6. rewrite G4, G3, G2, G1 in C5.
  rewrite G3, G2, G1 in C4. rewrite G2, G1 in C3. rewrite G1 in C2.
  intros k name mu sigma Hk.
  do 8 (destruct k as [| k];
        [injection Hk as <- <- <-;
         rewrite ?lookup_insert_ne by done; rewrite lookup_insert_eq;
         eexists; split; [reflexivity |]; split; [assumption |];
         intros i Hi;
         first [ rewrite C1 by done | rewrite C2 by done | rewrite C3 by done
               | rewrite C4 by done | rewrite C5 by done | rewrite C6 by done
               | rewrite C7 by done | rewrite C8 by done ];
         do 4 f_equal; lia |]).
  discriminate.
Qed.

(** X12. In the table that leaves [generate_normal_data], cell [i] of the
    [k]-th sensor column (in the order in which the dict is built) is
    [loc + scale * z], for [z] the variate number [k * n_samples + i] that
    numpy's generator hands out from the start of the call: the eight
    columns consume the seeded stream one after the other. *)
Theorem sensor_columns_from_stream n w df w' :
  generate_normal_data n w = Ok df w' ->
  forall k name mu sigma,
    sensor_baselines !! k = Some (name, (mu, sigma)) ->
    forall i, (i < n)%nat ->
      loc df name i =
        Some (mu + sigma * np_gauss (np w) (np_pos (np w) + k * n + i))%float.
Proof.
  intros H k name mu sigma Hk i Hi.
  destruct (generate_normal_data_sensors _ _ _ _ H k name mu sigma Hk)
    as (col & Ec & _ & Hcells).
  unfold loc. rewrite Ec. by apply Hcells.
Qed.

(** X13. Two calls of [generate_normal_data] that start from the same state
    of numpy's generator return the same eight sensor columns, whatever
    Python's [random] module draws: these columns are what the seed fixes. *)
Theorem sensor_columns_fixed_by_seed n w1 w2 df1 w1' df2 w2' :
  np w1 = np w2 ->
  generate_normal_data n w1 = Ok df1 w1' ->
  generate_normal_data n w2 = Ok df2 w2' ->
  forall name, name ∈ map fst sensor_baselines ->
    measurements df1 !! name = measurements df2 !! name.
Proof.
  intros Hnp H1 H2 name Hin.
  apply list_elem_of_fmap in Hin as ([name' [mu sigma]] & -> & Hin).
  apply list_elem_of_lookup_1 in Hin as [k Hk]. simpl.
  destruct (generate_normal_data_sensors _ _ _ _ H1 k name' mu sigma Hk)
    as (c1 & E1 & L1 & C1).
  destruct (generate_normal_data_sensors _ _ _ _ H2 k name' mu sigma Hk)
    as (c2 & E2 & L2 & C2).
  rewrite E1, E2. f_equal. apply list_eq. intros i.
  destruct (decide (i < n)%nat) as [Hi | Hi].
  - rewrite C1, C2 by done. by rewrite Hnp.
  - rewrite !lookup_ge_None_2 by lia. reflexivity.
Qed.

(** ** The columns that no anomaly touches *)

Lemma catalog_no_hours ty cfg :
  dict_get anomaly_types ty = Some cfg ->
  dict_get cfg "machine_hours_today" = None.
Proof.
  unfold anomaly_types, dict_get at 1.
  repeat (destruct (String.eqb _ ty); [by intros [= <-] |]).
  discriminate.
Qed.

(** X14. In a run that completed, [introduce_anomalies] has left four
    columns as the earlier stages wrote them, on every row: [timestamp],
    [total_machine_hours] and [machine_hours_today] are those of
    [generate_normal_data], and [days_to_maintenance] is that of
    [generate_health_and_maintenance]. *)
Theorem columns_never_perturbed fuel n p w df placed w' :
  pipeline_trace fuel n p w = Ok (df, placed) w' ->
  exists df1 w1 df2 w2,
    generate_normal_data n w = Ok df1 w1 /\
    generate_health_and_maintenance df1 w1 = Ok df2 w2 /\
    timestamp df = timestamp df1 /\
    total_machine_hours df = total_machine_hours df1 /\
    days_to_maintenance df = days_to_maintenance df2 /\
    measurements df !! "machine_hours_today"%string =
      measurements df1 !! "machine_hours_today"%string.
Proof.
  intros H. assert (Hinv := H). apply pipeline_trace_inv in Hinv as (Hlen & Hinv & _).
  apply pipeline_trace_rows in H
    as (df1 & w1 & df2 & w2 & E1 & E2 & Hn & Hm & Hf & Hty & Hsev & Hh & K & W).
  destruct (generate_health_and_maintenance_spec _ _ _ _ E2)
    as (_ & _ & _ & _ & _ & _ & _ & _ & _ & Hts2 & Htot2 & _).
  exists df1, w1, df2, w2. split; [exact E1 |]. split; [exact E2 |].
  destruct K as (A1 & A2 & A3 & _ & _ & _ & _ & A8 & A9).
  split; [congruence |]. split; [congruence |]. split; [exact A3 |].
  specialize (A8 "machine_hours_today"%string). rewrite Hm in A8.
  assert (Hcells : forall t, loc df "machine_hours_today" t = loc df1 "machine_hours_today" t).
  { intros t.
    destruct (is_anomaly df !! t) as [x |] eqn:Ex.
    - destruct (inv_flags _ _ Hinv t x Ex) as [[_ (s & l & Hin & Ht)] | [_ Hout]].
      + destruct (W s l Hin) as (ty & cfg & pr & si & Ecfg & _ & _ & Hrow).
        destruct (Hrow t Ht) as (_ & _ & z & sev & _ & _ & _ & R7).
        rewrite R7. unfold scaled. rewrite (catalog_no_hours ty cfg Ecfg).
        assert (Hl2 : loc df2 "machine_hours_today" t = loc df1 "machine_hours_today" t)
          by (unfold loc; by rewrite Hm).
        rewrite Hl2. by destruct (loc df1 "machine_hours_today" t).
      + rewrite A9 by done. unfold loc. by rewrite Hm.
    - apply lookup_ge_None_1 in Ex. rewrite (inv_flags_len _ _ Hinv), Hlen in Ex.
      unfold loc.
      destruct (measurements df !! "machine_hours_today"%string) as [c |] eqn:Ec,
               (measurements df1 !! "machine_hours_today"%string) as [c1 |] eqn:Ec1;
        simpl in A8; try discriminate; [| done].
      injection A8 as A8.
      destruct (generate_normal_data_columns _ _ _ _ E1) as (_ & _ & Hcols).
      specialize (Hcols "machine_hours_today"%string).
      rewrite bool_decide_eq_true_2 in Hcols
        by (apply (bool_decide_unpack _); vm_compute; exact I).
      destruct Hcols as (c1' & Ec1' & Hl1). rewrite Ec1 in Ec1'. injection Ec1' as <-.
      rewrite !lookup_ge_None_2 by lia. reflexivity. }
  unfold loc in Hcells.
  destruct (measurements df !! "machine_hours_today"%string) as [c |],
           (measurements df1 !! "machine_hours_today"%string) as [c1 |];
    simpl in A8; try discriminate; [| done].
  f_equal. apply list_eq. exact Hcells.
Qed.

(** ** The exceptions of the script *)

Lemma place_episode_raise fuel df seq_length w e :
  length (machine_health_score df) = len df ->
  place_episode fuel df seq_length w = Raise e -> e = ValueError.
Proof.
  intros Hh. unfold place_episode.
  destruct (choice_catalog w) as (ty & cfg & w1 & E1 & Ecfg).
  rewrite (bind_run _ _ _ _ _ E1), Ecfg.
  destruct (catalog_meta ty cfg Ecfg) as (pr & si & Epr & Esi).
  intros H. apply bind_raise in H as [H | (s0 & w2 & E0 & H)].
  { by apply randint_raise in H as [-> _]. }
  apply randint_spec in E0.
  apply bind_raise in H as [H | (s & w3 & Es & H)].
  { by apply redraw_start_raise in H as [-> _]. }
  apply redraw_start_spec in Es as [_ Hs].
  assert (Hin : 48 <= s <= Z.of_nat (len df) - seq_length - 48)
    by (destruct Hs as [-> | Hs]; lia).
  rewrite Epr, Esi in H.
  destruct (for_each_ticks_returns ty cfg pr si s seq_length (range seq_length) df w3 Hh)
    as (df' & w4 & Ef).
  { apply Forall_forall. intros i Hi. apply elem_of_range in Hi. lia. }
  rewrite (bind_run _ _ _ _ _ Ef) in H. discriminate H.
Qed.

Lemma place_episodes_raise fuel : forall sequences df placed w e,
  length (machine_health_score df) = len df ->
  place_episodes fuel sequences df placed w = Raise e -> e = ValueError.
Proof.
  induction sequences as [| l rest IH]; intros df placed w e Hh; [discriminate |].
  rewrite place_episodes_cons. intros H.
  apply bind_raise in H as [H | ([df1 e1] & w1 & E1 & H)].
  - by apply (place_episode_raise _ _ _ _ _ Hh) in H.
  - simpl in H. apply place_episode_spec in E1
      as (s & _ & _ & _ & Hts & _ & _ & _ & Hhl & _).
    apply IH in H; [exact H |]. unfold len. by rewrite Hhl, Hts.
Qed.

(** X15. The exceptions the script can end with: the [IndexError] of
    [data["timestamp"][0]] on an empty table; the [OverflowError] of
    [start_date + timedelta(hours=i)] when a row lies past the last hour of
    year 9999; and on any other table the exception of
    [int(total_hours * anomaly_percentage)] when the product is a NaN
    ([ValueError]) or an infinity ([OverflowError]), or else the
    [ValueError] of [randint] on an empty range.  The second stage never
    raises, and the dict and column lookups of the anomaly loop never raise
    [KeyError]. *)
Theorem script_exceptions fuel n p w e :
  pipeline_trace fuel n p w = Raise e ->
  (n = 0%nat /\ e = IndexError) \/
  (69907392 < Z.of_nat n /\ e = OverflowError) \/
  ((0 < n)%nat /\ Z.of_nat n <= 69907392 /\
   match int (float_of_Z (Z.of_nat n) * p)%float with
   | Throws e' => e = e'
   | Value _ => e = ValueError
   end).
Proof.
  unfold pipeline_trace. destruct n as [| n].
  { unfold bind. rewrite generate_normal_data_empty. intros [= <-]. by left. }
  intros H. right.
  destruct (Z.le_gt_cases (Z.of_nat (S n) - 1) last_hour) as [Hlast | Hlast].
  2: { left. split; [unfold last_hour in Hlast; lia |]. unfold bind in H.
       rewrite (generate_normal_data_overflow (S n) w) in H by lia. by injection H as <-. }
  right. split; [lia |]. split; [unfold last_hour in Hlast; lia |].
  destruct (generate_normal_data_spec (S n) w ltac:(lia) Hlast)
    as (df1 & w1 & tool & r & wa & wb & E1 & _ & _ & _ & _ & Hts).
  rewrite (bind_run _ _ _ _ _ E1) in H.
  destruct (generate_health_and_maintenance_returns _ _ _ _ w1 E1) as (df2 & w2 & E2).
  rewrite (bind_run _ _ _ _ _ E2) in H.
  destruct (generate_health_and_maintenance_spec _ _ _ _ E2)
    as (pts & wc & hs & noise & _ & El & En & Hh & _ & Hts2 & _).
  apply health_loop_spec in El as (Hlh & _); [| by rewrite length_replicate ..].
  apply normal_vec_length in En.
  assert (Hn2 : len df2 = S n).
  { unfold len. by rewrite Hts2, Hts, length_map, length_seq. }
  assert (Hlen : length (machine_health_score df2) = len df2).
  { rewrite Hh. unfold add_noise_and_clip, len.
    rewrite length_map, length_zip_with, Hlh, En, Hts2. unfold len. lia. }
  unfold introduce_anomalies_trace in H. rewrite Hn2 in H.
  pose proof (draw_sequences_outcome (S n) p w2) as E3.
  destruct (int _) as [budget | e'].
  - destruct E3 as (l & rest & w3 & E3 & _).
    rewrite (bind_run _ _ _ _ _ E3) in H.
    by apply (place_episodes_raise _ _ _ _ _ _ Hlen) in H.
  - unfold bind in H. rewrite E3 in H. by injection H as <-.
Qed.


(** ** More example runs *)

(** X1 on the run of 300 rows. *)
Lemma rows_outside_episodes_kept_run_300 :
  exists df w', run_300 = Ok (df, [(48, 7); (148, 8)]) w' /\
  exists df1 w1 df2 w2,
    generate_normal_data 300
      (boot still (draws [(318%nat, 2); (319%nat, 1); (325%nat, 100)])) = Ok df1 w1 /\
    generate_health_and_maintenance df1 w1 = Ok df2 w2 /\
    forall t, (t < 300)%nat -> ~ covered [(48, 7); (148, 8)] (Z.of_nat t) ->
      is_anomaly df !! t = Some 0 /\
      anomaly_type df !! t = Some "normal"%string /\
      anomaly_severity df !! t = Some 0%float /\
      machine_health_score df !! t = machine_health_score df2 !! t /\
      forall name, loc df name t = loc df1 name t.
Proof.
  destruct run_300_returns as (df & w' & E). exists df, w'.
  split; [exact E |].
  exact (rows_outside_episodes_kept _ _ _ _ _ _ _ E).
Defined.

(** X2 on the run of 300 rows. *)
Lemma episode_rows_labelled_run_300 :
  exists df w', run_300 = Ok (df, [(48, 7); (148, 8)]) w' /\
  forall s l, (s, l) ∈ [(48, 7); (148, 8)] ->
    exists ty cfg pr,
      dict_get anomaly_types ty = Some cfg /\
      dict_get cfg "progression_rate" = Some pr /\
      forall t, s <= Z.of_nat t < s + l ->
        is_anomaly df !! t = Some 1 /\
        anomaly_type df !! t = Some ty /\
        exists z sev,
          anomaly_severity df !! t = Some sev /\
          sev = py_max 0.1 (py_min 1.0 (float_of_Z (Z.of_nat t - s) / float_of_Z l * pr
                                        + (0 + 0.05 * z)))%float /\
          PrimFloat.leb 0.1 sev = true /\ PrimFloat.leb sev 1 = true.
Proof.
  destruct run_300_returns as (df & w' & E). exists df, w'.
  split; [exact E |].
  exact (episode_rows_labelled _ _ _ _ _ _ _ E).
Defined.

(** X3 on the run of 300 rows. *)
Lemma episode_rows_health_penalty_run_300 :
  exists df w', run_300 = Ok (df, [(48, 7); (148, 8)]) w' /\
  exists df1 w1 df2 w2,
    generate_normal_data 300
      (boot still (draws [(318%nat, 2); (319%nat, 1); (325%nat, 100)])) = Ok df1 w1 /\
    generate_health_and_maintenance df1 w1 = Ok df2 w2 /\
    forall s l, (s, l) ∈ [(48, 7); (148, 8)] ->
      exists ty cfg si,
        dict_get anomaly_types ty = Some cfg /\
        dict_get cfg "severity_impact" = Some si /\
        forall t, s <= Z.of_nat t < s + l ->
          anomaly_type df !! t = Some ty /\
          exists sev h,
            anomaly_severity df !! t = Some sev /\
            machine_health_score df2 !! t = Some h /\
            machine_health_score df !! t =
              Some (py_max 0 (py_min 100 (h + -50 * sev * si)%float)).
Proof.
  destruct run_300_returns as (df & w' & E). exists df, w'.
  split; [exact E |].
  exact (episode_rows_health_penalty _ _ _ _ _ _ _ E).
Defined.

(** X4 on the run of 300 rows. *)
Lemma episode_rows_measurements_run_300 :
  exists df w', run_300 = Ok (df, [(48, 7); (148, 8)]) w' /\
  exists df1 w1,
    generate_normal_data 300
      (boot still (draws [(318%nat, 2); (319%nat, 1); (325%nat, 100)])) = Ok df1 w1 /\
    forall s l, (s, l) ∈ [(48, 7); (148, 8)] ->
      exists ty cfg,
        dict_get anomaly_types ty = Some cfg /\
        forall t, s <= Z.of_nat t < s + l ->
          anomaly_type df !! t = Some ty /\
          exists sev,
            anomaly_severity df !! t = Some sev /\
            forall name x, loc df1 name t = Some x ->
              loc df name t =
                Some match dict_get cfg name with
                     | Some multiplier => (x * (1.0 + (multiplier - 1.0) * sev))%float
                     | None => x
                     end.
Proof.
  destruct run_300_returns as (df & w' & E). exists df, w'.
  split; [exact E |].
  exact (episode_rows_measurements _ _ _ _ _ _ _ E).
Defined.

(** X5 on the run of 300 rows. *)
Lemma table_shape_run_300 :
  exists df w', run_300 = Ok (df, [(48, 7); (148, 8)]) w' /\
  timestamp df = map Z.of_nat (seq 0 300) /\
  length (total_machine_hours df) = 300%nat /\
  length (machine_health_score df) = 300%nat /\
  length (days_to_maintenance df) = 300%nat /\
  length (is_anomaly df) = 300%nat /\
  length (anomaly_type df) = 300%nat /\
  length (anomaly_severity df) = 300%nat /\
  forall name,
    if bool_decide (name ∈ measurement_columns)
    then exists col, measurements df !! name = Some col /\ length col = 300%nat
    else measurements df !! name = None.
Proof.
  destruct run_300_returns as (df & w' & E). exists df, w'.
  split; [exact E |].
  exact (table_shape _ _ _ _ _ _ _ E).
Defined.

(** X7 on the run of 602 rows. *)
Lemma health_pass_floor_run_602 :
  exists df w', run_602 = Ok (df, [(48, 6)]) w' /\
  exists df1 w1 pts w2 hs,
    generate_normal_data 602 (boot still (draws [])) = Ok df1 w1 /\
    draw_maintenance_points w1 = Ok pts w2 /\
    health_loop pts (total_machine_hours df1) 602 0 100
      (replicate 602 0%float) (replicate 602 0) = Value (hs, days_to_maintenance df) /\
    hs !! 0%nat = Some 100%float /\
    (forall t h, hs !! t = Some h -> PrimFloat.leb 20 h = true) /\
    (forall t d, days_to_maintenance df !! t = Some d -> 0 <= d).
Proof.
  destruct run_602_returns as (df & w' & E). exists df, w'.
  split; [exact E |].
  exact (health_pass_floor _ _ _ _ _ _ _ E).
Defined.

(** X9 on the run of 602 rows: the budget is [int(602 * 0.01) = 6]. *)
Lemma single_episode_always_placed_run_602 :
  exists df start_pos w',
    run_602 = Ok (df, [(start_pos, 6)]) w' /\
    48 <= start_pos <= Z.of_nat 602 - 6 - 48.
Proof.
  destruct run_602_returns as (df0 & w0 & E).
  destruct (pipeline_trace_stages _ _ _ _ _ _ _ E)
    as (df1 & w1 & df2 & w2 & E1 & E2 & _).
  refine (single_episode_always_placed 0 602 0.01 _ df1 w1 df2 w2 6 E1 E2 _ _ _).
  - vm_compute. reflexivity.
  - lia.
  - lia.
Defined.

(** X10 on a table of 30 rows. *)
Lemma machine_hours_today_per_day_30_rows :
  exists df w', generate_normal_data 30 (boot still (draws [])) = Ok df w' /\
  exists col, measurements df !! "machine_hours_today"%string = Some col /\
    length col = 30%nat /\
    (forall i, (i < 30)%nat -> col !! i = col !! (i - i mod 24)%nat) /\
    (forall i x, col !! i = Some x ->
       exists k, x = (6 + (15 - 6) * random_of_bits k)%float).
Proof.
  destruct (generate_normal_data_spec 30 (boot still (draws [])) ltac:(lia) ltac:(vm_compute; discriminate))
    as (df & w' & tool & r & w1 & w2 & E & _).
  exists df, w'. split; [exact E |].
  exact (machine_hours_today_per_day _ _ _ _ E).
Defined.

(** X11 on the run of 300 rows. *)
Lemma episode_lengths_run_300 :
  exists df w', run_300 = Ok (df, [(48, 7); (148, 8)]) w' /\
  (forall s l, (s, l) ∈ [(48, 7); (148, 8)] -> 1 <= l <= 48) /\
  (forall i j a b, [(48, 7); (148, 8)] !! i = Some a -> [(48, 7); (148, 8)] !! j = Some b ->
     snd a < 6 -> snd b < 6 -> i = j).
Proof.
  destruct run_300_returns as (df & w' & E). exists df, w'.
  split; [exact E |].
  exact (episode_lengths _ _ _ _ _ _ _ E).
Defined.

(** X12 on a table of 30 rows. *)
Lemma sensor_columns_from_stream_30_rows :
  exists df w', generate_normal_data 30 (boot still (draws [])) = Ok df w' /\
  forall k name mu sigma,
    sensor_baselines !! k = Some (name, (mu, sigma)) ->
    forall i, (i < 30)%nat ->
      loc df name i =
        Some (mu + sigma * np_gauss (np (boot still (draws [])))
                             (np_pos (np (boot still (draws []))) + k * 30 + i))%float.
Proof.
  destruct (generate_normal_data_spec 30 (boot still (draws [])) ltac:(lia) ltac:(vm_compute; discriminate))
    as (df & w' & tool & r & w1 & w2 & E & _).
  exists df, w'. split; [exact E |].
  exact (sensor_columns_from_stream _ _ _ _ E).
Defined.

(** X13 on two tables of 30 rows, one drawn with all raw outputs 0 and one
    with the stream [lcg], from the same stream of numpy. *)
Lemma sensor_columns_fixed_by_seed_30_rows :
  exists df1 w1 df2 w2,
    generate_normal_data 30 (boot still (draws [])) = Ok df1 w1 /\
    generate_normal_data 30 (boot still lcg) = Ok df2 w2 /\
    forall name, name ∈ map fst sensor_baselines ->
      measurements df1 !! name = measurements df2 !! name.
Proof.
  destruct (generate_normal_data_spec 30 (boot still (draws [])) ltac:(lia) ltac:(vm_compute; discriminate))
    as (df1 & w1 & tool1 & r1 & wa1 & wb1 & E1 & _).
  destruct (generate_normal_data_spec 30 (boot still lcg) ltac:(lia) ltac:(vm_compute; discriminate))
    as (df2 & w2 & tool2 & r2 & wa2 & wb2 & E2 & _).
  exists df1, w1, df2, w2. split; [exact E1 |]. split; [exact E2 |].
  refine (sensor_columns_fixed_by_seed 30 _ _ _ _ _ _ _ E1 E2).
  vm_compute. reflexivity.
Defined.

(** X14 on the run of 300 rows. *)
Lemma columns_never_perturbed_run_300 :
  exists df w', run_300 = Ok (df, [(48, 7); (148, 8)]) w' /\
  exists df1 w1 df2 w2,
    generate_normal_data 300
      (boot still (draws [(318%nat, 2); (319%nat, 1); (325%nat, 100)])) = Ok df1 w1 /\
    generate_health_and_maintenance df1 w1 = Ok df2 w2 /\
    timestamp df = timestamp df1 /\
    total_machine_hours df = total_machine_hours df1 /\
    days_to_maintenance df = days_to_maintenance df2 /\
    measurements df !! "machine_hours_today"%string =
      measurements df1 !! "machine_hours_today"%string.
Proof.
  destruct run_300_returns as (df & w' & E). exists df, w'.
  split; [exact E |].
  exact (columns_never_perturbed _ _ _ _ _ _ _ E).
Defined.

Lemma run_96_raises :
  pipeline_trace 0 96 0.15 (boot still (draws [])) = Raise ValueError.
Proof. vm_compute. reflexivity. Qed.

(** X15 on a table of 96 rows, whose run ends with [ValueError]. *)
Lemma script_exceptions_96_rows :
  (96%nat = 0%nat /\ ValueError = IndexError) \/
  (69907392 < Z.of_nat 96 /\ ValueError = OverflowError) \/
  ((0 < 96)%nat /\ Z.of_nat 96 <= 69907392 /\
   match int (float_of_Z (Z.of_nat 96) * 0.15)%float with
   | Throws e' => ValueError = e'
   | Value _ => ValueError = ValueError
   end).
Proof. exact (script_exceptions 0 96 0.15 (boot still (draws [])) ValueError run_96_raises). Defined.

(** ** The multiplier 1.0 of [tool_usage_min] *)

(** Multiplying a float by 1.0 gives the float back, whatever it is. *)
Lemma mul_one_r x : (x * 1.0)%float = x.
Proof.
  apply Prim2SF_inj. rewrite FloatAxioms.mul_spec.
  pose proof (FloatAxioms.Prim2SF_valid x) as Hv.
  change (Prim2SF 1.0) with (S754_finite false 4503599627370496 (-52)).
  destruct (Prim2SF x) as [s | s | | s m e]; unfold SF64mul, SFmul.
  - by destruct s.
  - by destruct s.
  - done.
  - simpl in Hv. apply andb_prop in Hv as [Hc Hb].
    rewrite Pos.mul_comm, Z.add_comm.
    unfold binary_round_aux.
    rewrite (shr_fexp_times_2_52 m e Hc). simpl round_nearest_even.
    rewrite (shr_fexp_canonical m e Hc). simpl shr_m.
    rewrite Hb. by destruct s.
Qed.

(** With the multiplier 1.0 the factor [1.0 + (multiplier - 1.0) * severity]
    is 1.0 for every severity of [0.1 .. 1.0]. *)
Lemma effect_of_multiplier_one severity :
  PrimFloat.leb 0.1 severity = true -> PrimFloat.leb severity 1 = true ->
  (1.0 + (1.0 - 1.0) * severity)%float = 1.0%float.
Proof.
  intros Hlo Hhi.
  assert (H0 : ((1.0 - 1.0) * severity)%float = 0%float).
  { apply Prim2SF_inj. rewrite FloatAxioms.mul_spec.
    rewrite FloatAxioms.leb_spec in Hlo, Hhi.
    change (Prim2SF (1.0 - 1.0)) with (S754_zero false).
    change (Prim2SF 0) with (S754_zero false).
    destruct (Prim2SF severity) as [s | s | | s m e]; try discriminate.
    - by destruct s.
    - destruct s; [discriminate | reflexivity]. }
  rewrite H0. reflexivity.
Qed.

(** No entry of the catalog other than [tool_wear] names [tool_usage_min],
    and [tool_wear] gives it the multiplier 1.0. *)
Lemma catalog_tool_usage ty cfg :
  dict_get anomaly_types ty = Some cfg ->
  dict_get cfg "tool_usage_min" = None \/ dict_get cfg "tool_usage_min" = Some 1.0%float.
Proof.
  unfold anomaly_types, dict_get at 1.
  repeat (destruct (String.eqb _ ty); [intros [= <-]; by (left + right) |]).
  discriminate.
Qed.

(** A measurement column whose cells every entry of the catalog leaves as
    they are is, at the end of a run, the column of [generate_normal_data]. *)
Lemma measurement_column_kept name fuel n p w df placed w' :
  name ∈ measurement_columns ->
  (forall ty cfg severity x,
     dict_get anomaly_types ty = Some cfg ->
     PrimFloat.leb 0.1 severity = true -> PrimFloat.leb severity 1 = true ->
     scaled cfg name severity x = x) ->
  pipeline_trace fuel n p w = Ok (df, placed) w' ->
  exists df1 w1, generate_normal_data n w = Ok df1 w1 /\
    measurements df !! name = measurements df1 !! name.
Proof.
  intros Hname Hsame H.
  assert (Hinv := H). apply pipeline_trace_inv in Hinv as (Hlen & Hinv & _).
  apply pipeline_trace_rows in H
    as (df1 & w1 & df2 & w2 & E1 & E2 & Hn & Hm & Hf & Hty & Hsev & Hh & K & W).
  exists df1, w1. split; [exact E1 |].
  destruct K as (_ & _ & _ & _ & _ & _ & _ & A8 & A9).
  specialize (A8 name). rewrite Hm in A8.
  assert (Hl2 : forall t, loc df2 name t = loc df1 name t)
    by (intros t; unfold loc; by rewrite Hm).
  assert (Hcells : forall t, loc df name t = loc df1 name t).
  { intros t.
    destruct (is_anomaly df !! t) as [x |] eqn:Ex.
    - destruct (inv_flags _ _ Hinv t x Ex) as [[_ (s & l & Hin & Ht)] | [_ Hout]].
      + destruct (W s l Hin) as (ty & cfg & pr & si & Ecfg & _ & _ & Hrow).
        destruct (Hrow t Ht) as (_ & _ & z & sev & -> & _ & _ & R7).
        rewrite R7, Hl2. destruct (loc df1 name t) as [y |]; [| done]. simpl.
        f_equal. apply (Hsame ty); [done | apply severity_in_range ..].
      + by rewrite A9, Hl2.
    - apply lookup_ge_None_1 in Ex. rewrite (inv_flags_len _ _ Hinv), Hlen in Ex.
      destruct (generate_normal_data_columns _ _ _ _ E1) as (_ & _ & Hcols).
      specialize (Hcols name). rewrite bool_decide_eq_true_2 in Hcols by done.
      destruct Hcols as (c1 & Ec1 & Hl1). unfold loc. rewrite Ec1 in A8 |- *.
      destruct (measurements df !! name) as [c |]; [| done].
      injection A8 as A8. rewrite !lookup_ge_None_2 by lia. reflexivity. }
  unfold loc in Hcells.
  destruct (measurements df !! name) as [c |], (measurements df1 !! name) as [c1 |];
    simpl in A8; try discriminate; [| done].
  f_equal. apply list_eq. exact Hcells.
Qed.

(** X16. In a run that completed, [tool_usage_min] is on every row the value
    that [generate_normal_data] wrote: the only entry of the catalog that
    names the column, [tool_wear], gives it the multiplier 1.0, so that the
    factor [1.0 + (multiplier - 1.0) * severity] is 1.0. *)
Theorem tool_usage_min_never_changed fuel n p w df placed w' :
  pipeline_trace fuel n p w = Ok (df, placed) w' ->
  exists df1 w1, generate_normal_data n w = Ok df1 w1 /\
    measurements df !! "tool_usage_min"%string = measurements df1 !! "tool_usage_min"%string.
Proof.
  apply measurement_column_kept.
  - apply (bool_decide_unpack _). vm_compute. exact I.
  - intros ty cfg severity x Ecfg Hlo Hhi. unfold scaled.
    destruct (catalog_tool_usage ty cfg Ecfg) as [-> | ->]; [done |].
    rewrite bool_decide_eq_false_2 by (apply (bool_decide_unpack _); vm_compute; exact I).
    rewrite (effect_of_multiplier_one severity Hlo Hhi). apply mul_one_r.
Qed.

(** X16 on the run of 300 rows. *)
Lemma tool_usage_min_never_changed_run_300 :
  exists df w', run_300 = Ok (df, [(48, 7); (148, 8)]) w' /\
  exists df1 w1,
    generate_normal_data 300
      (boot still (draws [(318%nat, 2); (319%nat, 1); (325%nat, 100)])) = Ok df1 w1 /\
    measurements df !! "tool_usage_min"%string = measurements df1 !! "tool_usage_min"%string.
Proof.
  destruct run_300_returns as (df & w' & E). exists df, w'.
  split; [exact E |].
  exact (tool_usage_min_never_changed _ _ _ _ _ _ _ E).
Defined.

(** ** The number of episodes *)

Lemma lengths_sum_bounds (sequences : list Z) :
  Forall (fun l => 1 <= l <= 48) sequences ->
  sum_Z sequences <= 48 * Z.of_nat (length sequences) /\
  6 * Z.of_nat (length sequences) <= sum_Z sequences + 5 * sum_Z (map short sequences).
Proof.
  induction 1 as [| l rest Hl _ IH]; [done |].
  rewrite map_cons, !sum_Z_cons, length_cons.
  pose proof (short_bounds l) as Hs. unfold short in *.
  destruct (l <? 6) eqn:E; [apply Z.ltb_lt in E | apply Z.ltb_ge in E]; lia.
Qed.

(** X17. In a run that completed, the number of episodes placed is fixed by
    the hours to place up to the draws of the lengths: with [hours] the
    budget [int(n_samples * anomaly_percentage)], or 12 when the budget is
    not positive, it is at least [hours / 48] and at most [(hours + 5) / 6]. *)
Theorem episode_count fuel n p w df placed w' :
  pipeline_trace fuel n p w = Ok (df, placed) w' ->
  exists budget, int (float_of_Z (Z.of_nat n) * p)%float = Value budget /\
    let hours := if 0 <? budget then budget else 12 in
    hours <= 48 * Z.of_nat (length placed) /\
    6 * Z.of_nat (length placed) <= hours + 5.
Proof.
  intros H. assert (Hinv := H).
  apply pipeline_trace_inv in Hinv as (_ & _ & budget & Hb & Hsum).
  apply pipeline_trace_sequences in H as (df2 & w2 & w3 & Hd).
  apply draw_sequences_lengths in Hd as [Hlen Hshort].
  apply lengths_sum_bounds in Hlen as [Hup Hlow].
  rewrite length_map in Hup, Hlow.
  exists budget. split; [exact Hb |]. simpl. rewrite <- Hsum. lia.
Qed.

(** X17 on the run of 300 rows. *)
Lemma episode_count_run_300 :
  exists df w', run_300 = Ok (df, [(48, 7); (148, 8)]) w' /\
    exists budget, int (float_of_Z (Z.of_nat 300) * 0.05)%float = Value budget /\
      let hours := if 0 <? budget then budget else 12 in
      hours <= 48 * Z.of_nat (length [(48, 7); (148, 8)]) /\
      6 * Z.of_nat (length [(48, 7); (148, 8)]) <= hours + 5.
Proof.
  destruct run_300_returns as (df & w' & E). exists df, w'.
  split; [exact E |].
  exact (episode_count _ _ _ _ _ _ _ E).
Defined.

(** ** What the seed of numpy fixes after the sensor columns *)

Lemma py_only_ret {A} (a : A) : py_only (ret a).
Proof. by intros w a' w' [= _ <-]. Qed.

Lemma py_only_raise {A} e : py_only (raise (A := A) e).
Proof. by intros w a w'. Qed.

Lemma py_only_bind {A B} (m : M A) (f : A -> M B) :
  py_only m -> (forall a, py_only (f a)) -> py_only (bind m f).
Proof.
  intros Hm Hf w b w' H. apply bind_ok in H as (a & w1 & E1 & E2).
  rewrite (Hf a _ _ _ E2). exact (Hm _ _ _ E1).
Qed.

Lemma py_only_getrand : py_only getrand.
Proof. by intros w a w' [= _ <-]. Qed.

Lemma py_only_randbelow n : py_only (randbelow n).
Proof.
  unfold randbelow. apply py_only_bind; [apply py_only_getrand | intros; apply py_only_ret].
Qed.

Lemma py_only_uniform a b : py_only (uniform a b).
Proof.
  unfold uniform, random.
  repeat (apply py_only_bind; [| intros ?]); auto using py_only_getrand, py_only_ret.
Qed.

Lemma py_only_randint a b : py_only (randint a b).
Proof.
  unfold randint. destruct (b <? a); [apply py_only_raise |].
  apply py_only_bind; [apply py_only_randbelow | intros; apply py_only_ret].
Qed.

Lemma py_only_choice {A} (d : A) l : py_only (choice d l).
Proof.
  unfold choice. apply py_only_bind; [apply py_only_randbelow | intros; apply py_only_ret].
Qed.

Lemma py_only_shuffle_from {A} i : forall x : list A, py_only (shuffle_from i x).
Proof.
  induction i as [| i IH]; intros x; simpl; [apply py_only_ret |].
  apply py_only_bind; [apply py_only_randbelow | intros; apply IH].
Qed.

Lemma py_only_sequences_loop fuel : forall remaining_hours sequences,
  py_only (sequences_loop fuel remaining_hours sequences).
Proof.
  induction fuel as [| fuel IH]; intros remaining_hours sequences; simpl;
    (destruct (0 <? remaining_hours); [| apply py_only_ret]).
  - by intros w a w'.
  - apply py_only_bind; [apply py_only_randint | intros; apply IH].
Qed.

Lemma py_only_draw_sequences n p : py_only (draw_sequences n p).
Proof.
  unfold draw_sequences. destruct (total_anomaly_hours n p); [| apply py_only_raise].
  apply py_only_bind; [apply py_only_sequences_loop |].
  intros. apply py_only_shuffle_from.
Qed.

Lemma py_only_redraw_start fuel df seq_length : forall start_pos,
  py_only (redraw_start fuel df seq_length start_pos).
Proof.
  induction fuel as [| fuel IH]; intros start_pos; simpl;
    (destruct (overlaps df start_pos seq_length); [| apply py_only_ret]).
  - by intros w a w'.
  - apply py_only_bind; [apply py_only_randint | intros; apply IH].
Qed.

Lemma py_only_usage_loop ts : forall d h c, py_only (usage_loop ts d h c).
Proof.
  induction ts as [| t ts IH]; intros d h c; simpl; [apply py_only_ret |].
  apply py_only_bind; [destruct (negb _); auto using py_only_uniform, py_only_ret |].
  intros h'. apply py_only_bind; [apply IH | intros; apply py_only_ret].
Qed.

Lemma py_only_tool_usage_loop k : forall i tu col, py_only (tool_usage_loop k i tu col).
Proof.
  induction k as [| k IH]; intros i tu col; simpl; [apply py_only_ret |].
  apply py_only_bind; [| intros; apply IH].
  destruct (0 <? i)%nat; [| apply py_only_ret].
  destruct (PrimFloat.ltb 4000 tu); [apply py_only_ret |].
  apply py_only_bind; [apply py_only_uniform | intros; apply py_only_ret].
Qed.

Lemma py_only_draw_maintenance_points : py_only draw_maintenance_points.
Proof.
  assert (Hp : forall i, py_only (maintenance_point i)).
  { intros i. unfold maintenance_point.
    apply py_only_bind; [apply py_only_randint | intros d; cbv zeta].
    apply py_only_bind; [apply py_only_randint | intros; apply py_only_ret]. }
  unfold draw_maintenance_points.
  do 3 (apply py_only_bind; [apply Hp | intros ?]). apply py_only_ret.
Qed.

(** [generate_normal_data] takes the [8 * n_samples] next variates. *)
Lemma generate_normal_data_np n w df w' :
  generate_normal_data n w = Ok df w' ->
  np_gauss (np w') = np_gauss (np w) /\ np_pos (np w') = (np_pos (np w) + 8 * n)%nat.
Proof.
  intros H. open_generate_normal_data H n.
  apply bind_ok in H as (c1 & w1 & E1 & H).
  apply normal_vec_spec in E1 as (_ & G1 & P1 & _).
  apply bind_ok in H as (c2 & w2 & E2 & H).
  apply normal_vec_spec in E2 as (_ & G2 & P2 & _).
  apply bind_ok in H as (c3 & w3 & E3 & H).
  apply normal_vec_spec in E3 as (_ & G3 & P3 & _).
  apply bind_ok in H as (c4 & w4 & E4 & H).
  apply normal_vec_spec in E4 as (_ & G4 & P4 & _).
  apply bind_ok in H as (c5 & w5 & E5 & H).
  apply normal_vec_spec in E5 as (_ & G5 & P5 & _).
  apply bind_ok in H as (c6 & w6 & E6 & H).
  apply normal_vec_spec in E6 as (_ & G6 & P6 & _).
  apply bind_ok in H as (c7 & w7 & E7 & H).
  apply normal_vec_spec in E7 as (_ & G7 & P7 & _).
  apply bind_ok in H as (c8 & w8 & E8 & H).
  apply normal_vec_spec in E8 as (_ & G8 & P8 & _).
  destruct (map Z.of_nat (seq 0 n) !! 0%nat) as [t0 |]; [| discriminate].
  apply bind_ok in H as (h & w9 & Eh & H). apply py_only_uniform in Eh.
  apply bind_ok in H as (r & w10 & Eu & H). apply py_only_usage_loop in Eu.
  apply bind_ok in H as (tool & w11 & Et & H). apply py_only_tool_usage_loop in Et.
  injection H as _ <-. rewrite Et, Eu, Eh. split; [congruence | lia].
Qed.

(** The noise that [generate_health_and_maintenance] adds to the scores is
    made of the [len(df)] next variates. *)
Lemma generate_health_and_maintenance_np df w df' w' :
  generate_health_and_maintenance df w = Ok df' w' ->
  np_gauss (np w') = np_gauss (np w) /\
  np_pos (np w') = (np_pos (np w) + len df)%nat /\
  exists pts w1 hs,
    draw_maintenance_points w = Ok pts w1 /\
    health_loop pts (total_machine_hours df) (len df) 0 100
      (replicate (len df) 0%float) (replicate (len df) 0) = Value (hs, days_to_maintenance df') /\
    length hs = len df /\
    forall t h, hs !! t = Some h ->
      machine_health_score df' !! t =
        Some (clip 0 100 (h + (0 + 1 * np_gauss (np w) (np_pos (np w) + t)))%float).
Proof.
  unfold generate_health_and_maintenance. intros H.
  apply bind_ok in H as (pts & w1 & Ep & H).
  destruct (health_loop _ _ _ _ _ _ _) as [[hs ds] |] eqn:El; [| discriminate].
  apply bind_ok in H as (noise & w2 & En & H). injection H as <- <-.
  assert (Hp := Ep). apply py_only_draw_maintenance_points in Hp.
  apply normal_vec_spec in En as (_ & G & P & L & C). rewrite Hp in G, P, C.
  split; [exact G |]. split; [exact P |].
  exists pts, w1, hs. split; [exact Ep |]. split; [exact El |].
  apply health_loop_spec in El as (Hl & _); [| by rewrite length_replicate ..].
  split; [exact Hl |]. simpl. intros t h Hh.
  assert (Ht : (t < len df)%nat) by (apply lookup_lt_Some in Hh; lia).
  unfold add_noise_and_clip. rewrite list_lookup_fmap, lookup_zip_with, Hh, (C t Ht).
  reflexivity.
Qed.

(** X19. In a run that completed, the score of a row outside the placed
    episodes is the score [h] that the health loop wrote for the row plus
    [0 + 1 * z], clipped to [0 .. 100], for [z] the variate number
    [8 * n_samples + t] that numpy's generator hands out from the start of
    the run: the noise of the scores comes right after the eight sensor
    columns in the seeded stream. *)
Theorem health_noise_from_stream fuel n p w df placed w' :
  pipeline_trace fuel n p w = Ok (df, placed) w' ->
  exists df1 w1 pts w2 hs,
    generate_normal_data n w = Ok df1 w1 /\
    draw_maintenance_points w1 = Ok pts w2 /\
    health_loop pts (total_machine_hours df1) n 0 100
      (replicate n 0%float) (replicate n 0) = Value (hs, days_to_maintenance df) /\
    length hs = n /\
    forall t h, hs !! t = Some h -> ~ covered placed (Z.of_nat t) ->
      machine_health_score df !! t =
        Some (clip 0 100 (h + (0 + 1 * np_gauss (np w) (np_pos (np w) + 8 * n + t)))%float).
Proof.
  intros H. assert (Hs := H).
  apply pipeline_trace_stages in Hs as (df1 & w1 & df2 & w2 & E1 & E2 & _ & Hn1 & _).
  apply pipeline_trace_rows in H
    as (df1' & w1' & df2' & w2' & E1' & E2' & _ & _ & _ & _ & _ & _ & K & _).
  rewrite E1 in E1'. injection E1' as <- <-.
  rewrite E2 in E2'. injection E2' as <- <-.
  destruct (generate_normal_data_np _ _ _ _ E1) as [G1 P1].
  destruct (generate_health_and_maintenance_np _ _ _ _ E2)
    as (_ & _ & pts & w3 & hs & Ep & El & Hl & Hcell).
  destruct K as (_ & _ & A3 & [_ A4] & _).
  rewrite Hn1 in El, Hl. rewrite <- A3 in El.
  exists df1, w1, pts, w3, hs. repeat (split; [done |]).
  intros t h Hh Hout. rewrite A4 by exact Hout.
  rewrite (Hcell t h Hh), G1, P1. reflexivity.
Qed.

(** X19 on the run of 300 rows. *)
Lemma health_noise_from_stream_run_300 :
  exists df w', run_300 = Ok (df, [(48, 7); (148, 8)]) w' /\
  exists df1 w1 pts w2 hs,
    generate_normal_data 300
      (boot still (draws [(318%nat, 2); (319%nat, 1); (325%nat, 100)])) = Ok df1 w1 /\
    draw_maintenance_points w1 = Ok pts w2 /\
    health_loop pts (total_machine_hours df1) 300 0 100
      (replicate 300 0%float) (replicate 300 0) = Value (hs, days_to_maintenance df) /\
    length hs = 300%nat /\
    forall t h, hs !! t = Some h -> ~ covered [(48, 7); (148, 8)] (Z.of_nat t) ->
      machine_health_score df !! t =
        Some (clip 0 100 (h + (0 + 1 * still (0 + 8 * 300 + t)))%float).
Proof.
  destruct run_300_returns as (df & w' & E). exists df, w'.
  split; [exact E |].
  exact (health_noise_from_stream _ _ _ _ _ _ _ E).
Defined.

(** One tick of an episode takes one variate for the noise of its severity. *)
Lemma anomaly_tick_noise ty cfg pr si start_pos seq_length df i w df' w' :
  (Z.to_nat (start_pos + i) < length (anomaly_severity df))%nat ->
  anomaly_tick ty cfg pr si start_pos seq_length df i w = Ok df' w' ->
  np_gauss (np w') = np_gauss (np w) /\ np_pos (np w') = S (np_pos (np w)) /\
  anomaly_severity df' !! Z.to_nat (start_pos + i) =
    Some (py_max 0.1 (py_min 1.0 (float_of_Z i / float_of_Z seq_length * pr
            + (0 + 0.05 * np_gauss (np w) (np_pos (np w))))))%float.
Proof.
  intros Hlt. unfold anomaly_tick.
  set (pos := Z.to_nat (start_pos + i)) in *. intros H.
  apply bind_ok in H as (noise & w1 & En & H).
  unfold normal, gauss, bind, ret in En. injection En as <- <-.
  set (sev := py_max _ _) in H.
  set (df1 := set_anomaly_severity _ _ _) in H.
  destruct (fold_perturb_same pos sev cfg df1) as (_ & _ & H3 & _ & _ & _ & H7).
  set (df2 := fold_left _ _ _) in *. clearbody df2.
  destruct (machine_health_score df2 !! pos) as [h |]; [| discriminate].
  injection H as <- <-. simpl. split; [done |]. split; [done |].
  rewrite H7. subst df1. simpl. by apply list_lookup_insert_eq.
Qed.

(** The ticks of one episode take the next variates in order. *)
Lemma for_each_ticks_noise ty cfg pr si s l : forall offsets df w df' w',
  NoDup (map fst cfg) -> 0 <= s -> NoDup offsets ->
  Forall (fun i => 0 <= i /\ s + i < Z.of_nat (len df)) offsets ->
  labelled df ->
  for_each (anomaly_tick ty cfg pr si s l) offsets df w = Ok df' w' ->
  np_gauss (np w') = np_gauss (np w) /\
  np_pos (np w') = (np_pos (np w) + length offsets)%nat /\
  forall k i, offsets !! k = Some i ->
    anomaly_severity df' !! Z.to_nat (s + i) =
      Some (py_max 0.1 (py_min 1.0 (float_of_Z i / float_of_Z l * pr
              + (0 + 0.05 * np_gauss (np w) (np_pos (np w) + k)))))%float.
Proof.
  induction offsets as [| i offsets IH]; intros df w df' w' Hcfg Hs Hnd Hin Hlab; simpl.
  - intros [= <- <-]. split; [done |]. split; [lia |]. intros k i Hk.
    by rewrite lookup_nil in Hk.
  - intros H. apply bind_ok in H as (df1 & w1 & E1 & H).
    apply NoDup_cons in Hnd as [Hi Hnd]. apply Forall_cons in Hin as [[Hi0 Hilt] Hin].
    assert (E1' := E1). apply anomaly_tick_noise in E1' as (G1 & P1 & S1);
      [| destruct Hlab as (_ & _ & _ & ->); lia].
    apply anomaly_tick_row in E1 as [K1 _]; [| done | lia | done | lia].
    pose proof (rows_kept_len _ _ _ K1) as Hlen.
    pose proof (rows_kept_labelled _ _ _ K1 Hlab) as Hlab1.
    assert (H' := H).
    apply for_each_ticks_rows in H' as [K2 _];
      [| done | done | done | by rewrite Hlen | done].
    apply IH in H as (G2 & P2 & S2); [| done | done | done | by rewrite Hlen | done].
    split; [congruence |]. split; [lia |].
    intros [| k] j Hk; simpl in Hk.
    + injection Hk as <-.
      destruct K2 as (_ & _ & _ & _ & _ & _ & [_ A7] & _).
      rewrite A7, S1; [by rewrite Nat.add_0_r |].
      intros (j & Hj & Heq).
      pose proof (proj1 (Forall_forall _ _) Hin j Hj) as [Hj0 _].
      assert (i = j) by lia. by subst j.
    + rewrite (S2 k j Hk), G1, P1. do 7 f_equal. lia.
Qed.

(** One pass of [for seq_length in sequences]: the rows of the episode take
    the next [seq_length] variates in order. *)
Lemma place_episode_noise fuel df seq_length w df' e w' :
  labelled df ->
  place_episode fuel df seq_length w = Ok (df', e) w' ->
  np_gauss (np w') = np_gauss (np w) /\
  np_pos (np w') = (np_pos (np w) + Z.to_nat seq_length)%nat /\
  exists start_pos ty cfg pr,
    e = (start_pos, seq_length) /\
    dict_get anomaly_types ty = Some cfg /\
    dict_get cfg "progression_rate" = Some pr /\
    rows_kept (fun t => start_pos <= Z.of_nat t < start_pos + seq_length) df df' /\
    forall t, start_pos <= Z.of_nat t < start_pos + seq_length ->
      anomaly_type df' !! t = Some ty /\
      anomaly_severity df' !! t =
        Some (py_max 0.1 (py_min 1.0
                (float_of_Z (Z.of_nat t - start_pos) / float_of_Z seq_length * pr
                 + (0 + 0.05 * np_gauss (np w)
                                 (np_pos (np w) + Z.to_nat (Z.of_nat t - start_pos))))))%float.
Proof.
  intros Hlab H.
  destruct (place_episode_rows _ _ _ _ _ _ _ Hlab H)
    as (s1 & ty1 & cfg1 & pr1 & si1 & He1 & _ & _ & _ & K & _).
  assert (Hspec := H). apply place_episode_spec in Hspec as (s' & He & Hs' & _).
  unfold place_episode in H.
  apply bind_ok in H as (ty & w1 & Ec & H). apply py_only_choice in Ec.
  destruct (dict_get anomaly_types ty) as [cfg |] eqn:Ecfg; [| discriminate].
  apply bind_ok in H as (s0 & w2 & E0 & H). apply py_only_randint in E0.
  apply bind_ok in H as (s & w3 & Es & H). apply py_only_redraw_start in Es.
  destruct (dict_get cfg "progression_rate") as [pr |] eqn:Epr; [| discriminate].
  destruct (dict_get cfg "severity_impact") as [si |] eqn:Esi; [| discriminate].
  apply bind_ok in H as (df1 & w4 & Ef & H). injection H as <- <- <-.
  injection He as <-. injection He1 as <-.
  assert (Hin : Forall (fun i => 0 <= i /\ s + i < Z.of_nat (len df)) (range seq_length)).
  { apply Forall_forall. intros i Hi. apply elem_of_range in Hi. lia. }
  assert (Ef' := Ef).
  apply for_each_ticks_rows in Ef' as [_ W];
    [| by apply (catalog_keys_NoDup ty) | lia | apply range_NoDup | done | done].
  apply for_each_ticks_noise in Ef as (G & P & S);
    [| by apply (catalog_keys_NoDup ty) | lia | apply range_NoDup | done | done].
  rewrite Es, E0, Ec in G, P, S.
  unfold range in P. rewrite length_map, length_seq in P.
  split; [exact G |]. split; [exact P |].
  exists s, ty, cfg, pr. repeat (split; [done |]).
  intros t Ht. split.
  - replace t with (Z.to_nat (s + (Z.of_nat t - s))) by lia.
    apply W, elem_of_range. lia.
  - specialize (S (Z.to_nat (Z.of_nat t - s)) (Z.of_nat t - s)).
    replace (Z.to_nat (s + (Z.of_nat t - s))) with t in S by lia.
    apply S. unfold range. rewrite list_lookup_fmap, lookup_seq_lt by lia.
    simpl. f_equal. lia.
Qed.

Lemma sum_Z_nonneg (l : list Z) : Forall (fun x => 0 < x) l -> 0 <= sum_Z l.
Proof.
  induction 1 as [| x l Hx _ IH]; [done |]. rewrite sum_Z_cons. lia.
Qed.

(** The whole placement loop: the episodes take the variates in the order
    in which they are placed, one per row. *)
Lemma place_episodes_noise fuel : forall sequences df placed w df' placed' w',
  placement_inv df placed -> Forall (fun l => 0 < l) sequences -> labelled df ->
  place_episodes fuel sequences df placed w = Ok (df', placed') w' ->
  exists new, placed' = placed ++ new /\ map snd new = sequences /\
    forall m s l, new !! m = Some (s, l) ->
      exists ty cfg pr,
        dict_get anomaly_types ty = Some cfg /\
        dict_get cfg "progression_rate" = Some pr /\
        forall t, s <= Z.of_nat t < s + l ->
          anomaly_type df' !! t = Some ty /\
          anomaly_severity df' !! t =
            Some (py_max 0.1 (py_min 1.0
                    (float_of_Z (Z.of_nat t - s) / float_of_Z l * pr
                     + (0 + 0.05 * np_gauss (np w)
                         (np_pos (np w)
                          + Z.to_nat (sum_Z (take m sequences) + (Z.of_nat t - s)))))))%float.
Proof.
  induction sequences as [| l rest IH]; intros df placed w df' placed' w' Hinv Hpos Hlab.
  - simpl. intros [= <- <- _]. exists []. split; [by rewrite app_nil_r |].
    split; [done |]. intros m s l Hm. by rewrite lookup_nil in Hm.
  - rewrite place_episodes_cons. intros H.
    apply bind_ok in H as ([df1 e] & w1 & E1 & H). simpl in H.
    apply Forall_cons in Hpos as [Hl Hrest].
    destruct (place_episode_inv _ _ _ _ _ _ _ _ Hinv Hl E1) as [_ Hinv1].
    apply place_episode_noise in E1
      as (G1 & P1 & s & ty & cfg & pr & -> & Ecfg & Epr & K1 & S1); [| done].
    pose proof (rows_kept_labelled _ _ _ K1 Hlab) as Hlab1.
    destruct (place_episodes_inv _ _ _ _ _ _ _ _ Hinv1 Hrest H) as [Hinv' _].
    destruct (place_episodes_rows _ _ _ _ _ _ _ _ Hinv1 Hrest Hlab1 H)
      as (new & Enew & K2 & _).
    apply IH in H as (new' & Enew' & Hsnd & S2); [| done | done | done].
    rewrite Enew in Enew'. apply app_inv_head in Enew'. subst new'.
    subst placed'.
    assert (Hap : forall s2 l2, (s2, l2) ∈ new -> apart (s, l) (s2, l2)).
    { intros s2 l2 Hm. apply list_elem_of_lookup_1 in Hm as [k Hk].
      apply (inv_apart _ _ Hinv' (length placed) (length placed + 1 + k)%nat); [lia | |].
      - rewrite <- app_assoc. rewrite lookup_app_r by lia.
        replace (length placed - length placed)%nat with 0%nat by lia. done.
      - rewrite lookup_app_r by (rewrite length_app; simpl; lia).
        rewrite length_app. simpl.
        replace (length placed + 1 + k - (length placed + 1))%nat with k by lia. done. }
    exists ((s, l) :: new). split; [by rewrite <- app_assoc |].
    split; [simpl; by rewrite Hsnd |].
    intros [| m] s2 l2 Hm; simpl in Hm.
    + injection Hm as <- <-. exists ty, cfg, pr. repeat (split; [done |]).
      intros t Ht. destruct (S1 t Ht) as [T1 V1].
      destruct K2 as (_ & _ & _ & _ & _ & [_ A6] & [_ A7] & _).
      assert (Hout : ~ covered new (Z.of_nat t)).
      { intros (s2 & l2 & Hm & Ht2). exact (apart_disjoint _ _ _ (Hap s2 l2 Hm) Ht Ht2). }
      rewrite A6, A7 by exact Hout. split; [exact T1 |].
      rewrite V1. simpl. do 8 f_equal; lia.
    + destruct (S2 m s2 l2 Hm) as (ty2 & cfg2 & pr2 & Ecfg2 & Epr2 & V).
      exists ty2, cfg2, pr2. repeat (split; [done |]).
      intros t Ht. destruct (V t Ht) as [T2 V2]. split; [exact T2 |].
      rewrite V2, G1, P1. do 7 f_equal.
      rewrite firstn_cons, sum_Z_cons.
      assert (0 <= sum_Z (take m rest)).
      { apply sum_Z_nonneg. eapply Forall_take. exact Hrest. }
      lia.
Qed.

(** X20. In a run that completed, the noise of the severity of a row of a
    placed episode is [0 + 0.05 * z], for [z] the variate of numpy's
    generator that follows the [9 * n_samples] variates of the first two
    stages by the number of episode rows written before it: the rows
    of the episodes placed earlier, and the earlier rows of its own
    episode. *)
Theorem severity_noise_from_stream fuel n p w df placed w' :
  pipeline_trace fuel n p w = Ok (df, placed) w' ->
  forall m s l, placed !! m = Some (s, l) ->
    exists ty cfg pr,
      dict_get anomaly_types ty = Some cfg /\
      dict_get cfg "progression_rate" = Some pr /\
      forall t, s <= Z.of_nat t < s + l ->
        anomaly_type df !! t = Some ty /\
        anomaly_severity df !! t =
          Some (py_max 0.1 (py_min 1.0
                  (float_of_Z (Z.of_nat t - s) / float_of_Z l * pr
                   + (0 + 0.05 * np_gauss (np w)
                       (np_pos (np w) + 9 * n
                        + Z.to_nat (sum_Z (map snd (take m placed)) + (Z.of_nat t - s)))))))%float.
Proof.
  intros H m s l Hm.
  apply pipeline_trace_stages in H
    as (df1 & w1 & df2 & w2 & E1 & E2 & H & Hn1 & Hn & Hf & Hh).
  destruct (generate_normal_data_np _ _ _ _ E1) as [G1 P1].
  destruct (generate_health_and_maintenance_np _ _ _ _ E2) as (G2 & P2 & _).
  destruct (generate_health_and_maintenance_labels _ _ _ _ E2) as [Hty Hsev].
  rewrite Hn1 in Hty, Hsev, P2.
  unfold introduce_anomalies_trace in H.
  apply bind_ok in H as (sequences & w3 & Es & H).
  assert (Hnp := Es). apply py_only_draw_sequences in Hnp.
  apply draw_sequences_spec in Es as (budget & _ & _ & Hpos).
  apply place_episodes_noise in H as (new & -> & Hsnd & S); [| | done |].
  - destruct (S m s l Hm) as (ty & cfg & pr & Ecfg & Epr & V).
    exists ty, cfg, pr. repeat (split; [done |]).
    intros t Ht. destruct (V t Ht) as [T2 V2]. split; [exact T2 |].
    rewrite V2, Hnp, G2, G1, P2, P1. do 7 f_equal.
    rewrite <- Hsnd. simpl app. rewrite <- firstn_map. lia.
  - apply placement_inv_nil; by rewrite Hn.
  - unfold labelled. by rewrite Hn, Hh, Hf, Hty, Hsev, !length_replicate.
Qed.

(** X20 on the run of 300 rows. *)
Lemma severity_noise_from_stream_run_300 :
  exists df w', run_300 = Ok (df, [(48, 7); (148, 8)]) w' /\
  forall m s l, [(48, 7); (148, 8)] !! m = Some (s, l) ->
    exists ty cfg pr,
      dict_get anomaly_types ty = Some cfg /\
      dict_get cfg "progression_rate" = Some pr /\
      forall t, s <= Z.of_nat t < s + l ->
        anomaly_type df !! t = Some ty /\
        anomaly_severity df !! t =
          Some (py_max 0.1 (py_min 1.0
                  (float_of_Z (Z.of_nat t - s) / float_of_Z l * pr
                   + (0 + 0.05 * still
                       (0 + 9 * 300
                        + Z.to_nat (sum_Z (map snd (take m [(48, 7); (148, 8)]%Z))
                                    + (Z.of_nat t - s)))))))%float.
Proof.
  destruct run_300_returns as (df & w' & E). exists df, w'.
  split; [exact E |].
  exact (severity_noise_from_stream _ _ _ _ _ _ _ E).
Defined.

(** ** The three label columns agree *)

Lemma catalog_not_normal cfg : dict_get anomaly_types "normal" = Some cfg -> False.
Proof. discriminate. Qed.

(** X21. In a run that completed, the three label columns agree on every
    row: either the row is not flagged, its type is "normal" and its
    severity is 0, or the row is flagged, its type is a key of the catalog
    (so not "normal") and its severity is within [0.1 .. 1.0]. *)
Theorem labels_consistent fuel n p w df placed w' :
  pipeline_trace fuel n p w = Ok (df, placed) w' ->
  forall t, (t < n)%nat ->
    (is_anomaly df !! t = Some 0 /\
     anomaly_type df !! t = Some "normal"%string /\
     anomaly_severity df !! t = Some 0%float) \/
    (is_anomaly df !! t = Some 1 /\
     exists ty cfg sev,
       anomaly_type df !! t = Some ty /\
       dict_get anomaly_types ty = Some cfg /\ ty <> "normal"%string /\
       anomaly_severity df !! t = Some sev /\
       PrimFloat.leb 0.1 sev = true /\ PrimFloat.leb sev 1 = true).
Proof.
  intros H t Ht. assert (Hinv := H).
  apply pipeline_trace_inv in Hinv as (Hlen & Hinv & _).
  apply pipeline_trace_rows in H
    as (df1 & w1 & df2 & w2 & E1 & E2 & Hn & Hm & Hf & Hty & Hsev & Hh & K & W).
  destruct (lookup_lt_is_Some_2 (is_anomaly df) t) as [x Ex].
  { rewrite (inv_flags_len _ _ Hinv), Hlen. exact Ht. }
  destruct (inv_flags _ _ Hinv t x Ex) as [[-> (s & l & Hin & Hs)] | [-> Hout]].
  - right. split; [exact Ex |].
    destruct (W s l Hin) as (ty & cfg & pr & si & Ecfg & _ & _ & Hrow).
    destruct (Hrow t Hs) as (_ & R2 & z & sev & -> & R4 & _).
    eexists ty, cfg, _. split; [exact R2 |]. split; [exact Ecfg |].
    split; [intros ->; exact (catalog_not_normal cfg Ecfg) |].
    split; [exact R4 |]. apply severity_in_range.
  - left. split; [exact Ex |].
    destruct K as (_ & _ & _ & _ & _ & [_ A6] & [_ A7] & _).
    rewrite A6, A7, Hty, Hsev by exact Hout.
    split; by apply lookup_replicate_2.
Qed.

(** X21 on the run of 300 rows. *)
Lemma labels_consistent_run_300 :
  exists df w', run_300 = Ok (df, [(48, 7); (148, 8)]) w' /\
  forall t, (t < 300)%nat ->
    (is_anomaly df !! t = Some 0 /\
     anomaly_type df !! t = Some "normal"%string /\
     anomaly_severity df !! t = Some 0%float) \/
    (is_anomaly df !! t = Some 1 /\
     exists ty cfg sev,
       anomaly_type df !! t = Some ty /\
       dict_get anomaly_types ty = Some cfg /\ ty <> "normal"%string /\
       anomaly_severity df !! t = Some sev /\
       PrimFloat.leb 0.1 sev = true /\ PrimFloat.leb sev 1 = true).
Proof.
  destruct run_300_returns as (df & w' & E). exists df, w'.
  split; [exact E |].
  exact (labels_consistent _ _ _ _ _ _ _ E).
Defined.

(** ** What the health loop can write *)

(** X22. The second stage never raises: on every table that
    [generate_normal_data] returns, [generate_health_and_maintenance]
    returns, because [int(current_health / 10)] is only ever taken on one of
    the values that 100 decays to, which are numbers. *)
Theorem health_pass_never_raises n w df1 w1 :
  generate_normal_data n w = Ok df1 w1 ->
  exists df2 w2, generate_health_and_maintenance df1 w1 = Ok df2 w2.
Proof. apply generate_health_and_maintenance_returns. Qed.

(** X22 on a table of 30 rows. *)
Lemma health_pass_never_raises_30_rows :
  exists df1 w1, generate_normal_data 30 (boot still (draws [])) = Ok df1 w1 /\
  exists df2 w2, generate_health_and_maintenance df1 w1 = Ok df2 w2.
Proof.
  destruct (generate_normal_data_spec 30 (boot still (draws [])) ltac:(lia) ltac:(vm_compute; discriminate))
    as (df & w' & tool & r & w1 & w2 & E & _).
  exists df, w'. split; [exact E |].
  exact (health_pass_never_raises _ _ _ _ E).
Defined.

(** The health pass of a run that completed, in closed form. *)
Lemma pipeline_health_closed_form fuel n p w df placed w' :
  pipeline_trace fuel n p w = Ok (df, placed) w' ->
  exists df1 w1 pts w2 hs,
    generate_normal_data n w = Ok df1 w1 /\
    draw_maintenance_points w1 = Ok pts w2 /\
    health_loop pts (total_machine_hours df1) n 0 100
      (replicate n 0%float) (replicate n 0) = Value (hs, days_to_maintenance df) /\
    forall t, (t < n)%nat ->
      hs !! t = Some (health_after (since pts t)) /\
      exists d, days_to_maint (health_after (since pts t)) = Value d /\
        days_to_maintenance df !! t = Some (if bool_decide (Z.of_nat t ∈ pts) then 30 else d).
Proof.
  intros H.
  apply pipeline_health_pass in H as (df1 & w1 & pts & w2 & hs & E1 & Ep & El).
  destruct (generate_normal_data_bound _ _ _ _ E1) as [_ Hn]. unfold last_hour in Hn.
  assert (H53 : 2 ^ 53 = 9007199254740992) by reflexivity.
  exists df1, w1, pts, w2, hs. repeat (split; [done |]).
  apply (health_loop_closed_form _ _ _ _ _ El); [| lia].
  intros j Hj. by apply (generate_normal_data_total _ _ _ _ E1).
Qed.

(** X23. In a run that completed, the score that the health loop wrote for
    tick [t] before the noise is what 100 decays to over the ticks since the
    last reset, by [max(20, h - 0.02 * (1.0 + 1.0 / 1000))] per tick (the
    reset is at the tick after the last checkpoint before [t], or at tick
    0), and the cell of [days_to_maintenance] is one of 30, 20, 10, 3 and
    2. *)
Theorem health_scores_closed_form fuel n p w df placed w' :
  pipeline_trace fuel n p w = Ok (df, placed) w' ->
  exists df1 w1 pts w2 hs,
    generate_normal_data n w = Ok df1 w1 /\
    draw_maintenance_points w1 = Ok pts w2 /\
    health_loop pts (total_machine_hours df1) n 0 100
      (replicate n 0%float) (replicate n 0) = Value (hs, days_to_maintenance df) /\
    forall t, (t < n)%nat ->
      hs !! t = Some (health_after (since pts t)) /\
      exists d, days_to_maintenance df !! t = Some d /\ d ∈ [30; 20; 10; 3; 2].
Proof.
  intros H.
  apply pipeline_health_closed_form in H
    as (df1 & w1 & pts & w2 & hs & E1 & Ep & El & Hform).
  exists df1, w1, pts, w2, hs. repeat (split; [done |]).
  intros t Ht. destruct (Hform t Ht) as (Hs & d & Ed & Hd). split; [exact Hs |].
  destruct (days_to_maint_health_after (since pts t)) as (d' & Ed' & Hin).
  rewrite Ed in Ed'. injection Ed' as <-.
  destruct (bool_decide (Z.of_nat t ∈ pts)).
  - exists 30. split; [exact Hd |]. apply elem_of_cons. by left.
  - by exists d.
Qed.

(** X23 on the run of 602 rows. *)
Lemma health_scores_closed_form_run_602 :
  exists df w', run_602 = Ok (df, [(48, 6)]) w' /\
  exists df1 w1 pts w2 hs,
    generate_normal_data 602 (boot still (draws [])) = Ok df1 w1 /\
    draw_maintenance_points w1 = Ok pts w2 /\
    health_loop pts (total_machine_hours df1) 602 0 100
      (replicate 602 0%float) (replicate 602 0) = Value (hs, days_to_maintenance df) /\
    forall t, (t < 602)%nat ->
      hs !! t = Some (health_after (since pts t)) /\
      exists d, days_to_maintenance df !! t = Some d /\ d ∈ [30; 20; 10; 3; 2].
Proof.
  destruct run_602_returns as (df & w' & E). exists df, w'.
  split; [exact E |].
  exact (health_scores_closed_form _ _ _ _ _ _ _ E).
Defined.

(** X24. In a run that completed on at most 3040 rows, as the script's 2160
    are, every cell of [days_to_maintenance] is 30: no more than 999 ticks
    pass between two resets of [current_health], and over 999 ticks the
    health stays above 80. *)
Theorem days_to_maintenance_all_30 fuel n p w df placed w' :
  (n <= 3040)%nat ->
  pipeline_trace fuel n p w = Ok (df, placed) w' ->
  days_to_maintenance df = replicate n 30.
Proof.
  intros Hn H.
  apply pipeline_health_closed_form in H
    as (df1 & w1 & pts & w2 & hs & E1 & Ep & El & Hform).
  destruct (draw_maintenance_points_spec w1) as (p1 & p2 & p3 & w2' & Ep' & H1 & H2 & H3).
  rewrite Ep in Ep'. injection Ep' as -> <-.
  apply health_loop_spec in El as (_ & Hld & _); [| by rewrite length_replicate ..].
  apply list_eq. intros t. destruct (decide (t < n)%nat) as [Ht | Ht].
  2: { rewrite !lookup_ge_None_2; [done | rewrite length_replicate; lia | lia]. }
  rewrite lookup_replicate_2 by done.
  destruct (Hform t Ht) as (_ & d & Ed & ->). f_equal.
  destruct (bool_decide (Z.of_nat t ∈ [p1; p2; p3])); [done |].
  assert (Hs : (since [p1; p2; p3] t <= 999)%nat).
  { pose proof (since_le [p1; p2; p3] t) as H0.
    assert (Hin1 : Z.of_nat (Z.to_nat p1) ∈ [p1; p2; p3])
      by (rewrite Z2Nat.id by lia; apply elem_of_cons; by left).
    assert (Hin2 : Z.of_nat (Z.to_nat p2) ∈ [p1; p2; p3])
      by (rewrite Z2Nat.id by lia; apply elem_of_cons; right; apply elem_of_cons; by left).
    assert (Hin3 : Z.of_nat (Z.to_nat p3) ∈ [p1; p2; p3])
      by (rewrite Z2Nat.id by lia; do 2 (apply elem_of_cons; right); apply elem_of_cons; by left).
    pose proof (since_checkpoint _ _ t Hin1) as C1.
    pose proof (since_checkpoint _ _ t Hin2) as C2.
    pose proof (since_checkpoint _ _ t Hin3) as C3.
    destruct (decide (Z.to_nat p3 < t)%nat); [specialize (C3 ltac:(lia)); lia |].
    destruct (decide (Z.to_nat p2 < t)%nat); [specialize (C2 ltac:(lia)); lia |].
    destruct (decide (Z.to_nat p1 < t)%nat); [specialize (C1 ltac:(lia)); lia |].
    lia. }
  unfold days_to_maint in Ed. rewrite (health_after_above_80 _ Hs) in Ed.
  by injection Ed as <-.
Qed.

(** X24 on the script as it is. *)
Lemma days_to_maintenance_all_30_run_script :
  exists df placed w', run_script = Ok (df, placed) w' /\
    days_to_maintenance df = replicate n_samples 30.
Proof.
  destruct run_script_returns as (df & placed & w' & E & _). exists df, placed, w'.
  split; [exact E |].
  refine (days_to_maintenance_all_30 _ _ _ _ _ _ _ _ E). vm_compute. lia.
Defined.

(** ** Tables with a row past the last [datetime] *)


(** ** [random.shuffle] *)



Lemma swap_same {A} (x : list A) i : swap x i i = x.
Proof.
  unfold swap. destruct (x !! i) as [a |] eqn:Ea; [| done].
  by rewrite list_insert_insert_eq, list_insert_id.
Qed.



Lemma shuffle_from_keeps i : forall (x : list Z) w,
  (forall k, (0 < k <= i)%nat ->
     py_bits (py w) (py_pos (py w) + (i - k)) `mod` (Z.of_nat k + 1) = Z.of_nat k) ->
  exists w', shuffle_from i x w = Ok x w'.
Proof.
  induction i as [| i IH]; intros x w Hdraw; simpl.
  - by exists w.
  - unfold randbelow, getrand, bind at 1 2, ret.
    pose proof (Hdraw (S i) ltac:(lia)) as H0.
    rewrite Nat.sub_diag, Nat.add_0_r in H0. rewrite H0.
    rewrite Nat2Z.id, swap_same.
    apply IH. simpl. intros k Hk.
    rewrite <- (Hdraw k ltac:(lia)) at 2.
    replace (py_pos (py w) + (S i - k))%nat with (S (py_pos (py w) + (i - k))) by lia.
    reflexivity.
Qed.

(** X27. [random.shuffle] can leave the list as it is: it does when each
    draw [randbelow(i + 1)] gives [i], so that every element is exchanged
    with itself. *)
Theorem shuffle_can_keep_order (x : list Z) (w : world) :
  (forall i, (0 < i < length x)%nat ->
     py_bits (py w) (py_pos (py w) + (length x - 1 - i)) `mod` (Z.of_nat i + 1)
       = Z.of_nat i) ->
  exists w', shuffle x w = Ok x w'.
Proof.
  intros H. unfold shuffle. apply shuffle_from_keeps.
  intros k Hk. apply H. lia.
Qed.

(** X27 on episodes of 10 and 3 hours, with the draw 1. *)
Lemma shuffle_can_keep_order_10_3 :
  exists w', shuffle [10; 3] (boot still (draws [(0%nat, 1)])) = Ok [10; 3] w'.
Proof.
  apply (shuffle_can_keep_order [10; 3] (boot still (draws [(0%nat, 1)]))).
  intros i Hi. assert (i = 1%nat) as -> by (simpl in Hi; lia). reflexivity.
Defined.
